(** * Agent Identity Hub: identity and trust engine

    A shallow embedding of the capability issuer
    ([src/services/capability-issuer.ts]), the DID service
    ([src/services/did-service.ts]), the attestation service
    ([src/services/attestation-service.ts]) and the trust engine
    ([src/services/trust-engine.ts]), with the properties of their
    specification stated and settled against the embedding.

    Conventions of the embedding.
    - A JavaScript [number] is an exact rational ([Q]); a [Date] is its
      [getTime()] value, an integer count of milliseconds ([Z]).
    - The relational store is a record of tables; every operation threads it
      explicitly and keeps what was written before an exception was thrown
      (the services run their statements outside transactions).
    - Clock reads, random identifiers and the environment are arguments of
      the operations: [now] is what [new Date()] returns, [db_now] what the
      store's [CURRENT_TIMESTAMP] returns. *)

From Stdlib Require Import ZArith QArith Qround Lqa String Ascii List Bool Sorted.
From stdpp Require Import gmap strings list sorting pretty.
Import ListNotations.

Local Open Scope Z_scope.
Local Open Scope string_scope.

(** ** JavaScript values and the string methods the services call *)

Module Js.

(** Values that travel through [unknown]-typed fields: condition values,
    verification contexts, activity metadata.  They are parsed from JSON
    (request bodies, JSONB columns), so an array or an object is always a
    fresh reference. *)
#[local] Unset Elimination Schemes.
Inductive Value : Type :=
| Undefined
| Null
| Boolean (b : bool)
| Number (q : Q)
| Str (s : string)
| Array (elems : list Value)
| Object (props : list (string * Value)).
#[local] Set Elimination Schemes.

(** [typeof v] *)
Definition typeof (v : Value) : string :=
  match v with
  | Undefined => "undefined"
  | Null => "object"
  | Boolean _ => "boolean"
  | Number _ => "number"
  | Str _ => "string"
  | Array _ => "object"
  | Object _ => "object"
  end.

(** [a === b].  Primitives compare by value; two arrays or objects met
    here never share a reference. *)
Definition strict_equals (a b : Value) : bool :=
  match a, b with
  | Undefined, Undefined => true
  | Null, Null => true
  | Boolean x, Boolean y => Bool.eqb x y
  | Number x, Number y => Qeq_bool x y
  | Str x, Str y => String.eqb x y
  | _, _ => false
  end.

(** [Array.prototype.includes] (SameValueZero agrees with [===] on the
    values of this model, which has no NaN). *)
Definition Array_includes (l : list Value) (v : Value) : bool :=
  existsb (fun x => strict_equals x v) l.

(** [s.startsWith(p)] *)
Definition startsWith (s p : string) : bool := String.prefix p s.

(** [s.includes(sub)] *)
Fixpoint includes (s sub : string) : bool :=
  String.prefix sub s ||
  match s with
  | EmptyString => false
  | String _ rest => includes rest sub
  end.

(** [parts.join(sep)] on strings *)
Fixpoint join (sep : string) (parts : list string) : string :=
  match parts with
  | [] => ""
  | [p] => p
  | p :: rest => p ++ sep ++ join sep rest
  end.

Definition hex_digit (n : N) : ascii :=
  match n with
  | 0 => "0" | 1 => "1" | 2 => "2" | 3 => "3" | 4 => "4" | 5 => "5"
  | 6 => "6" | 7 => "7" | 8 => "8" | 9 => "9" | 10 => "a" | 11 => "b"
  | 12 => "c" | 13 => "d" | 14 => "e" | _ => "f"
  end%N%char.

Definition double_quote : ascii := ascii_of_N 34.

(** The escape [JSON.stringify] writes for one character of a string. *)
Definition json_escape_char (c : ascii) : string :=
  let n := N_of_ascii c in
  if (n =? 34)%N then String "\" (String double_quote "")
  else if (n =? 92)%N then "\\"
  else if (n =? 8)%N then "\b"
  else if (n =? 9)%N then "\t"
  else if (n =? 10)%N then "\n"
  else if (n =? 12)%N then "\f"
  else if (n =? 13)%N then "\r"
  else if (n <? 32)%N then
    "\u00" ++ String (hex_digit (n / 16)) (String (hex_digit (n mod 16)) "")
  else String c "".

Fixpoint json_escape (s : string) : string :=
  match s with
  | EmptyString => ""
  | String c rest => json_escape_char c ++ json_escape rest
  end.

Definition json_quote (s : string) : string :=
  String double_quote (json_escape s ++ String double_quote "").

(** [Math.min], [Math.max] *)
Definition Math_min (a b : Q) : Q := if Qle_bool a b then a else b.
Definition Math_max (a b : Q) : Q := if Qle_bool a b then b else a.

Section Printing.
(** [Number.prototype.toString] for a finite number; the decimal
    rendering of a double is left to the caller. *)
Variable Number_toString : Q -> string.

(** [String(v)], as a template literal applies it. *)
Fixpoint ToString (v : Value) : string :=
  match v with
  | Undefined => "undefined"
  | Null => "null"
  | Boolean true => "true"
  | Boolean false => "false"
  | Number q => Number_toString q
  | Str s => s
  | Array elems =>
      join "," (map (fun e => match e with
                              | Undefined | Null => ""
                              | _ => ToString e
                              end) elems)
  | Object _ => "[object Object]"
  end.

(** [arr.join(sep)] on values *)
Definition Array_join (sep : string) (elems : list Value) : string :=
  join sep (map (fun e => match e with
                          | Undefined | Null => ""
                          | _ => ToString e
                          end) elems).

(** [JSON.stringify(v)]; [None] is the [undefined] it returns for
    [undefined].  Properties holding [undefined] are skipped, array
    holes print as [null]. *)
Fixpoint JSON_stringify (v : Value) : option string :=
  match v with
  | Undefined => None
  | Null => Some "null"
  | Boolean true => Some "true"
  | Boolean false => Some "false"
  | Number q => Some (Number_toString q)
  | Str s => Some (json_quote s)
  | Array elems =>
      Some ("[" ++ join "," (map (fun e => match JSON_stringify e with
                                           | Some t => t
                                           | None => "null"
                                           end) elems) ++ "]")
  | Object props =>
      Some ("{" ++ join ","
              (flat_map (fun kv => match JSON_stringify (snd kv) with
                                   | Some t => [json_quote (fst kv) ++ ":" ++ t]
                                   | None => []
                                   end) props) ++ "}")
  end.

(** [JSON.stringify] of an object is always a string. *)
Definition JSON_stringify_object (props : list (string * Value)) : string :=
  match JSON_stringify (Object props) with
  | Some t => t
  | None => ""
  end.
End Printing.

End Js.

(** ** Data model ([src/models]) *)

Module Model.

(** [Date]: milliseconds since the epoch. *)
Abbreviation Date := Z.

(** [new Date(x)] for a numeric [x]: the time value is truncated to an
    integer.  Numbers are rationals here and binary64 in the code: the two
    agree where the operands and the result are integers below 2^53, which
    covers times within the range of [Date] (8.64e15 ms either side of the
    epoch) offset by whole hours.  On a fraction of an hour the code can
    land one millisecond off, and beyond that range [new Date] is invalid;
    neither is modelled. *)
Definition Date_of_number (x : Q) : Date :=
  if Qle_bool 0 x then Qfloor x else Qceiling x.

Inductive AgentType : Set :=
| ORCHESTRATOR | WORKER | VALIDATOR | GATEWAY | SPECIALIST | USER_PROXY.

Module AgentStatus.
Inductive t : Set := ACTIVE | INACTIVE | SUSPENDED | REVOKED | PENDING.
#[global] Instance eq_dec : EqDecision t.
Proof. solve_decision. Defined.
End AgentStatus.

Record Agent : Type := {
  agent_id : string;
  agent_did : string;
  agent_name : string;
  agent_type : AgentType;
  agent_publicKey : string;
  agent_trustScore : Q;
  agent_reputation : Z;
  agent_status : AgentStatus.t;
  agent_capabilities : list string;
  agent_metadata : list (string * Js.Value);
  agent_createdAt : Date;
  agent_updatedAt : Date;
  agent_lastActiveAt : Date
}.

Inductive RelationshipType : Set :=
| DELEGATES_TO | VERIFIES | COMMUNICATES_WITH | SUPERVISES | DEPENDS_ON | REPLACES.

Record AgentRelationship : Type := {
  rel_id : string;
  rel_sourceAgentId : string;
  rel_targetAgentId : string;
  rel_relationshipType : RelationshipType;
  rel_trustLevel : Q;
  rel_permissions : list string;
  rel_establishedAt : Date;
  rel_lastInteractionAt : Date;
  rel_interactionCount : Z
}.

Module ActivityType.
Inductive t : Set :=
| IDENTITY_CREATED | IDENTITY_UPDATED | CAPABILITY_GRANTED | CAPABILITY_REVOKED
| ATTESTATION_ISSUED | ATTESTATION_VERIFIED | INTERACTION | ANOMALY_DETECTED
| TRUST_SCORE_UPDATED.
#[global] Instance eq_dec : EqDecision t.
Proof. solve_decision. Defined.

(** The enum's string value, the key of [typeCounts]. *)
Definition to_string (a : t) : string :=
  match a with
  | IDENTITY_CREATED => "identity_created"
  | IDENTITY_UPDATED => "identity_updated"
  | CAPABILITY_GRANTED => "capability_granted"
  | CAPABILITY_REVOKED => "capability_revoked"
  | ATTESTATION_ISSUED => "attestation_issued"
  | ATTESTATION_VERIFIED => "attestation_verified"
  | INTERACTION => "interaction"
  | ANOMALY_DETECTED => "anomaly_detected"
  | TRUST_SCORE_UPDATED => "trust_score_updated"
  end.
End ActivityType.

Record AgentActivity : Type := {
  act_id : string;
  act_agentId : string;
  act_activityType : ActivityType.t;
  act_description : string;
  act_timestamp : Date;
  act_metadata : list (string * Js.Value);
  act_relatedAgentIds : option (list string)
}.

(** *** Capabilities ([src/models/capability.ts]) *)

Record CapabilityCondition : Type := {
  cond_type : string;
  cond_parameter : string;
  cond_operator : string;
  cond_value : Js.Value
}.

Module CapabilityStatus.
Inductive t : Set := ACTIVE | EXPIRED | REVOKED | PENDING.
#[global] Instance eq_dec : EqDecision t.
Proof. solve_decision. Defined.
End CapabilityStatus.

(** The [proof] field is never written by the issuer and is left out. *)
Record Capability : Type := {
  cap_id : string;
  cap_subject : string;
  cap_issuer : string;
  cap_actions : list string;
  cap_resources : list string;
  cap_conditions : option (list CapabilityCondition);
  cap_notBefore : option Date;
  cap_expiration : option Date;
  cap_issuedAt : Date;
  cap_revokedAt : option Date;
  cap_status : CapabilityStatus.t
}.

Record CapabilityRequest : Type := {
  req_subject : string;
  req_actions : list string;
  req_resources : list string;
  req_conditions : option (list CapabilityCondition);
  req_expiresInHours : option Q
}.

Record CapabilityVerificationResult : Type := {
  valid : bool;
  capability : option Capability;
  subject : option string;
  allowedActions : option (list string);
  errors : option (list string)
}.

Record Restrictions : Type := {
  restr_actions : option (list string);
  restr_resources : option (list string)
}.

Record CapabilityDelegation : Type := {
  deleg_id : string;
  deleg_capabilityId : string;
  deleg_delegator : string;
  deleg_delegatee : string;
  deleg_restrictions_actions : list string;
  deleg_restrictions_resources : list string;
  deleg_delegatedAt : Date;
  deleg_expiresAt : option Date
}.

(** *** Attestations ([src/models/attestation.ts]) *)

Module AttestationType.
Inductive t : Set :=
| IDENTITY_VERIFICATION | CAPABILITY_AUTHORIZATION | BEHAVIOR_ASSERTION
| TRUST_ASSERTION | COMPLETION_CERTIFICATE | MEMBERSHIP | CUSTOM.
#[global] Instance eq_dec : EqDecision t.
Proof. solve_decision. Defined.
End AttestationType.

Record AttestationClaim : Type := {
  claim_type : string;
  claim_value : Js.Value;
  claim_issuer : option string
}.

Record AttestationProof : Type := {
  proof_type : string;
  proof_created : string;
  proof_proofPurpose : string;
  proof_verificationMethod : string;
  proof_proofValue : string
}.

Record RevocationInfo : Type := {
  revocation_revokedAt : Date;
  revocation_reason : option string;
  revocation_revokedBy : string
}.

Record Attestation : Type := {
  att_id : string;
  att_type : AttestationType.t;
  att_issuer : string;
  att_subject : string;
  att_claims : list AttestationClaim;
  att_issuedAt : Date;
  att_expiresAt : option Date;
  att_revocation : option RevocationInfo;
  att_proof : option AttestationProof
}.

Record AttestationFilter : Type := {
  filter_issuer : option string;
  filter_subject : option string;
  filter_type : option AttestationType.t;
  filter_validOnly : bool;
  filter_issuedAfter : option Date;
  filter_issuedBefore : option Date
}.

Record AttestationChain : Type := {
  chain_attestations : list Attestation;
  chain_rootIssuer : string;
  chain_subject : string;
  chain_chainValid : bool;
  chain_trustScore : Q
}.

(** *** Trust scores and anomalies ([src/models/index.ts]) *)

Record TrustScoreCalculation : Type := {
  calc_agentId : string;
  calc_baseScore : Q;
  calc_attestations : nat;
  calc_positiveInteractions : nat;
  calc_negativeInteractions : nat;
  calc_recencyWeight : Q;
  calc_anomalyPenalty : Q;
  calc_finalScore : Q
}.

Module AnomalyType.
Inductive t : Set :=
| UNUSUAL_ACCESS_PATTERN | TRUST_MANIPULATION | CAPABILITY_ESCALATION
| IDENTITY_SPOOFING | BEHAVIOR_DEVIATION | COLLUSION_PATTERN.
#[global] Instance eq_dec : EqDecision t.
Proof. solve_decision. Defined.

Definition to_string (a : t) : string :=
  match a with
  | UNUSUAL_ACCESS_PATTERN => "unusual_access_pattern"
  | TRUST_MANIPULATION => "trust_manipulation"
  | CAPABILITY_ESCALATION => "capability_escalation"
  | IDENTITY_SPOOFING => "identity_spoofing"
  | BEHAVIOR_DEVIATION => "behavior_deviation"
  | COLLUSION_PATTERN => "collusion_pattern"
  end.
End AnomalyType.

Module AnomalySeverity.
Inductive t : Set := LOW | MEDIUM | HIGH | CRITICAL.
#[global] Instance eq_dec : EqDecision t.
Proof. solve_decision. Defined.

Definition to_value (s : t) : Js.Value :=
  Js.Str match s with
         | LOW => "low" | MEDIUM => "medium" | HIGH => "high" | CRITICAL => "critical"
         end.
End AnomalySeverity.

(** The [description] of an indicator is display text built with
    [toFixed]; it is left out. *)
Record AnomalyIndicator : Type := {
  ind_type : string;
  ind_value : Q;
  ind_threshold : Q
}.

Record AnomalyDetectionResult : Type := {
  anom_agentId : string;
  anom_anomalyType : AnomalyType.t;
  anom_severity : AnomalySeverity.t;
  anom_confidence : Q;
  anom_indicators : list AnomalyIndicator;
  anom_detectedAt : Date;
  anom_recommendedAction : string
}.

(** *** DID documents ([src/models/identity.ts]) *)

Record VerificationMethod : Type := {
  vm_id : string;
  vm_type : string;
  vm_controller : string;
  vm_publicKeyHex : option string
}.

Record DIDDocument : Type := {
  doc_id : string;
  doc_controller : option string;
  doc_verificationMethod : option (list VerificationMethod);
  doc_authentication : list string;
  doc_assertionMethod : list string;
  doc_created : option string;
  doc_updated : option string
}.

End Model.

(** ** The store and the identity manager ([src/utils/db.ts],
       [src/services/identity-manager.ts]) *)

Module Store.
Import Model.

(** A [DECIMAL(3,2)] column keeps two decimals, rounding half away from
    zero. *)
Definition decimal_3_2 (x : Q) : Q :=
  (if Qle_bool 0 x then inject_Z (Qfloor (x * 100 + (1 # 2))) / 100
   else inject_Z (Qceiling (x * 100 - (1 # 2))) / 100)%Q.

Record TrustScoreRow : Type := {
  ts_id : string;
  ts_agent_id : string;
  ts_score : Q;
  ts_calculated_at : Date
}.

Record AnomalyRow : Type := {
  arow_id : string;
  arow_anomaly : AnomalyDetectionResult;
  arow_resolved_at : option Date
}.

(** The tables, each row kept as the record the owning service's
    [map...FromDb] builds from it, together with the issuer's in-memory
    index [activeCapabilities].  [capabilities] is keyed by its primary
    key.  A row of [attestations] is kept as the columns that were written:
    reading it goes through [mapAttestationFromDb], which can throw. *)
Record State : Type := {
  agents : list Agent;
  agent_relationships : list AgentRelationship;
  capabilities : gmap string Capability;
  attestations : list Attestation;
  agent_activities : list AgentActivity;
  trust_scores : list TrustScoreRow;
  anomalies : list AnomalyRow;
  activeCapabilities : gmap string Capability
}.

Definition empty : State :=
  {| agents := []; agent_relationships := []; capabilities := ∅;
     attestations := []; agent_activities := []; trust_scores := [];
     anomalies := []; activeCapabilities := ∅ |}.

Definition set_agents (f : list Agent -> list Agent) (st : State) : State :=
  {| agents := f (agents st); agent_relationships := agent_relationships st;
     capabilities := capabilities st; attestations := attestations st;
     agent_activities := agent_activities st; trust_scores := trust_scores st;
     anomalies := anomalies st; activeCapabilities := activeCapabilities st |}.

Definition set_capabilities
    (f : gmap string Capability -> gmap string Capability) (st : State) : State :=
  {| agents := agents st; agent_relationships := agent_relationships st;
     capabilities := f (capabilities st); attestations := attestations st;
     agent_activities := agent_activities st; trust_scores := trust_scores st;
     anomalies := anomalies st; activeCapabilities := activeCapabilities st |}.

Definition set_agent_activities
    (f : list AgentActivity -> list AgentActivity) (st : State) : State :=
  {| agents := agents st; agent_relationships := agent_relationships st;
     capabilities := capabilities st; attestations := attestations st;
     agent_activities := f (agent_activities st); trust_scores := trust_scores st;
     anomalies := anomalies st; activeCapabilities := activeCapabilities st |}.

Definition set_trust_scores
    (f : list TrustScoreRow -> list TrustScoreRow) (st : State) : State :=
  {| agents := agents st; agent_relationships := agent_relationships st;
     capabilities := capabilities st; attestations := attestations st;
     agent_activities := agent_activities st; trust_scores := f (trust_scores st);
     anomalies := anomalies st; activeCapabilities := activeCapabilities st |}.

Definition set_anomalies (f : list AnomalyRow -> list AnomalyRow) (st : State) : State :=
  {| agents := agents st; agent_relationships := agent_relationships st;
     capabilities := capabilities st; attestations := attestations st;
     agent_activities := agent_activities st; trust_scores := trust_scores st;
     anomalies := f (anomalies st); activeCapabilities := activeCapabilities st |}.

Definition set_activeCapabilities
    (f : gmap string Capability -> gmap string Capability) (st : State) : State :=
  {| agents := agents st; agent_relationships := agent_relationships st;
     capabilities := capabilities st; attestations := attestations st;
     agent_activities := agent_activities st; trust_scores := trust_scores st;
     anomalies := anomalies st; activeCapabilities := f (activeCapabilities st) |}.

(** *** Exceptions ([src/utils/errors.ts]) and the monad of operations *)

Inductive AppError : Type :=
| NotFoundError (resource identifier : string)
| ValidationError (message : string)
| AuthorizationError (message : string)
| DIDError (message : string)
| TypeError (message : string)
| SyntaxError (message : string)
| DatabaseError (message : string)
| Error (message : string).

(** An operation reads and writes the store and either returns or throws;
    what it wrote before throwing stays written. *)
Definition M (A : Type) : Type := State -> (AppError + A) * State.

Definition ret {A} (a : A) : M A := fun st => (inr a, st).
Definition throw {A} (e : AppError) : M A := fun st => (inl e, st).
Definition bind {A B} (c : M A) (k : A -> M B) : M B :=
  fun st => match c st with
            | (inl e, st') => (inl e, st')
            | (inr a, st') => k a st'
            end.
Definition gets {A} (f : State -> A) : M A := fun st => (inr (f st), st).
(** A query that returns or throws, and writes nothing. *)
Definition reads {A} (f : State -> AppError + A) : M A := fun st => (f st, st).
Definition modify (f : State -> State) : M unit := fun st => (inr tt, f st).

Declare Scope store_scope.
Delimit Scope store_scope with store.
Notation "x <- c ;; k" := (bind c (fun x => k))
  (at level 100, c at next level, right associativity) : store_scope.
Notation "c ;;; k" := (bind c (fun _ => k))
  (at level 100, right associativity) : store_scope.
Local Open Scope store_scope.

(** [ORDER BY key DESC]: a stable insertion sort (for rows with equal
    keys the store's order is kept). *)
Fixpoint insert_desc {A} (key : A -> Z) (x : A) (l : list A) : list A :=
  match l with
  | [] => [x]
  | y :: rest => if (key y <=? key x)%Z then x :: y :: rest
                 else y :: insert_desc key x rest
  end.

Definition order_by_desc {A} (key : A -> Z) (l : list A) : list A :=
  fold_right (insert_desc key) [] l.

(** *** [IdentityManager] *)

Definition getAgent (idOrDid : string) : M Agent :=
  let isDid := Js.startsWith idOrDid "did:" in
  rows <- gets (fun st =>
            filter (fun a => (if isDid then agent_did a else agent_id a) = idOrDid)
                   (agents st)) ;;
  match rows with
  | [] => throw (NotFoundError "Agent" idOrDid)
  | row :: _ => ret row
  end.

Definition getAgentByDID (did : string) : M Agent := getAgent did.

Definition getAgentActivity (agentId : string) (limit : nat) : M (list AgentActivity) :=
  gets (fun st =>
    take limit (order_by_desc act_timestamp
                  (filter (fun a => act_agentId a = agentId) (agent_activities st)))).

Definition getRelationships (agentId : string)
  : M (list AgentRelationship * list AgentRelationship) :=
  incoming <- gets (fun st =>
                filter (fun r => rel_targetAgentId r = agentId) (agent_relationships st)) ;;
  outgoing <- gets (fun st =>
                filter (fun r => rel_sourceAgentId r = agentId) (agent_relationships st)) ;;
  ret (incoming, outgoing).

(** [logActivity]: the row is appended; [related_agent_ids] gets
    [activity.relatedAgentIds || []]. *)
Definition logActivity (activity : AgentActivity) : M unit :=
  let row :=
    {| act_id := act_id activity; act_agentId := act_agentId activity;
       act_activityType := act_activityType activity;
       act_description := act_description activity;
       act_timestamp := act_timestamp activity;
       act_metadata := act_metadata activity;
       act_relatedAgentIds :=
         Some (match act_relatedAgentIds activity with
               | Some ids => ids
               | None => []
               end) |} in
  modify (set_agent_activities (fun rows => (rows ++ [row])%list)).

Definition set_attestations (f : list Attestation -> list Attestation) (st : State) : State :=
  {| agents := agents st; agent_relationships := agent_relationships st;
     capabilities := capabilities st; attestations := f (attestations st);
     agent_activities := agent_activities st; trust_scores := trust_scores st;
     anomalies := anomalies st; activeCapabilities := activeCapabilities st |}.

End Store.

(** ** Bearer tokens (the [jsonwebtoken] library)

    The library is an external dependency; tokens are modelled symbolically.
    A token is either a payload signed under some key or a string that is
    no signed payload at all.  [verify] follows the library: the signature
    is checked first, then [nbf], then [exp], against the clock in seconds. *)

Module Jwt.
Import Model.

Record Payload : Type := {
  jti : string;
  sub : string;
  iss : string;
  iat : Z;
  exp : Z;
  nbf : Z;
  payload_actions : list string;
  payload_resources : list string;
  payload_conditions : option (list CapabilityCondition)
}.

Inductive Token : Type :=
| Signed (payload : Payload) (key : string)
| Malformed (raw : string).

(** [TokenExpiredError] and [NotBeforeError] are subclasses of
    [JsonWebTokenError]. *)
Inductive VerifyError : Set :=
| JsonWebTokenError
| NotBeforeError
| TokenExpiredError.

Definition sign (payload : Payload) (secret : string) : Token :=
  Signed payload secret.

Definition verify (token : Token) (secret : string) (clockTimestamp : Z)
  : VerifyError + Payload :=
  match token with
  | Malformed _ => inl JsonWebTokenError
  | Signed payload key =>
      if negb (String.eqb key secret) then inl JsonWebTokenError
      else if (clockTimestamp <? nbf payload)%Z then inl NotBeforeError
      else if (exp payload <=? clockTimestamp)%Z then inl TokenExpiredError
      else inr payload
  end.
End Jwt.

(** ** The capability issuer ([src/services/capability-issuer.ts]) *)

Module CapabilityIssuer.
Import Model Store.
Local Open Scope store_scope.

Record CapabilityToken : Type := {
  token : Jwt.Token;
  token_capability : Capability;
  expiresIn : Q
}.

Record CapabilityVerificationRequest : Type := {
  vreq_token : Jwt.Token;
  vreq_action : string;
  vreq_resource : string;
  vreq_context : option (gmap string Js.Value)
}.

(** [{ valid: false, errors }] *)
Definition invalid (errs : list string) : CapabilityVerificationResult :=
  {| valid := false; capability := None; subject := None;
     allowedActions := None; errors := Some errs |}.

(** The callback of [capability.resources.some(...)]. *)
Definition resourceMatches (requested resource : string) : bool :=
  String.eqb requested resource
  || Js.startsWith requested resource
  || String.eqb resource "*".

Definition hasResourceAccess (resources : list string) (requested : string) : bool :=
  existsb (resourceMatches requested) resources.

(** [list.includes(s)] on strings *)
Definition includes_string (l : list string) (s : string) : bool :=
  existsb (String.eqb s) l.

Section WithEnvironment.
(** [process.env.JWT_SECRET || 'default-secret-change-in-production'] *)
Variable JWT_SECRET : string.
Variable Number_toString : Q -> string.

Definition is_number (v : Js.Value) : bool := String.eqb (Js.typeof v) "number".
Definition is_string (v : Js.Value) : bool := String.eqb (Js.typeof v) "string".

(** [a <= b], [a >= b] and [a.includes(b)], each used only behind the
    [typeof] guards of [evaluateConditions]. *)
Definition number_le (a b : Js.Value) : bool :=
  match a, b with
  | Js.Number x, Js.Number y => Qle_bool x y
  | _, _ => false
  end.

Definition string_includes (a b : Js.Value) : bool :=
  match a, b with
  | Js.Str x, Js.Str y => Js.includes x y
  | _, _ => false
  end.

(** One turn of the loop of [evaluateConditions]: the messages pushed
    for [condition]. *)
Definition evaluateCondition
    (condition : CapabilityCondition) (context : gmap string Js.Value)
  : list string :=
  let contextValue := default Js.Undefined (context !! cond_parameter condition) in
  let value := cond_value condition in
  let shown := Js.ToString Number_toString value in
  if String.eqb (cond_operator condition) "equals" then
    if negb (Js.strict_equals contextValue value)
    then ["Condition failed: " ++ cond_parameter condition ++ " must equal " ++ shown]
    else []
  else if String.eqb (cond_operator condition) "greater_than" then
    if is_number contextValue && is_number value then
      if number_le contextValue value
      then ["Condition failed: " ++ cond_parameter condition
              ++ " must be greater than " ++ shown]
      else []
    else []
  else if String.eqb (cond_operator condition) "less_than" then
    if is_number contextValue && is_number value then
      if number_le value contextValue
      then ["Condition failed: " ++ cond_parameter condition
              ++ " must be less than " ++ shown]
      else []
    else []
  else if String.eqb (cond_operator condition) "contains" then
    if is_string contextValue && is_string value
       && negb (string_includes contextValue value)
    then ["Condition failed: " ++ cond_parameter condition ++ " must contain " ++ shown]
    else []
  else if String.eqb (cond_operator condition) "in" then
    match value with
    | Js.Array elems =>
        if negb (Js.Array_includes elems contextValue)
        then ["Condition failed: " ++ cond_parameter condition ++ " must be in ["
                ++ Js.Array_join Number_toString ", " elems ++ "]"]
        else []
    | _ => []
    end
  else [].

Definition evaluateConditions
    (conditions : list CapabilityCondition) (context : gmap string Js.Value)
  : list string :=
  fold_left (fun errors condition =>
               (errors ++ evaluateCondition condition context)%list)
            conditions [].

(** [verifyCapability]: it only reads the store.  The last [catch]
    branch (['Verification failed']) answers faults of the store, which
    the model does not have. *)
Definition verifyCapability
    (request : CapabilityVerificationRequest) (now : Date) (st : State)
  : CapabilityVerificationResult :=
  match Jwt.verify (vreq_token request) JWT_SECRET (now / 1000) with
  | inl Jwt.TokenExpiredError => invalid ["Token has expired"]
  | inl _ => invalid ["Invalid token"]
  | inr decoded =>
      match capabilities st !! Jwt.jti decoded with
      | None => invalid ["Capability not found"]
      | Some capability =>
          if decide (cap_status capability = CapabilityStatus.REVOKED) then
            invalid ["Capability has been revoked"]
          else if decide (cap_status capability = CapabilityStatus.EXPIRED) then
            invalid ["Capability has expired"]
          else if negb (String.eqb (Jwt.sub decoded) (cap_subject capability)) then
            invalid ["Subject mismatch"]
          else if negb (includes_string (cap_actions capability) (vreq_action request)) then
            invalid ["Action '" ++ vreq_action request ++ "' not permitted"]
          else if negb (hasResourceAccess (cap_resources capability)
                                          (vreq_resource request)) then
            invalid ["Resource '" ++ vreq_resource request ++ "' not accessible"]
          else
            let conditionErrors :=
              match cap_conditions capability, vreq_context request with
              | Some conditions, Some context => evaluateConditions conditions context
              | _, _ => []
              end in
            if (0 <? length conditionErrors)%nat then invalid conditionErrors
            else {| valid := true;
                    capability := Some capability;
                    subject := Some (Jwt.sub decoded);
                    allowedActions := Some (cap_actions capability);
                    errors := None |}
      end
  end.

(** [request.expiresInHours || 24] *)
Definition expiresInHours_or_default (h : option Q) : Q :=
  match h with
  | Some q => if Qeq_bool q 0 then 24 else q
  | None => 24
  end.

(** [issueCapability].  [uuid] and [activityId] are the results of
    [generateUUID()] and [generateId()].  [validateActionsAndResources]
    only writes warnings to the log and rejects nothing.  The expiration is
    that of the code for a whole number of hours and times within the range
    of [Date] (see [Date_of_number]). *)
Definition issueCapability
    (uuid activityId : string) (now : Date)
    (issuerDid : string) (request : CapabilityRequest) : M CapabilityToken :=
  issuer <- getAgentByDID issuerDid ;;
  if decide (agent_status issuer <> AgentStatus.ACTIVE) then
    throw (AuthorizationError "Issuer is not active")
  else
  subject <- getAgentByDID (req_subject request) ;;
  if decide (agent_status subject <> AgentStatus.ACTIVE) then
    throw (AuthorizationError "Subject is not active")
  else
  let capabilityId := "urn:cap:" ++ uuid in
  let expiresInHours := expiresInHours_or_default (req_expiresInHours request) in
  let expiration :=
    Date_of_number (inject_Z now + expiresInHours * 60 * 60 * 1000)%Q in
  let capability :=
    {| cap_id := capabilityId;
       cap_subject := req_subject request;
       cap_issuer := issuerDid;
       cap_actions := req_actions request;
       cap_resources := req_resources request;
       cap_conditions := req_conditions request;
       cap_notBefore := Some now;
       cap_expiration := Some expiration;
       cap_issuedAt := now;
       cap_revokedAt := None;
       cap_status := CapabilityStatus.ACTIVE |} in
  let token :=
    Jwt.sign {| Jwt.jti := capabilityId;
                Jwt.sub := req_subject request;
                Jwt.iss := issuerDid;
                Jwt.iat := now / 1000;
                Jwt.exp := expiration / 1000;
                Jwt.nbf := now / 1000;
                Jwt.payload_actions := req_actions request;
                Jwt.payload_resources := req_resources request;
                Jwt.payload_conditions := req_conditions request |}
             JWT_SECRET in
  let row :=
    {| cap_id := capabilityId;
       cap_subject := req_subject request;
       cap_issuer := issuerDid;
       cap_actions := req_actions request;
       cap_resources := req_resources request;
       cap_conditions := Some (default [] (req_conditions request));
       cap_notBefore := Some now;
       cap_expiration := Some expiration;
       cap_issuedAt := now;
       cap_revokedAt := None;
       cap_status := CapabilityStatus.ACTIVE |} in
  modify (set_capabilities (insert capabilityId row)) ;;;
  modify (set_activeCapabilities (insert capabilityId capability)) ;;;
  logActivity
    {| act_id := activityId;
       act_agentId := agent_id subject;
       act_activityType := ActivityType.CAPABILITY_GRANTED;
       act_description := "Capability granted by " ++ agent_name issuer;
       act_timestamp := now;
       act_metadata :=
         [("capabilityId", Js.Str capabilityId);
          ("issuer", Js.Str issuerDid);
          ("actions", Js.Array (map Js.Str (req_actions request)));
          ("resources", Js.Array (map Js.Str (req_resources request)))];
       act_relatedAgentIds := None |} ;;;
  ret {| token := token;
         token_capability := capability;
         expiresIn := (expiresInHours * 3600)%Q |}.

(** [checkAdminCapability]: some row of [capabilities] has this subject,
    contains the action [admin], is [active] and has no expiration or
    one after [CURRENT_TIMESTAMP]. *)
Definition checkAdminCapability (db_now : Date) (did : string) : M bool :=
  gets (fun st =>
    existsb (fun kv =>
               let c := snd kv in
               String.eqb (cap_subject c) did
               && includes_string (cap_actions c) "admin"
               && bool_decide (cap_status c = CapabilityStatus.ACTIVE)
               && match cap_expiration c with
                  | None => true
                  | Some e => (db_now <? e)%Z
                  end)
            (map_to_list (capabilities st))).

(** The [UPDATE] of [revokeCapability] applied to one row. *)
Definition mark_revoked (db_now : Date) (c : Capability) : Capability :=
  {| cap_id := cap_id c; cap_subject := cap_subject c; cap_issuer := cap_issuer c;
     cap_actions := cap_actions c; cap_resources := cap_resources c;
     cap_conditions := cap_conditions c; cap_notBefore := cap_notBefore c;
     cap_expiration := cap_expiration c; cap_issuedAt := cap_issuedAt c;
     cap_revokedAt := Some db_now;
     cap_status := CapabilityStatus.REVOKED |}.

(** [reason || 'No reason provided'] *)
Definition reason_or_default (reason : option string) : string :=
  match reason with
  | Some r => if String.eqb r "" then "No reason provided" else r
  | None => "No reason provided"
  end.

Definition revokeCapability
    (activityId : string) (now db_now : Date)
    (capabilityId revokedBy : string) (reason : option string) : M unit :=
  row <- gets (fun st => capabilities st !! capabilityId) ;;
  match row with
  | None => throw (NotFoundError "Capability" capabilityId)
  | Some capability =>
      (if negb (String.eqb revokedBy (cap_issuer capability)) then
         adminCheck <- checkAdminCapability db_now revokedBy ;;
         if negb adminCheck
         then throw (AuthorizationError "Not authorized to revoke this capability")
         else ret tt
       else ret tt) ;;;
      modify (set_capabilities (alter (mark_revoked db_now) capabilityId)) ;;;
      modify (set_activeCapabilities (delete capabilityId)) ;;;
      subject <- getAgentByDID (cap_subject capability) ;;
      logActivity
        {| act_id := activityId;
           act_agentId := agent_id subject;
           act_activityType := ActivityType.CAPABILITY_REVOKED;
           act_description := "Capability revoked: " ++ reason_or_default reason;
           act_timestamp := now;
           act_metadata :=
             [("capabilityId", Js.Str capabilityId);
              ("revokedBy", Js.Str revokedBy);
              ("reason", match reason with
                         | Some r => Js.Str r
                         | None => Js.Undefined
                         end)];
           act_relatedAgentIds := None |}
  end.

(** [delegateCapability].  [delegationId] is the result of
    [generateId()].  Nothing is stored. *)
Definition delegateCapability
    (delegationId : string) (now : Date)
    (capabilityId delegator delegatee : string)
    (restrictions : option Restrictions) (expiresInHours : option Q)
  : M CapabilityDelegation :=
  row <- gets (fun st => capabilities st !! capabilityId) ;;
  match row with
  | None => throw (NotFoundError "Capability" capabilityId)
  | Some originalCapability =>
      if negb (String.eqb (cap_subject originalCapability) delegator) then
        throw (AuthorizationError "Only the capability subject can delegate")
      else if negb (includes_string (cap_actions originalCapability) "delegate") then
        throw (AuthorizationError "Capability does not allow delegation")
      else
        ret {| deleg_id := delegationId;
               deleg_capabilityId := capabilityId;
               deleg_delegator := delegator;
               deleg_delegatee := delegatee;
               deleg_restrictions_actions :=
                 default (cap_actions originalCapability)
                         (restrictions ≫= restr_actions);
               deleg_restrictions_resources :=
                 default (cap_resources originalCapability)
                         (restrictions ≫= restr_resources);
               deleg_delegatedAt := now;
               deleg_expiresAt :=
                 match expiresInHours with
                 | Some h =>
                     if Qeq_bool h 0 then cap_expiration originalCapability
                     else Some (Date_of_number
                                  (inject_Z now + h * 60 * 60 * 1000)%Q)
                 | None => cap_expiration originalCapability
                 end |}
  end.

(** The constraint of [CreateCapabilitySchema] on [expiresInHours]
    ([z.number().int().positive().max(8760).optional()]), checked by the
    HTTP route before it calls [issueCapability]. *)
Definition schema_accepts_expiresInHours (h : option Q) : bool :=
  match h with
  | None => true
  | Some q => Qeq_bool q (inject_Z (Qfloor q)) && negb (Qle_bool q 0)
              && Qle_bool q 8760
  end.
End WithEnvironment.

End CapabilityIssuer.

(** ** The authentication middleware ([src/middleware/auth.ts]) *)

Module Auth.
Import Model Store.

(** [req.agent] *)
Record AuthenticatedAgent : Type := {
  auth_id : string;
  auth_did : string;
  auth_capabilities : list string
}.

(** What is handed to [next(error)]. *)
Inductive Failure : Type :=
| AuthenticationError (message : string)
| Thrown (e : AppError).

Section WithEnvironment.
(** The middleware reads the same [process.env.JWT_SECRET] as the
    capability issuer. *)
Variable JWT_SECRET : string.
Variable Number_toString : Q -> string.

(** The first [try] of [authenticateToken]: any failure inside it is
    swallowed by its [catch]. *)
Definition authenticate_as_jwt (token : Jwt.Token) (now : Date) (st : State)
  : option AuthenticatedAgent :=
  match Jwt.verify token JWT_SECRET (now / 1000) with
  | inl _ => None
  | inr decoded =>
      match fst (getAgentByDID (Jwt.sub decoded) st) with
      | inl _ => None
      | inr agent =>
          Some {| auth_id := agent_id agent; auth_did := agent_did agent;
                  auth_capabilities := agent_capabilities agent |}
      end
  end.

(** [authenticateToken].  [token] is the second word of the
    [Authorization] header, [None] when the header is missing or has no
    second word.  [now] is the clock when the token is tried as a plain
    JWT, [later] the clock when it is tried as a capability token.  The
    result is [req.agent] when [next()] is called, and the error when
    [next(error)] is. *)
Definition authenticateToken
    (token : option Jwt.Token) (now later : Date) (st : State)
  : Failure + AuthenticatedAgent :=
  match token with
  | None => inl (AuthenticationError "No token provided")
  | Some token =>
      match authenticate_as_jwt token now st with
      | Some agent => inr agent
      | None =>
          let capabilityResult :=
            CapabilityIssuer.verifyCapability JWT_SECRET Number_toString
              {| CapabilityIssuer.vreq_token := token;
                 CapabilityIssuer.vreq_action := "authenticate";
                 CapabilityIssuer.vreq_resource := "system";
                 CapabilityIssuer.vreq_context := None |}
              later st in
          match valid capabilityResult, subject capabilityResult with
          | true, Some sub =>
              if String.eqb sub "" then inl (AuthenticationError "Invalid token")
              else
                match fst (getAgentByDID sub st) with
                | inl e => inl (Thrown e)
                | inr agent =>
                    inr {| auth_id := agent_id agent; auth_did := agent_did agent;
                           auth_capabilities :=
                             default [] (allowedActions capabilityResult) |}
                end
          | _, _ => inl (AuthenticationError "Invalid token")
          end
      end
  end.
End WithEnvironment.

(** [requireCapability(...requiredCapabilities)]: [None] when [next()] is
    called. *)
Definition requireCapability (requiredCapabilities : list string)
    (agent : option AuthenticatedAgent) : option Failure :=
  match agent with
  | None => Some (AuthenticationError "Not authenticated")
  | Some agent =>
      let hasCapability :=
        existsb (fun cap =>
                   CapabilityIssuer.includes_string (auth_capabilities agent) cap
                   || CapabilityIssuer.includes_string (auth_capabilities agent) "admin")
                requiredCapabilities in
      if negb hasCapability then
        Some (Thrown (AuthorizationError
                        ("Missing required capability: "
                           ++ Js.join " or " requiredCapabilities)))
      else None
  end.

End Auth.

(** ** DID strings ([src/utils/crypto.ts]) *)

Module Utils.

(** [s.split(sep)] for a one-character separator. *)
Fixpoint split (sep : ascii) (s : string) : list string :=
  match s with
  | EmptyString => [""]
  | String c rest =>
      if Ascii.eqb c sep then "" :: split sep rest
      else match split sep rest with
           | first :: others => String c first :: others
           | [] => [String c ""]
           end
  end.

Section WithEncoding.
(** [Buffer.from(identifier, 'hex').toString('base64url')] *)
Variable base64url_of_hex : string -> string.

Definition generateDID (method identifier : string) : string :=
  if String.eqb method "ethr" then "did:ethr:" ++ identifier
  else if String.eqb method "key" then "did:key:z" ++ base64url_of_hex identifier
  else "did:" ++ method ++ ":" ++ identifier.
End WithEncoding.

(** [did-service.ts] imports [createHash] from [utils/crypto], which has no
    export of that name (it imports Node's [createHash] for its own use and
    does not export it again): the imported binding is [undefined]. *)
Definition createHash : option (string -> string) := None.

(** [parseDID]: [None] when it throws ['Invalid DID format']. *)
Definition parseDID (did : string) : option (string * string) :=
  match split ":" did with
  | scheme :: method :: first :: others =>
      if String.eqb scheme "did" then Some (method, Js.join ":" (first :: others))
      else None
  | _ => None
  end.

End Utils.

(** ** The DID service ([src/services/did-service.ts]) *)

Module DIDService.
Import Model Store.

Section WithHash.
(** The binding that the module imports under the name [createHash]; the
    service runs with [Utils.createHash]. *)
Variable createHash : option (string -> string).

(** [!method.publicKeyHex] *)
Definition missing (s : option string) : bool :=
  match s with
  | Some k => String.eqb k ""
  | None => true
  end.

(** [verifyDIDOwnership], over the service's [documents] map.  Reading
    [publicKeyHex] of the first method of an empty list throws, and so does
    calling a binding that is not a function. *)
Definition verifyDIDOwnership
    (documents : gmap string DIDDocument) (did signature message : string)
  : AppError + bool :=
  match documents !! did with
  | None => inr false
  | Some document =>
      match doc_verificationMethod document with
      | None => inr false
      | Some [] =>
          inl (TypeError "Cannot read properties of undefined (reading 'publicKeyHex')")
      | Some (method :: _) =>
          if missing (vm_publicKeyHex method) then inr false
          else
            match createHash with
            | None => inl (TypeError "createHash is not a function")
            | Some createHash =>
                let messageHash := createHash message in
                inr true
            end
      end
  end.
End WithHash.
(** *** The registry of local documents *)

(** What [this.resolver.resolve(did)] does for a DID that is not local. *)
Inductive ExternalResolution : Type :=
| Throws
| Nothing
| Resolved (doc : DIDDocument).

Record DIDResolutionResult : Type := {
  res_error : option string;
  res_contentType : option string;
  res_didDocument : option DIDDocument;
  res_created : option string;
  res_updated : option string
}.

(** [Partial<DIDDocument>]: the fields that an update carries. *)
Record DocumentUpdates : Type := {
  upd_id : option string;
  upd_controller : option string;
  upd_verificationMethod : option (list VerificationMethod);
  upd_authentication : option (list string);
  upd_assertionMethod : option (list string);
  upd_created : option string;
  upd_updated : option string
}.

(** [s.startsWith('0x') ? s.slice(2) : s] *)
Definition strip_0x (s : string) : string :=
  if Js.startsWith s "0x" then
    match s with
    | String _ (String _ rest) => rest
    | _ => s
    end
  else s.

Section Registry.
Variable base64url_of_hex : string -> string.

(** [createDID].  [generated] is the public key of [generateKeyPair()],
    [now] the ISO rendering of the clock; [method] defaults to ['ethr'].
    The optional service endpoints go to a field that the document of this
    model does not carry.  The error thrown for another method is caught
    and wrapped by the function's own [catch]. *)
Definition createDID
    (generated now : string) (method : option string) (publicKey : option string)
    (documents : gmap string DIDDocument)
  : (AppError + string * DIDDocument) * gmap string DIDDocument :=
  let method := default "ethr" method in
  let keys : option (string * string) :=
    if String.eqb method "ethr" then
      match publicKey with
      | Some pk => if String.eqb pk "" then Some (generated, generated)
                   else Some (strip_0x pk, pk)
      | None => Some (generated, generated)
      end
    else if String.eqb method "key" then Some (generated, generated)
    else None in
  match keys with
  | None =>
      (inl (DIDError ("Failed to create DID: " ++ "Unsupported DID method: " ++ method)),
       documents)
  | Some (identifier, actualPublicKey) =>
      let did := Utils.generateDID base64url_of_hex method identifier in
      let verificationMethod :=
        {| vm_id := did ++ "#keys-1";
           vm_type := if String.eqb method "ethr"
                      then "EcdsaSecp256k1RecoveryMethod2020"
                      else "Ed25519VerificationKey2020";
           vm_controller := did;
           vm_publicKeyHex := Some (strip_0x actualPublicKey) |} in
      let document :=
        {| doc_id := did;
           doc_controller := Some did;
           doc_verificationMethod := Some [verificationMethod];
           doc_authentication := [did ++ "#keys-1"];
           doc_assertionMethod := [did ++ "#keys-1"];
           doc_created := Some now;
           doc_updated := Some now |} in
      (inr (did, document), <[did := document]> documents)
  end.
End Registry.

(** [resolveDID]: the local registry first, then the external resolver. *)
Definition resolveDID
    (external : string -> ExternalResolution) (did : string)
    (documents : gmap string DIDDocument) : DIDResolutionResult :=
  match documents !! did with
  | Some localDoc =>
      {| res_error := None; res_contentType := Some "application/did+json";
         res_didDocument := Some localDoc;
         res_created := doc_created localDoc; res_updated := doc_updated localDoc |}
  | None =>
      match external did with
      | Resolved doc =>
          {| res_error := None; res_contentType := Some "application/did+json";
             res_didDocument := Some doc; res_created := None; res_updated := None |}
      | Nothing =>
          {| res_error := Some "notFound"; res_contentType := None;
             res_didDocument := None; res_created := None; res_updated := None |}
      | Throws =>
          {| res_error := Some "invalidDid"; res_contentType := None;
             res_didDocument := None; res_created := None; res_updated := None |}
      end
  end.

(** [{ ...existing, ...updates, id: existing.id, updated: now }] *)
Definition updateDID
    (now : string) (did : string) (updates : DocumentUpdates)
    (documents : gmap string DIDDocument)
  : (AppError + DIDDocument) * gmap string DIDDocument :=
  match documents !! did with
  | None => (inl (DIDError "DID not found in local registry"), documents)
  | Some existing =>
      let updated :=
        {| doc_id := doc_id existing;
           doc_controller :=
             match upd_controller updates with
             | Some c => Some c
             | None => doc_controller existing
             end;
           doc_verificationMethod :=
             match upd_verificationMethod updates with
             | Some l => Some l
             | None => doc_verificationMethod existing
             end;
           doc_authentication :=
             default (doc_authentication existing) (upd_authentication updates);
           doc_assertionMethod :=
             default (doc_assertionMethod existing) (upd_assertionMethod updates);
           doc_created :=
             match upd_created updates with
             | Some c => Some c
             | None => doc_created existing
             end;
           doc_updated := Some now |} in
      (inr updated, <[did := updated]> documents)
  end.

(** [addVerificationMethod]: the new method gets [controller: did]. *)
Definition addVerificationMethod
    (now : string) (did : string) (method : VerificationMethod)
    (documents : gmap string DIDDocument)
  : (AppError + DIDDocument) * gmap string DIDDocument :=
  match documents !! did with
  | None => (inl (DIDError "DID not found"), documents)
  | Some document =>
      let newMethod :=
        {| vm_id := vm_id method; vm_type := vm_type method; vm_controller := did;
           vm_publicKeyHex := vm_publicKeyHex method |} in
      let updated :=
        {| doc_id := doc_id document;
           doc_controller := doc_controller document;
           doc_verificationMethod :=
             Some (default [] (doc_verificationMethod document) ++ [newMethod])%list;
           doc_authentication := doc_authentication document;
           doc_assertionMethod := doc_assertionMethod document;
           doc_created := doc_created document;
           doc_updated := Some now |} in
      (inr updated, <[did := updated]> documents)
  end.

Definition deactivateDID (did : string) (documents : gmap string DIDDocument)
  : (AppError + unit) * gmap string DIDDocument :=
  match documents !! did with
  | None => (inl (DIDError "DID not found"), documents)
  | Some _ => (inr tt, delete did documents)
  end.

End DIDService.

(** ** The attestation service ([src/services/attestation-service.ts]) *)

Module AttestationService.
Import Model Store.

(** A filter field that is a string takes part in the [WHERE] clause only
    when it is truthy. *)
Definition truthy (s : option string) : option string :=
  match s with
  | Some v => if String.eqb v "" then None else Some v
  | None => None
  end.

Definition matches_filter (filter : AttestationFilter) (db_now : Date)
    (a : Attestation) : bool :=
  match truthy (filter_issuer filter) with
  | Some i => String.eqb (att_issuer a) i
  | None => true
  end
  && match truthy (filter_subject filter) with
     | Some s => String.eqb (att_subject a) s
     | None => true
     end
  && match filter_type filter with
     | Some t => bool_decide (att_type a = t)
     | None => true
     end
  && (if filter_validOnly filter then
        match att_expiresAt a with
        | None => true
        | Some e => (db_now <? e)%Z
        end
        && match att_revocation a with
           | None => true
           | Some _ => false
           end
      else true)
  && match filter_issuedAfter filter with
     | Some d => (d <=? att_issuedAt a)%Z
     | None => true
     end
  && match filter_issuedBefore filter with
     | Some d => (att_issuedAt a <=? d)%Z
     | None => true
     end.

(** [JSON.parse(x)] for an [x] that is an object: the argument is converted
    to the string [[object Object]], which is not JSON. *)
Definition JSON_parse_of_object {A} : AppError + A :=
  inl (SyntaxError "Unexpected token o in JSON at position 1").

(** [mapAttestationFromDb].  The columns [revocation] and [proof] are
    JSONB, which the driver returns as parsed values; the function hands each
    of them that is not null to [JSON.parse] and so throws on it.  A row is
    mapped only when both are null, which the schema ([proof JSONB NOT NULL])
    allows for no stored row. *)
Definition mapAttestationFromDb (row : Attestation) : AppError + Attestation :=
  match att_revocation row with
  | Some _ => JSON_parse_of_object
  | None =>
      match att_proof row with
      | Some _ => JSON_parse_of_object
      | None => inr row
      end
  end.

(** [rows.map(this.mapAttestationFromDb)] *)
Fixpoint map_rows (rows : list Attestation) : AppError + list Attestation :=
  match rows with
  | [] => inr []
  | row :: rest =>
      match mapAttestationFromDb row with
      | inl e => inl e
      | inr attestation =>
          match map_rows rest with
          | inl e => inl e
          | inr attestations => inr (attestation :: attestations)
          end
      end
  end.

(** [listAttestations]: the page of attestations and the count of all
    matches.  It only reads the store.  [page] and [limit] are taken among
    the natural numbers; for page 0 the code computes a negative [OFFSET],
    which the store refuses. *)
Definition listAttestations
    (filter : AttestationFilter) (page limit : nat) (db_now : Date) (st : State)
  : AppError + list Attestation * nat :=
  let matching := List.filter (matches_filter filter db_now) (attestations st) in
  if (page =? 0)%nat && negb (limit =? 0)%nat then
    inl (DatabaseError "OFFSET must not be negative")
  else
    let offset := ((page - 1) * limit)%nat in
    match map_rows (take limit (drop offset (order_by_desc att_issuedAt matching))) with
    | inl e => inl e
    | inr attestations => inr (attestations, length matching)
    end.

(** The score of one attestation before weighting. *)
Definition attScore (attestation : Attestation) : Q :=
  ((if decide (att_type attestation = AttestationType.TRUST_ASSERTION) then 0.8
    else if decide (att_type attestation = AttestationType.IDENTITY_VERIFICATION) then 0.7
    else 0.5)
   + Js.Math_min (inject_Z (Z.of_nat (length (att_claims attestation))) * 0.05) 0.2)%Q.

(** The loop of [calculateChainTrustScore] from index [i] on. *)
Fixpoint chain_score_loop (chain : list Attestation) (i : nat)
    (totalScore weight : Q) : Q * Q :=
  match chain with
  | [] => (totalScore, weight)
  | attestation :: rest =>
      let attWeight := (1 / inject_Z (Z.of_nat i + 1))%Q in
      chain_score_loop rest (S i)
        (totalScore + attScore attestation * attWeight)%Q
        (weight + attWeight)%Q
  end.

Definition calculateChainTrustScore (chain : list Attestation) : Q :=
  match chain with
  | [] => 0.5%Q
  | _ =>
      let '(totalScore, weight) := chain_score_loop chain 0 0%Q 0%Q in
      Js.Math_min (totalScore / weight) 1
  end.

(** The inner loop of [buildAttestationChain]: push what was not visited. *)
Definition push_unvisited
    (acc : list Attestation * gset string) (att : Attestation)
  : list Attestation * gset string :=
  let '(chain, visited) := acc in
  if decide (att_id att ∈ visited) then acc
  else ((chain ++ [att])%list, visited ∪ {[att_id att]}).

(** One turn of the outer loop. *)
Definition chain_step (db_now : Date) (st : State)
    (acc : list Attestation * gset string) (attestation : Attestation)
  : AppError + list Attestation * gset string :=
  let '(chain, visited) := acc in
  if decide (att_id attestation ∈ visited) then inr acc
  else
    let chain := (chain ++ [attestation])%list in
    let visited := visited ∪ {[att_id attestation]} in
    if decide (att_type attestation = AttestationType.TRUST_ASSERTION) then
      match listAttestations
              {| filter_issuer := Some (att_issuer attestation);
                 filter_subject := None; filter_type := None;
                 filter_validOnly := true; filter_issuedAfter := None;
                 filter_issuedBefore := None |}
              1 10 db_now st with
      | inl e => inl e
      | inr issuerAttestations =>
          inr (fold_left push_unvisited (fst issuerAttestations) (chain, visited))
      end
    else inr (chain, visited).

(** The outer loop, which a throwing query leaves. *)
Fixpoint chain_loop (db_now : Date) (st : State) (attestations : list Attestation)
    (acc : list Attestation * gset string)
  : AppError + list Attestation * gset string :=
  match attestations with
  | [] => inr acc
  | attestation :: rest =>
      match chain_step db_now st acc attestation with
      | inl e => inl e
      | inr acc' => chain_loop db_now st rest acc'
      end
  end.

(** The callback of [chain.every(...)]. *)
Definition still_valid (now : Date) (att : Attestation) : bool :=
  match att_revocation att with
  | Some _ => false
  | None => match att_expiresAt att with
            | None => true
            | Some e => (now <? e)%Z
            end
  end.

(** [buildAttestationChain]: it only reads the store.  [db_now] is the
    store's clock during the queries, [now] the service's clock when the
    chain is checked. *)
Definition buildAttestationChain
    (subject : string) (attestationType : option AttestationType.t)
    (now db_now : Date) (st : State) : AppError + AttestationChain :=
  let filter :=
    {| filter_issuer := None; filter_subject := Some subject;
       filter_type := attestationType; filter_validOnly := true;
       filter_issuedAfter := None; filter_issuedBefore := None |} in
  match listAttestations filter 1 100 db_now st with
  | inl e => inl e
  | inr listed =>
      match chain_loop db_now st (fst listed) ([], ∅) with
      | inl e => inl e
      | inr built =>
          let chain := fst built in
          let trustScore := calculateChainTrustScore chain in
          let chainValid := forallb (still_valid now) chain in
          inr {| chain_attestations := chain;
                 chain_rootIssuer :=
                   match chain with
                   | first :: _ => if String.eqb (att_issuer first) "" then subject
                                   else att_issuer first
                   | [] => subject
                   end;
                 chain_subject := subject;
                 chain_chainValid := chainValid;
                 chain_trustScore := trustScore |}
      end
  end.

(** *** Creating, verifying and revoking attestations *)

Record AttestationRequestClaim : Type := {
  rclaim_type : string;
  rclaim_value : Js.Value
}.

Record AttestationRequest : Type := {
  areq_type : AttestationType.t;
  areq_subject : string;
  areq_claims : list AttestationRequestClaim;
  areq_expiresInHours : option Q
}.

Record AttestationVerificationResult : Type := {
  av_valid : bool;
  av_attestation : option Attestation;
  av_errors : option (list string);
  av_warnings : option (list string)
}.

(** The string value of the enum, as a template literal prints it. *)
Definition type_string (t : AttestationType.t) : string :=
  match t with
  | AttestationType.IDENTITY_VERIFICATION => "identity_verification"
  | AttestationType.CAPABILITY_AUTHORIZATION => "capability_authorization"
  | AttestationType.BEHAVIOR_ASSERTION => "behavior_assertion"
  | AttestationType.TRUST_ASSERTION => "trust_assertion"
  | AttestationType.COMPLETION_CERTIFICATE => "completion_certificate"
  | AttestationType.MEMBERSHIP => "membership"
  | AttestationType.CUSTOM => "custom"
  end.

(** [SELECT * FROM attestations WHERE id = $1], first row. *)
Definition find_attestation (attestationId : string) (st : State) : option Attestation :=
  head (List.filter (fun a => String.eqb (att_id a) attestationId) (attestations st)).

Section WithSigner.
(** [signData] and [hashAttestation] of [utils/crypto] and
    [Date.prototype.toISOString].  [signData data privateKey] returns a
    signature or throws what [secp256k1.sign] throws for a key that is no
    private key; [createAttestation] calls it with the issuer's public
    key. *)
Variable signData : string -> string -> AppError + string.
Variable hashAttestation :
  string -> AttestationType.t -> string -> string -> list AttestationClaim -> string -> string.
Variable toISOString : Date -> string.

Local Open Scope store_scope.

(** [createAttestation].  [id] and [activityId] are results of
    [generateId()]. *)
Definition createAttestation
    (id activityId : string) (now : Date) (issuerDid : string)
    (request : AttestationRequest) : M Attestation :=
  issuer <- getAgentByDID issuerDid ;;
  if decide (agent_status issuer <> AgentStatus.ACTIVE) then
    throw (AuthorizationError "Issuer is not active")
  else
  subject <- getAgentByDID (areq_subject request) ;;
  let attestationId := "urn:attest:" ++ id in
  let expiresAt :=
    match areq_expiresInHours request with
    | Some h => if Qeq_bool h 0 then None
                else Some (Date_of_number (inject_Z now + h * 60 * 60 * 1000)%Q)
    | None => None
    end in
  let claimsWithIssuer :=
    map (fun claim => {| claim_type := rclaim_type claim;
                         claim_value := rclaim_value claim;
                         claim_issuer := Some issuerDid |})
        (areq_claims request) in
  match signData (hashAttestation attestationId (areq_type request) issuerDid
                    (areq_subject request) claimsWithIssuer (toISOString now))
                 (agent_publicKey issuer) with
  | inl e => throw e
  | inr proofValue =>
  let proof :=
    {| proof_type := "Ed25519Signature2020";
       proof_created := toISOString now;
       proof_proofPurpose := "assertionMethod";
       proof_verificationMethod := issuerDid ++ "#keys-1";
       proof_proofValue := proofValue |} in
  let attestation :=
    {| att_id := attestationId;
       att_type := areq_type request;
       att_issuer := issuerDid;
       att_subject := areq_subject request;
       att_claims := claimsWithIssuer;
       att_issuedAt := now;
       att_expiresAt := expiresAt;
       att_revocation := None;
       att_proof := Some proof |} in
  modify (set_attestations (fun rows => (rows ++ [attestation])%list)) ;;;
  logActivity
    {| act_id := activityId;
       act_agentId := agent_id subject;
       act_activityType := ActivityType.ATTESTATION_ISSUED;
       act_description := "Attestation issued: " ++ type_string (areq_type request);
       act_timestamp := now;
       act_metadata :=
         [("attestationId", Js.Str attestationId);
          ("issuer", Js.Str issuerDid);
          ("type", Js.Str (type_string (areq_type request)))];
       act_relatedAgentIds := None |} ;;;
  ret attestation
  end.
End WithSigner.

(** [errors.length > 0 ? errors : undefined] *)
Definition nonempty_or_undefined (l : list string) : option (list string) :=
  match l with
  | [] => None
  | _ => Some l
  end.

(** [verifyAttestation]: it only reads the store.  The row that was found
    goes through [mapAttestationFromDb] before anything is checked. *)
Definition verifyAttestation (now : Date) (attestationId : string) (st : State)
  : AppError + AttestationVerificationResult :=
  match find_attestation attestationId st with
  | None =>
      inr {| av_valid := false; av_attestation := None;
             av_errors := Some ["Attestation not found"]; av_warnings := None |}
  | Some row =>
      match mapAttestationFromDb row with
      | inl e => inl e
      | inr attestation =>
          let errors := [] in
          let warnings := [] in
          let errors :=
            match att_expiresAt attestation with
            | Some e => if (e <? now)%Z then (errors ++ ["Attestation has expired"])%list
                        else errors
            | None => errors
            end in
          let errors :=
            match att_revocation attestation with
            | Some _ => (errors ++ ["Attestation has been revoked"])%list
            | None => errors
            end in
          let warnings :=
            match fst (getAgentByDID (att_issuer attestation) st) with
            | inr issuer =>
                if decide (agent_status issuer <> AgentStatus.ACTIVE)
                then (warnings ++ ["Issuer is no longer active"])%list
                else warnings
            | inl _ => (warnings ++ ["Issuer not found"])%list
            end in
          let warnings :=
            match fst (getAgentByDID (att_subject attestation) st) with
            | inr _ => warnings
            | inl _ => (warnings ++ ["Subject not found"])%list
            end in
          let errors :=
            match att_proof attestation with
            | None => (errors ++ ["Attestation has no proof"])%list
            | Some _ => errors
            end in
          inr {| av_valid := (length errors =? 0)%nat;
                 av_attestation := Some attestation;
                 av_errors := nonempty_or_undefined errors;
                 av_warnings := nonempty_or_undefined warnings |}
      end
  end.

Definition getAttestation (attestationId : string) : M Attestation :=
  fun st => match find_attestation attestationId st with
            | None => (inl (NotFoundError "Attestation" attestationId), st)
            | Some row => (mapAttestationFromDb row, st)
            end.

(** The [UPDATE] of [revokeAttestation] applied to one row. *)
Definition with_revocation (info : RevocationInfo) (a : Attestation) : Attestation :=
  {| att_id := att_id a; att_type := att_type a; att_issuer := att_issuer a;
     att_subject := att_subject a; att_claims := att_claims a;
     att_issuedAt := att_issuedAt a; att_expiresAt := att_expiresAt a;
     att_revocation := Some info; att_proof := att_proof a |}.

Definition revokeAttestation
    (now : Date) (attestationId revokedBy : string) (reason : option string) : M unit :=
  bind (getAttestation attestationId) (fun attestation =>
    if negb (String.eqb revokedBy (att_issuer attestation)) then
      throw (AuthorizationError "Not authorized to revoke this attestation")
    else
      modify (set_attestations
                (map (fun a =>
                        if String.eqb (att_id a) attestationId
                        then with_revocation
                               {| revocation_revokedAt := now;
                                  revocation_reason := reason;
                                  revocation_revokedBy := revokedBy |} a
                        else a)))).

End AttestationService.

(** ** The trust engine and its anomaly detectors
       ([src/services/trust-engine.ts]) *)

Module TrustEngine.
Import Model Store.
Local Open Scope store_scope.

(** [calculateStandardDeviation] of [src/utils/index.ts], over a given
    [Math.sqrt]. *)
Definition sum (numbers : list Q) : Q := fold_left Qplus numbers 0%Q.

Definition calculateStandardDeviation (Math_sqrt : Q -> Q) (numbers : list Q) : Q :=
  match numbers with
  | [] => 0%Q
  | _ =>
      let n := inject_Z (Z.of_nat (length numbers)) in
      let mean := (sum numbers / n)%Q in
      let variance :=
        (fold_left (fun acc num => acc + (num - mean) * (num - mean)) numbers 0 / n)%Q in
      Math_sqrt variance
  end.

(** [clamp] of [src/utils/index.ts] *)
Definition clamp (value min max : Q) : Q := Js.Math_min (Js.Math_max value min) max.

Definition count {A} (p : A -> bool) (l : list A) : nat := length (List.filter p l).

Definition Qnat (n : nat) : Q := inject_Z (Z.of_nat n).

Section WithEnvironment.
(** [TRUST_DECAY_RATE], [TRUST_BOOST_RATE] and [Math.sqrt]. *)
Variables decayRate boostRate : Q.
Variable Math_sqrt : Q -> Q.
(** What a [DECIMAL(3,2)] column keeps of a score.  The store rounds the
    binary64 number that it receives, and a score that falls on a rounding
    boundary does not reach it exactly (0.925 arrives as
    0.92499999999999993 and is kept as 0.92), so the function is left to the
    caller. *)
Variable DECIMAL_3_2 : Q -> Q.

Definition calculateAttestationScore (attestations : list Attestation) : Q :=
  match attestations with
  | [] => 0.5%Q
  | _ =>
      let trustAttestations :=
        count (fun a => bool_decide (att_type a = AttestationType.TRUST_ASSERTION))
              attestations in
      let identityAttestations :=
        count (fun a => bool_decide (att_type a = AttestationType.IDENTITY_VERIFICATION))
              attestations in
      Js.Math_min (0.5 + Js.Math_min (Qnat trustAttestations * 0.1) 0.3
                       + Js.Math_min (Qnat identityAttestations * 0.05) 0.2)%Q
                  1
  end.

Definition is_type (t : ActivityType.t) (a : AgentActivity) : bool :=
  bool_decide (act_activityType a = t).

Definition calculateActivityScore (now : Date) (activities : list AgentActivity) : Q :=
  match activities with
  | [] => 0.5%Q
  | _ =>
      let recentActivities :=
        List.filter (fun a => (now - act_timestamp a <? 7 * 24 * 60 * 60 * 1000)%Z)
                    activities in
      match recentActivities with
      | [] => 0.3%Q
      | _ =>
          let positiveCount :=
            count (fun a => is_type ActivityType.CAPABILITY_GRANTED a
                            || is_type ActivityType.ATTESTATION_ISSUED a)
                  recentActivities in
          let negativeCount :=
            count (fun a => is_type ActivityType.ANOMALY_DETECTED a
                            || is_type ActivityType.CAPABILITY_REVOKED a)
                  recentActivities in
          let total := (positiveCount + negativeCount)%nat in
          let ratio :=
            (Qnat positiveCount / (if (total =? 0)%nat then 1 else Qnat total))%Q in
          (0.5 + ratio * 0.5)%Q
      end
  end.

Definition calculateRelationshipScore
    (relationships : list AgentRelationship * list AgentRelationship) : Q :=
  let allRelationships := (fst relationships ++ snd relationships)%list in
  match allRelationships with
  | [] => 0.5%Q
  | _ =>
      (fold_left (fun sum r => sum + rel_trustLevel r) allRelationships 0
       / Qnat (length allRelationships))%Q
  end.

Definition calculateAgeScore (now createdAt : Date) : Q :=
  let ageMs := inject_Z (now - createdAt) in
  let ageDays := (ageMs / (1000 * 60 * 60 * 24))%Q in
  Js.Math_min (ageDays / 90) 1.

Definition calculateReputationScore (reputation : Z) : Q :=
  ((inject_Z reputation + 1000) / 2000)%Q.

Definition calculateRecencyWeight (now : Date) (activities : list AgentActivity) : Q :=
  match activities with
  | [] => 0%Q
  | lastActivity :: _ =>
      let hoursSinceLastActivity :=
        (inject_Z (now - act_timestamp lastActivity) / (1000 * 60 * 60))%Q in
      Js.Math_max 0 (1 - hoursSinceLastActivity / 168)
  end.

(** [getAnomalyHistory] *)
Definition getAnomalyHistory (agentId : string) (resolved : option bool) (st : State)
  : list AnomalyDetectionResult :=
  map arow_anomaly
    (order_by_desc (fun r => anom_detectedAt (arow_anomaly r))
       (List.filter
          (fun r =>
             String.eqb (anom_agentId (arow_anomaly r)) agentId
             && match resolved with
                | None => true
                | Some true => bool_decide (is_Some (arow_resolved_at r))
                | Some false => bool_decide (arow_resolved_at r = None)
                end)
          (anomalies st))).

Definition severityMultiplier (s : AnomalySeverity.t) : Q :=
  match s with
  | AnomalySeverity.CRITICAL => 0.3
  | AnomalySeverity.HIGH => 0.2
  | AnomalySeverity.MEDIUM => 0.1
  | AnomalySeverity.LOW => 0.05
  end%Q.

Definition calculateAnomalyPenalty (agentId : string) (st : State) : Q :=
  match getAnomalyHistory agentId (Some false) st with
  | [] => 0%Q
  | unresolvedAnomalies =>
      Js.Math_min
        (fold_left (fun penalty anomaly =>
                      penalty + severityMultiplier (anom_severity anomaly)
                                * anom_confidence anomaly)%Q
                   unresolvedAnomalies 0%Q)
        0.5
  end.

(** The [UPDATE agents SET trust_score] of [calculateTrustScore]. *)
Definition with_trust_score (score : Q) (a : Agent) : Agent :=
  {| agent_id := agent_id a; agent_did := agent_did a; agent_name := agent_name a;
     agent_type := agent_type a; agent_publicKey := agent_publicKey a;
     agent_trustScore := DECIMAL_3_2 score; agent_reputation := agent_reputation a;
     agent_status := agent_status a; agent_capabilities := agent_capabilities a;
     agent_metadata := agent_metadata a; agent_createdAt := agent_createdAt a;
     agent_updatedAt := agent_updatedAt a; agent_lastActiveAt := agent_lastActiveAt a |}.

(** [storeTrustScore]: [trust_scores.agent_id] references [agents(id)], so
    the [INSERT] is refused when no agent has that id. *)
Definition storeTrustScore (scoreId : string) (now : Date)
    (calculation : TrustScoreCalculation) : M unit :=
  fun st =>
    if existsb (fun a => String.eqb (agent_id a) (calc_agentId calculation)) (agents st)
    then
      (inr tt,
       set_trust_scores
         (fun rows =>
            (rows ++ [{| ts_id := scoreId; ts_agent_id := calc_agentId calculation;
                         ts_score := DECIMAL_3_2 (calc_finalScore calculation);
                         ts_calculated_at := now |}])%list) st)
    else
      (inl (DatabaseError
              "insert or update on table trust_scores violates foreign key constraint"),
       st).

(** [calculateTrustScore].  [scoreId] is the result of [generateId()]. *)
Definition calculateTrustScore
    (scoreId : string) (now db_now : Date) (agentId : string)
  : M TrustScoreCalculation :=
  agent <- getAgent agentId ;;
  listed <- reads (AttestationService.listAttestations
                     {| filter_issuer := None; filter_subject := Some (agent_did agent);
                        filter_type := None; filter_validOnly := true;
                        filter_issuedAfter := None; filter_issuedBefore := None |}
                     1 100 db_now) ;;
  let attestations := fst listed in
  activities <- getAgentActivity agentId 100 ;;
  relationships <- getRelationships agentId ;;
  let baseScore := 0.5%Q in
  let attestationScore := calculateAttestationScore attestations in
  let baseScore := (baseScore + attestationScore * 0.3)%Q in
  let activityScore := calculateActivityScore now activities in
  let baseScore := (baseScore + activityScore * 0.2)%Q in
  let relationshipScore := calculateRelationshipScore relationships in
  let baseScore := (baseScore + relationshipScore * 0.2)%Q in
  let ageScore := calculateAgeScore now (agent_createdAt agent) in
  let baseScore := (baseScore + ageScore * 0.1)%Q in
  let reputationScore := calculateReputationScore (agent_reputation agent) in
  let baseScore := (baseScore + reputationScore * 0.2)%Q in
  let recencyWeight := calculateRecencyWeight now activities in
  anomalyPenalty <- gets (calculateAnomalyPenalty agentId) ;;
  let finalScore :=
    if negb (Qle_bool recencyWeight 0.5)
    then (baseScore + boostRate * recencyWeight)%Q
    else (baseScore - decayRate * (0.5 - recencyWeight))%Q in
  let finalScore := (finalScore - anomalyPenalty)%Q in
  let finalScore := clamp finalScore 0 1 in
  let calculation :=
    {| calc_agentId := agentId;
       calc_baseScore := baseScore;
       calc_attestations := length attestations;
       calc_positiveInteractions :=
         count (fun a => is_type ActivityType.CAPABILITY_GRANTED a
                         || is_type ActivityType.ATTESTATION_VERIFIED a) activities;
       calc_negativeInteractions :=
         count (fun a => is_type ActivityType.ANOMALY_DETECTED a
                         || is_type ActivityType.CAPABILITY_REVOKED a) activities;
       calc_recencyWeight := recencyWeight;
       calc_anomalyPenalty := anomalyPenalty;
       calc_finalScore := finalScore |} in
  storeTrustScore scoreId now calculation ;;;
  modify (set_agents (map (fun a =>
    if String.eqb (agent_id a) agentId then with_trust_score finalScore a else a))) ;;;
  ret calculation.

(** *** The five detectors *)

Definition detectAccessPatternAnomalies
    (now : Date) (agent : Agent) (activities : list AgentActivity)
  : option AnomalyDetectionResult :=
  let oneHourAgo := (now - 60 * 60 * 1000)%Z in
  let recentActivities :=
    List.filter (fun a => (oneHourAgo <? act_timestamp a)%Z) activities in
  if (length recentActivities <? 5)%nat then None
  else if (50 <? length recentActivities)%nat then
    Some {| anom_agentId := agent_id agent;
            anom_anomalyType := AnomalyType.UNUSUAL_ACCESS_PATTERN;
            anom_severity := AnomalySeverity.HIGH;
            anom_confidence := Js.Math_min (Qnat (length recentActivities) / 100) 1;
            anom_indicators :=
              [{| ind_type := "activity_burst";
                  ind_value := Qnat (length recentActivities);
                  ind_threshold := 50 |}];
            anom_detectedAt := now;
            anom_recommendedAction :=
              "Review recent activities and consider temporary suspension" |}
  else None.

Definition detectTrustManipulation
    (now : Date) (agent : Agent) (activities : list AgentActivity)
  : option AnomalyDetectionResult :=
  let trustActivities :=
    List.filter (is_type ActivityType.TRUST_SCORE_UPDATED) activities in
  if (length trustActivities <? 3)%nat then None
  else
    let recentChanges := take 5 trustActivities in
    if (3 <=? length recentChanges)%nat then
      Some {| anom_agentId := agent_id agent;
              anom_anomalyType := AnomalyType.TRUST_MANIPULATION;
              anom_severity := AnomalySeverity.MEDIUM;
              anom_confidence := 0.7;
              anom_indicators :=
                [{| ind_type := "rapid_trust_changes";
                    ind_value := Qnat (length recentChanges);
                    ind_threshold := 3 |}];
              anom_detectedAt := now;
              anom_recommendedAction :=
                "Investigate trust score manipulation attempts" |}
    else None.

Section Escalation.
Variable Number_toString : Q -> string.

(** [JSON.stringify(a.metadata).includes('admin')] *)
Definition mentions_admin (a : AgentActivity) : bool :=
  Js.includes (Js.JSON_stringify_object Number_toString (act_metadata a)) "admin".

Definition detectCapabilityEscalation
    (now : Date) (agent : Agent) (activities : list AgentActivity)
  : option AnomalyDetectionResult :=
  let capabilityGrants :=
    List.filter (is_type ActivityType.CAPABILITY_GRANTED) activities in
  if (length capabilityGrants <? 2)%nat then None
  else
    let adminGrants := List.filter mentions_admin capabilityGrants in
    if (0 <? length adminGrants)%nat then
      Some {| anom_agentId := agent_id agent;
              anom_anomalyType := AnomalyType.CAPABILITY_ESCALATION;
              anom_severity := AnomalySeverity.HIGH;
              anom_confidence := 0.8;
              anom_indicators :=
                [{| ind_type := "admin_capability_grants";
                    ind_value := Qnat (length adminGrants);
                    ind_threshold := 0 |}];
              anom_detectedAt := now;
              anom_recommendedAction :=
                "Review admin capability grants immediately" |}
    else None.
End Escalation.

Definition detectCollusionPatterns
    (now : Date) (agent : Agent)
    (relationships : list AgentRelationship * list AgentRelationship)
  : option AnomalyDetectionResult :=
  let allRelatedIds :=
    (map rel_sourceAgentId (fst relationships)
     ++ map rel_targetAgentId (snd relationships))%list in
  let uniqueRelatedIds : gset string := list_to_set allRelatedIds in
  if (20 <? size uniqueRelatedIds)%nat then
    Some {| anom_agentId := agent_id agent;
            anom_anomalyType := AnomalyType.COLLUSION_PATTERN;
            anom_severity := AnomalySeverity.MEDIUM;
            anom_confidence := Js.Math_min (Qnat (size uniqueRelatedIds) / 50) 1;
            anom_indicators :=
              [{| ind_type := "high_connectivity";
                  ind_value := Qnat (size uniqueRelatedIds);
                  ind_threshold := 20 |}];
            anom_detectedAt := now;
            anom_recommendedAction :=
              "Review agent relationships for potential collusion" |}
  else None.

(** [typeCounts[k] = (typeCounts[k] || 0) + 1]; the object keeps its
    keys in insertion order. *)
Fixpoint increment (k : string) (typeCounts : list (string * Q)) : list (string * Q) :=
  match typeCounts with
  | [] => [(k, 1%Q)]
  | (k', n) :: rest =>
      if String.eqb k' k then (k', (n + 1)%Q) :: rest
      else (k', n) :: increment k rest
  end.

Definition detectBehaviorDeviation
    (now : Date) (agent : Agent) (activities : list AgentActivity)
  : option AnomalyDetectionResult :=
  if (length activities <? 10)%nat then None
  else
    let typeCounts :=
      fold_left (fun counts activity =>
                   increment (ActivityType.to_string (act_activityType activity)) counts)
                activities [] in
    let typeDistribution := map snd typeCounts in
    let stdDev := calculateStandardDeviation Math_sqrt typeDistribution in
    if negb (Qle_bool stdDev 5) then
      Some {| anom_agentId := agent_id agent;
              anom_anomalyType := AnomalyType.BEHAVIOR_DEVIATION;
              anom_severity := AnomalySeverity.LOW;
              anom_confidence := Js.Math_min (stdDev / 10) 1;
              anom_indicators :=
                [{| ind_type := "behavior_variance";
                    ind_value := stdDev;
                    ind_threshold := 5 |}];
              anom_detectedAt := now;
              anom_recommendedAction := "Monitor agent behavior patterns" |}
    else None.

Section Detection.
Variable Number_toString : Q -> string.

(** [if (x) anomalies.push(x)] *)
Definition push_if {A} (x : option A) (l : list A) : list A :=
  match x with
  | Some a => (l ++ [a])%list
  | None => l
  end.

(** The anomalies that [detectAnomalies] collects, in order. *)
Definition collectAnomalies
    (now : Date) (agent : Agent) (activities : list AgentActivity)
    (relationships : list AgentRelationship * list AgentRelationship)
  : list AnomalyDetectionResult :=
  let anomalies := [] in
  let anomalies := push_if (detectAccessPatternAnomalies now agent activities) anomalies in
  let anomalies := push_if (detectTrustManipulation now agent activities) anomalies in
  let anomalies :=
    push_if (detectCapabilityEscalation Number_toString now agent activities)
            anomalies in
  let anomalies := push_if (detectCollusionPatterns now agent relationships) anomalies in
  let anomalies := push_if (detectBehaviorDeviation now agent activities) anomalies in
  anomalies.

(** [storeAnomaly]: an [anomalies] row and an [ANOMALY_DETECTED]
    activity.  [rowId] and [activityId] come from [generateId()]. *)
Definition storeAnomaly (rowId activityId : string)
    (anomaly : AnomalyDetectionResult) : M unit :=
  let stored :=
    {| anom_agentId := anom_agentId anomaly;
       anom_anomalyType := anom_anomalyType anomaly;
       anom_severity := anom_severity anomaly;
       anom_confidence := decimal_3_2 (anom_confidence anomaly);
       anom_indicators := anom_indicators anomaly;
       anom_detectedAt := anom_detectedAt anomaly;
       anom_recommendedAction := anom_recommendedAction anomaly |} in
  modify (set_anomalies (fun rows =>
    (rows ++ [{| arow_id := rowId; arow_anomaly := stored;
                 arow_resolved_at := None |}])%list)) ;;;
  logActivity
    {| act_id := activityId;
       act_agentId := anom_agentId anomaly;
       act_activityType := ActivityType.ANOMALY_DETECTED;
       act_description :=
         "Anomaly detected: " ++ AnomalyType.to_string (anom_anomalyType anomaly);
       act_timestamp := anom_detectedAt anomaly;
       act_metadata :=
         [("severity", AnomalySeverity.to_value (anom_severity anomaly));
          ("confidence", Js.Number (anom_confidence anomaly))];
       act_relatedAgentIds := None |}.

(** The loop that stores the anomalies; the [k]-th call of
    [generateId()] returns [generateId k]. *)
Fixpoint storeAnomalies (generateId : nat -> string) (k : nat)
    (anomalies : list AnomalyDetectionResult) : M unit :=
  match anomalies with
  | [] => ret tt
  | anomaly :: rest =>
      storeAnomaly (generateId k) (generateId (S k)) anomaly ;;;
      storeAnomalies generateId (S (S k)) rest
  end.

Definition detectAnomalies
    (generateId : nat -> string) (now : Date) (agentId : string)
  : M (list AnomalyDetectionResult) :=
  agent <- getAgent agentId ;;
  activities <- getAgentActivity agentId 200 ;;
  relationships <- getRelationships agentId ;;
  let anomalies := collectAnomalies now agent activities relationships in
  storeAnomalies generateId 0 anomalies ;;;
  ret anomalies.
End Detection.
End WithEnvironment.

(** [resolveAnomaly]: [UPDATE anomalies SET resolved_at = CURRENT_TIMESTAMP
    WHERE id = $1]. *)
Definition resolveAnomaly (db_now : Date) (anomalyId : string) : M unit :=
  modify (set_anomalies
            (map (fun r =>
                    if String.eqb (arow_id r) anomalyId
                    then {| arow_id := arow_id r; arow_anomaly := arow_anomaly r;
                            arow_resolved_at := Some db_now |}
                    else r))).

End TrustEngine.

(** ** Worked scenarios: concrete stores, tokens and requests *)

Module Scenario.
Import Model Store.

(** A rendering of numbers for the scenarios: exact on integers. *)
Definition show_number (q : Q) : string :=
  if Qeq_bool q (inject_Z (Qfloor q)) then pretty (Qfloor q)
  else pretty (Qnum q) ++ "/" ++ pretty (Zpos (Qden q)).

Definition JWT_SECRET : string := "default-secret-change-in-production".

Definition mkAgent (id did name : string) (type : AgentType) (createdAt : Date) : Agent :=
  {| agent_id := id; agent_did := did; agent_name := name; agent_type := type;
     agent_publicKey := "04ab"; agent_trustScore := 0.5; agent_reputation := 0;
     agent_status := AgentStatus.ACTIVE; agent_capabilities := [];
     agent_metadata := []; agent_createdAt := createdAt;
     agent_updatedAt := createdAt; agent_lastActiveAt := createdAt |}.

(** Agent A, a worker, and agent B, a validator. *)
Definition agentA : Agent := mkAgent "a1" "did:ethr:a" "A" WORKER 0.
Definition agentB : Agent := mkAgent "b1" "did:ethr:b" "B" VALIDATOR 0.

Definition two_agents : State := set_agents (fun _ => [agentA; agentB]) Store.empty.

Definition request_for (actions resources : list string)
    (conditions : option (list CapabilityCondition)) (hours : option Q)
  : CapabilityRequest :=
  {| req_subject := "did:ethr:a"; req_actions := actions; req_resources := resources;
     req_conditions := conditions; req_expiresInHours := hours |}.

(** B issues A a capability at time [1000000] (ms). *)
Definition issue (request : CapabilityRequest)
  : (AppError + CapabilityIssuer.CapabilityToken) * State :=
  CapabilityIssuer.issueCapability JWT_SECRET "u-1" "act-1" 1000000 "did:ethr:b"
    request two_agents.

Definition token_of (r : (AppError + CapabilityIssuer.CapabilityToken) * State)
  : Jwt.Token :=
  match fst r with
  | inr t => CapabilityIssuer.token t
  | inl _ => Jwt.Malformed ""
  end.

Definition verify (r : (AppError + CapabilityIssuer.CapabilityToken) * State)
    (action resource : string) (context : option (gmap string Js.Value))
    (now : Date) (st : State) : CapabilityVerificationResult :=
  CapabilityIssuer.verifyCapability JWT_SECRET show_number
    {| CapabilityIssuer.vreq_token := token_of r;
       CapabilityIssuer.vreq_action := action;
       CapabilityIssuer.vreq_resource := resource;
       CapabilityIssuer.vreq_context := context |}
    now st.

(** A one-hour grant of [read] on ["agents/*"]. *)
Definition agents_grant := issue (request_for ["read"] ["agents/*"] None (Some 1%Q)).

(** The same grant, revoked by B at [3000000] and again at [3600000]. *)
Definition revoke (now : Date) (st : State) : (AppError + unit) * State :=
  CapabilityIssuer.revokeCapability "act-r" now now "urn:cap:u-1" "did:ethr:b" None st.

Definition revoked_once : State := snd (revoke 3000000 (snd agents_grant)).

(** A grant that allows delegation, revoked, met long after it expired. *)
Definition delegable_grant :=
  issue (request_for ["read"; "delegate"] ["agents"] None (Some 1%Q)).
Definition delegable_revoked : State := snd (revoke 3000000 (snd delegable_grant)).

(** A grant with a numeric condition on [level]. *)
Definition level_condition : CapabilityCondition :=
  {| cond_type := "context"; cond_parameter := "level";
     cond_operator := "greater_than"; cond_value := Js.Number 5 |}.
Definition conditional_grant :=
  issue (request_for ["read"] ["agents"] (Some [level_condition]) (Some 1%Q)).

(** The DID document that [createDID('ethr', '04ab')] stores. *)
Definition documentA : DIDDocument :=
  {| doc_id := "did:ethr:04ab";
     doc_controller := Some "did:ethr:04ab";
     doc_verificationMethod :=
       Some [{| vm_id := "did:ethr:04ab#keys-1";
                vm_type := "EcdsaSecp256k1RecoveryMethod2020";
                vm_controller := "did:ethr:04ab";
                vm_publicKeyHex := Some "04ab" |}];
     doc_authentication := ["did:ethr:04ab#keys-1"];
     doc_assertionMethod := ["did:ethr:04ab#keys-1"];
     doc_created := Some "2024-01-01T00:00:00.000Z";
     doc_updated := Some "2024-01-01T00:00:00.000Z" |}.

Definition documents : gmap string DIDDocument := {["did:ethr:04ab" := documentA]}.

Definition capability_of (r : (AppError + CapabilityIssuer.CapabilityToken) * State)
  : option Capability :=
  match fst r with
  | inr t => Some (CapabilityIssuer.token_capability t)
  | inl _ => None
  end.

(** A grant asked for 10000 hours, as the MCP tool [issue_capability] can
    pass it on: that path does not go through [CreateCapabilitySchema]. *)
Definition long_grant := issue (request_for ["read"] ["agents"] None (Some 10000%Q)).


(** An agent created at [5000000] with nothing on record yet: no
    attestation, activity, relationship or anomaly, reputation 0. *)
Definition newcomer : Agent := mkAgent "n1" "did:ethr:n" "N" WORKER 5000000.
Definition newcomer_only : State := set_agents (fun _ => [newcomer]) Store.empty.

(** A stand-in for the rounding of a [DECIMAL(3,2)] column on the runs of
    the scenarios: to two decimals, a half going down, as it happens to the
    newcomer's 0.925. *)
Definition DECIMAL_3_2 (score : Q) : Q :=
  (inject_Z (Qceiling (score * 100 - (1 # 2))) / 100)%Q.

(** Its trust score computed in the very millisecond of its creation, with
    the default rates [TRUST_DECAY_RATE = 0.05], [TRUST_BOOST_RATE = 0.1]. *)
Definition newcomer_score : (AppError + TrustScoreCalculation) * State :=
  TrustEngine.calculateTrustScore 0.05 0.1 DECIMAL_3_2 "ts-1" 5000000 5000000 "n1"
    newcomer_only.

Definition finalScore_of (r : (AppError + TrustScoreCalculation) * State) : option Q :=
  match fst r with
  | inr c => Some (calc_finalScore c)
  | inl _ => None
  end.

Definition mkAttestation (id : string) (type : AttestationType.t)
    (issuer subject : string) (issuedAt : Date) (expiresAt : option Date) : Attestation :=
  {| att_id := id; att_type := type; att_issuer := issuer; att_subject := subject;
     att_claims := [{| claim_type := "reliability"; claim_value := Js.Str "high";
                       claim_issuer := Some issuer |}];
     att_issuedAt := issuedAt; att_expiresAt := expiresAt; att_revocation := None;
     att_proof := Some {| proof_type := "Ed25519Signature2020";
                          proof_created := "2024-01-01T00:00:00.000Z";
                          proof_proofPurpose := "assertionMethod";
                          proof_verificationMethod := issuer ++ "#keys-1";
                          proof_proofValue := "3045" |} |}.

(** B asserts trust in A; B has also verified the identity of a third
    agent, with an attestation that expires at [9000000]. *)
Definition attested : State :=
  {| agents := [agentA; agentB]; agent_relationships := []; capabilities := ∅;
     attestations :=
       [mkAttestation "urn:attest:1" AttestationType.TRUST_ASSERTION
          "did:ethr:b" "did:ethr:a" 1000000 None;
        mkAttestation "urn:attest:2" AttestationType.IDENTITY_VERIFICATION
          "did:ethr:b" "did:ethr:c" 2000000 (Some 9000000)];
     agent_activities := []; trust_scores := []; anomalies := [];
     activeCapabilities := ∅ |}.

(** The chain of A, queried at [4000000] and checked at [4000001], and
    the chain of an agent about whom nothing is attested. *)
Definition chain_of_A : AppError + AttestationChain :=
  AttestationService.buildAttestationChain "did:ethr:a" None 4000001 4000000 attested.
Definition chain_of_Z : AppError + AttestationChain :=
  AttestationService.buildAttestationChain "did:ethr:z" None 4000001 4000000 attested.

(** A stand-in for [Math.sqrt] on the runs of the scenarios (an integer
    square root); the agents of the scenarios have fewer than ten
    activities, so the deviation detector returns before it calls it. *)
Definition integer_sqrt (q : Q) : Q := inject_Z (Z.sqrt (Qfloor q)).

Definition generateId (k : nat) : string := "id-" ++ pretty k.

(** B grants A the action [admin]: A's log then holds one
    capability-granted activity, whose metadata mentions "admin". *)
Definition admin_grant := issue (request_for ["admin"] ["system"] None (Some 1%Q)).

(** Half a second later B also grants A [read] on the agents. *)
Definition admin_and_read_grants : State :=
  snd (CapabilityIssuer.issueCapability JWT_SECRET "u-2" "act-2" 1500000 "did:ethr:b"
         (request_for ["read"] ["agents"] None (Some 1%Q)) (snd admin_grant)).

Definition detect (st : State) : (AppError + list AnomalyDetectionResult) * State :=
  TrustEngine.detectAnomalies integer_sqrt show_number generateId 2000000 "a1" st.



(** The store after the grant, with agent A deleted from [agents]. *)
Definition subject_gone : State :=
  set_agents (fun _ => [agentB]) (snd agents_grant).

(** A condition with an operator for which [evaluateConditions] has no
    case, and a context that holds exactly the excluded value. *)
Definition region_condition : CapabilityCondition :=
  {| cond_type := "context"; cond_parameter := "region";
     cond_operator := "not_equals"; cond_value := Js.Str "eu" |}.
Definition region_eu : gmap string Js.Value := {["region" := Js.Str "eu"]}.

(** Contexts for the condition [level > 5]. *)
Definition level_9 : gmap string Js.Value := {["level" := Js.Number 9]}.
Definition level_text : gmap string Js.Value := {["level" := Js.Str "1"]}.


(** Stand-ins for [signData], [hashAttestation] and [toISOString] on the
    runs of the scenarios.  The signer wants a private key of 32 bytes (64
    hexadecimal digits) and throws for any other key. *)
Definition signData (data key : string) : AppError + string :=
  if (String.length key =? 64)%nat then inr (data ++ ":" ++ key)
  else inl (Error "Expected private key to be an Uint8Array with length 32").
Definition hashAttestation (id : string) (type : AttestationType.t)
    (issuer subject : string) (claims : list AttestationClaim) (issuedAt : string)
  : string :=
  id ++ "|" ++ issuer ++ "|" ++ subject ++ "|" ++ issuedAt.
Definition toISOString (d : Date) : string := pretty d.

(** B asserts trust in A for one hour, at [1000000]. *)
Definition trust_request : AttestationService.AttestationRequest :=
  {| AttestationService.areq_type := AttestationType.TRUST_ASSERTION;
     AttestationService.areq_subject := "did:ethr:a";
     AttestationService.areq_claims :=
       [{| AttestationService.rclaim_type := "reliability";
           AttestationService.rclaim_value := Js.Str "high" |}];
     AttestationService.areq_expiresInHours := Some 1%Q |}.

Definition attest : (AppError + Attestation) * State :=
  AttestationService.createAttestation signData hashAttestation toISOString
    "t-1" "act-t" 1000000 "did:ethr:b" trust_request two_agents.

End Scenario.

(** * Properties *)

Import Model Store.

(** ** The embedding at work *)

Example startsWith_is_literal :
  Js.startsWith "agents/123" "agents/" = true
  /\ Js.startsWith "agents/123" "agents/*" = false.
Proof. split; reflexivity. Qed.

Example metadata_of_an_admin_grant_mentions_admin :
  Js.includes
    (Js.JSON_stringify_object Scenario.show_number
       [("capabilityId", Js.Str "urn:cap:u-1"); ("reason", Js.Undefined);
        ("actions", Js.Array [Js.Str "admin"; Js.Number 3])])
    ("[" ++ String Js.double_quote "admin" ++ String Js.double_quote ",3]}")
  = true.
Proof. vm_compute. reflexivity. Qed.

Example rows_are_listed_latest_first :
  order_by_desc (fun x => x) [3; 1; 2; 5; 2] = [5; 3; 2; 2; 1].
Proof. reflexivity. Qed.

(** The grant of the scenario: the granted string itself is accessible, an
    action that was not granted is refused, and after the revocation the
    same request is refused with the revocation error. *)
Example grant_verify_revoke :
  valid (Scenario.verify Scenario.agents_grant "read" "agents/*" None 2000000
           (snd Scenario.agents_grant)) = true
  /\ Scenario.verify Scenario.agents_grant "write" "agents/*" None 2000000
       (snd Scenario.agents_grant)
     = CapabilityIssuer.invalid ["Action 'write' not permitted"]
  /\ Scenario.verify Scenario.agents_grant "read" "agents/*" None 3500000
       Scenario.revoked_once
     = CapabilityIssuer.invalid ["Capability has been revoked"].
Proof. repeat split; vm_compute; reflexivity. Qed.

(** ** Resource matching *)

Lemma resourceMatches_iff (requested resource : string) :
  CapabilityIssuer.resourceMatches requested resource = true <->
  requested = resource \/ String.prefix resource requested = true \/ resource = "*".
Proof.
  unfold CapabilityIssuer.resourceMatches, Js.startsWith.
  rewrite !orb_true_iff, !String.eqb_eq. tauto.
Qed.

(** The check accepts exactly on equality, literal prefix or a granted ["*"]. *)
Lemma hasResourceAccess_iff (resources : list string) (requested : string) :
  CapabilityIssuer.hasResourceAccess resources requested = true <->
  exists resource, In resource resources /\
    (requested = resource \/ String.prefix resource requested = true \/ resource = "*").
Proof.
  unfold CapabilityIssuer.hasResourceAccess. rewrite existsb_exists.
  split; intros (g & Hin & H); exists g; split; auto; now apply resourceMatches_iff.
Qed.

(** C1. The resource check of [verifyCapability] compares the pattern as a
    literal prefix: for a capability granting ["agents/*"], a request for
    ["agents/123"] is rejected, although the claim (and the repository's
    own examples of patterns) expect it to be accepted; ["capabilities/1"]
    is rejected as claimed. *)
Theorem C1_agents_pattern_rejects_agents_123 :
  CapabilityIssuer.hasResourceAccess ["agents/*"] "agents/123" = false
  /\ CapabilityIssuer.hasResourceAccess ["agents/*"] "capabilities/1" = false
  /\ Scenario.verify Scenario.agents_grant "read" "agents/123" None 2000000
       (snd Scenario.agents_grant)
     = CapabilityIssuer.invalid ["Resource 'agents/123' not accessible"].
Proof. repeat split; vm_compute; reflexivity. Qed.

Lemma includes_string_iff (l : list string) (s : string) :
  CapabilityIssuer.includes_string l s = true <-> In s l.
Proof.
  unfold CapabilityIssuer.includes_string. rewrite existsb_exists. split.
  - intros (x & Hin & Heq). apply String.eqb_eq in Heq. now subst.
  - intros Hin. exists s. split; [assumption | apply String.eqb_refl].
Qed.

Lemma includes_string_false (l : list string) (s : string) :
  CapabilityIssuer.includes_string l s = false <-> ~ In s l.
Proof.
  rewrite <- includes_string_iff. destruct (CapabilityIssuer.includes_string l s);
    split; congruence.
Qed.

(** ** DID ownership *)

(** The answer never depends on the signature or on the message. *)
Lemma verifyDIDOwnership_ignores_signature
    (createHash : option (string -> string)) (documents : gmap string DIDDocument)
    (did signature message signature' message' : string) :
  DIDService.verifyDIDOwnership createHash documents did signature message
  = DIDService.verifyDIDOwnership createHash documents did signature' message'.
Proof.
  unfold DIDService.verifyDIDOwnership.
  destruct (documents !! did) as [document |]; [| reflexivity].
  destruct (doc_verificationMethod document) as [[| method rest] |]; reflexivity.
Qed.



(** ** Delegation *)

(** C10. For every stored capability whose subject is the delegator and
    whose actions include [delegate], [delegateCapability] returns a
    delegation record and leaves the store as it was; neither the status
    of the capability nor its expiration is consulted, so this also holds
    for a revoked or expired parent. *)
Theorem C10_delegation_ignores_status_and_expiration :
  forall (delegationId : string) (now : Date)
         (capabilityId delegator delegatee : string)
         (restrictions : option Restrictions) (expiresInHours : option Q)
         (st : State) (c : Capability),
    capabilities st !! capabilityId = Some c ->
    cap_subject c = delegator ->
    In "delegate" (cap_actions c) ->
    exists delegation,
      CapabilityIssuer.delegateCapability delegationId now capabilityId delegator
        delegatee restrictions expiresInHours st = (inr delegation, st)
      /\ deleg_capabilityId delegation = capabilityId
      /\ deleg_delegator delegation = delegator
      /\ deleg_delegatee delegation = delegatee.
Proof.
  intros delegationId now capabilityId delegator delegatee restrictions
    expiresInHours st c Hrow Hsubject Hdelegate.
  unfold CapabilityIssuer.delegateCapability, bind, gets. rewrite Hrow.
  rewrite Hsubject, String.eqb_refl. simpl negb. cbv iota.
  apply includes_string_iff in Hdelegate. rewrite Hdelegate. simpl negb. cbv iota.
  unfold ret. eexists. split; [reflexivity |]. simpl. auto.
Qed.

(** The revoked grant of the scenario, delegated seventy hours after it
    expired. *)
Lemma C10_delegation_witness :
  (exists c,
      capabilities Scenario.delegable_revoked !! "urn:cap:u-1" = Some c
      /\ cap_status c = CapabilityStatus.REVOKED
      /\ cap_expiration c = Some 4600000
      /\ cap_subject c = "did:ethr:a"
      /\ In "delegate" (cap_actions c))
  /\ exists delegation,
      CapabilityIssuer.delegateCapability "d-1" 256600000 "urn:cap:u-1" "did:ethr:a"
        "did:ethr:c" None None Scenario.delegable_revoked
      = (inr delegation, Scenario.delegable_revoked)
      /\ deleg_capabilityId delegation = "urn:cap:u-1"
      /\ deleg_delegator delegation = "did:ethr:a"
      /\ deleg_delegatee delegation = "did:ethr:c".
Proof.
  split.
  - eexists. split; [vm_compute; reflexivity |]. simpl. intuition.
  - eapply C10_delegation_ignores_status_and_expiration.
    + vm_compute; reflexivity.
    + reflexivity.
    + simpl. intuition.
Defined.

(** ** The order of the checks of [verifyCapability] *)

(** C3 (as amended). [verifyCapability] checks, in this order and each
    short-circuiting: the token (signature, then not-before, then the
    token's own expiry, which is answered with "Token has expired"), the
    presence of the record, revocation, the [expired] status, the subject,
    the action, the resource and the conditions.  Consequently a revoked
    capability presented with its valid token before the token's [exp]
    gets the revocation error whatever the later checks would say; once
    the capability is past its expiration time its token, whose [exp] is
    that time in whole seconds, gets "Token has expired" before the record
    is even read, revoked or not. *)
Theorem C3_verification_order :
  forall (secret : string) (show : Q -> string)
         (request : CapabilityIssuer.CapabilityVerificationRequest)
         (now : Date) (st : State),
    let result := CapabilityIssuer.verifyCapability secret show request now st in
    let clock := now / 1000 in
    let action := CapabilityIssuer.vreq_action request in
    let resource := CapabilityIssuer.vreq_resource request in
    (forall raw, CapabilityIssuer.vreq_token request = Jwt.Malformed raw ->
       result = CapabilityIssuer.invalid ["Invalid token"])
    /\ forall payload key,
        CapabilityIssuer.vreq_token request = Jwt.Signed payload key ->
        (key <> secret -> result = CapabilityIssuer.invalid ["Invalid token"])
        /\ (key = secret -> clock < Jwt.nbf payload ->
            result = CapabilityIssuer.invalid ["Invalid token"])
        /\ (key = secret -> Jwt.nbf payload <= clock -> Jwt.exp payload <= clock ->
            result = CapabilityIssuer.invalid ["Token has expired"])
        /\ (key = secret -> Jwt.nbf payload <= clock ->
            forall expiration,
              Jwt.exp payload = expiration / 1000 -> expiration < now ->
              result = CapabilityIssuer.invalid ["Token has expired"])
        /\ (key = secret -> Jwt.nbf payload <= clock < Jwt.exp payload ->
            (capabilities st !! Jwt.jti payload = None ->
             result = CapabilityIssuer.invalid ["Capability not found"])
            /\ forall c, capabilities st !! Jwt.jti payload = Some c ->
                (cap_status c = CapabilityStatus.REVOKED ->
                 result = CapabilityIssuer.invalid ["Capability has been revoked"])
                /\ (cap_status c = CapabilityStatus.EXPIRED ->
                    result = CapabilityIssuer.invalid ["Capability has expired"])
                /\ (cap_status c <> CapabilityStatus.REVOKED ->
                    cap_status c <> CapabilityStatus.EXPIRED ->
                    (Jwt.sub payload <> cap_subject c ->
                     result = CapabilityIssuer.invalid ["Subject mismatch"])
                    /\ (Jwt.sub payload = cap_subject c ->
                        (~ In action (cap_actions c) ->
                         result = CapabilityIssuer.invalid
                                    ["Action '" ++ action ++ "' not permitted"])
                        /\ (In action (cap_actions c) ->
                            (CapabilityIssuer.hasResourceAccess (cap_resources c) resource
                             = false ->
                             result = CapabilityIssuer.invalid
                                        ["Resource '" ++ resource ++ "' not accessible"])
                            /\ (CapabilityIssuer.hasResourceAccess (cap_resources c) resource
                                = true ->
                                forall conditionErrors,
                                  conditionErrors =
                                    match cap_conditions c,
                                          CapabilityIssuer.vreq_context request with
                                    | Some conditions, Some context =>
                                        CapabilityIssuer.evaluateConditions show
                                          conditions context
                                    | _, _ => []
                                    end ->
                                  (conditionErrors <> [] ->
                                   result = CapabilityIssuer.invalid conditionErrors)
                                  /\ (conditionErrors = [] ->
                                      result = {| valid := true;
                                                  capability := Some c;
                                                  subject := Some (Jwt.sub payload);
                                                  allowedActions := Some (cap_actions c);
                                                  errors := None |})))))).
Proof.
  intros secret show request now st result clock action resource.
  subst result clock action resource.
  unfold CapabilityIssuer.verifyCapability, Jwt.verify. split.
  - intros raw ->. reflexivity.
  - intros payload key ->. split; [| split; [| split; [| split]]].
    + intros Hkey. apply String.eqb_neq in Hkey. now rewrite Hkey.
    + intros -> Hnbf. rewrite String.eqb_refl. simpl negb. cbv iota.
      apply Z.ltb_lt in Hnbf. now rewrite Hnbf.
    + intros -> Hnbf Hexp. rewrite String.eqb_refl. simpl negb. cbv iota.
      apply Z.ltb_ge in Hnbf. apply Z.leb_le in Hexp. now rewrite Hnbf, Hexp.
    + intros -> Hnbf expiration Hexp Hpast. rewrite String.eqb_refl. simpl negb.
      cbv iota. apply Z.ltb_ge in Hnbf. rewrite Hnbf.
      assert (Hle : (Jwt.exp payload <=? now / 1000)%Z = true).
      { apply Z.leb_le. rewrite Hexp. apply Z.div_le_mono; lia. }
      now rewrite Hle.
    + intros -> [Hnbf Hexp]. rewrite String.eqb_refl. simpl negb. cbv iota.
      apply Z.ltb_ge in Hnbf. apply Z.leb_gt in Hexp. rewrite Hnbf, Hexp.
      split; [intros ->; reflexivity |].
      intros c ->. split; [| split].
      * intros Hrev. now destruct (decide (cap_status c = CapabilityStatus.REVOKED)).
      * intros Hexpd.
        destruct (decide (cap_status c = CapabilityStatus.REVOKED)); [congruence |].
        now destruct (decide (cap_status c = CapabilityStatus.EXPIRED)).
      * intros Hnrev Hnexp.
        destruct (decide (cap_status c = CapabilityStatus.REVOKED)); [contradiction |].
        destruct (decide (cap_status c = CapabilityStatus.EXPIRED)); [contradiction |].
        split.
        { intros Hsub. apply String.eqb_neq in Hsub. now rewrite Hsub. }
        intros Hsub. rewrite Hsub, String.eqb_refl. simpl negb. cbv iota. split.
        { intros Hact. apply includes_string_false in Hact. now rewrite Hact. }
        intros Hact. apply includes_string_iff in Hact. rewrite Hact.
        simpl negb. cbv iota. split.
        { intros Hres. now rewrite Hres. }
        intros Hres. rewrite Hres. simpl negb. cbv iota.
        intros conditionErrors ->. split.
        { intros Hne.
          destruct (match cap_conditions c with Some _ => _ | None => _ end) eqn:E;
            [contradiction | reflexivity]. }
        intros Hnil. rewrite Hnil. reflexivity.
Qed.

(** The grant of the scenario, revoked at [3000000] and verified at
    [3500000], before the token expires at [4600] s: the revocation error,
    although the requested action and resource are not granted either. *)
Lemma C3_revoked_before_expiry_witness :
  Scenario.token_of Scenario.agents_grant
  = Jwt.sign
      {| Jwt.jti := "urn:cap:u-1"; Jwt.sub := "did:ethr:a"; Jwt.iss := "did:ethr:b";
         Jwt.iat := 1000; Jwt.exp := 4600; Jwt.nbf := 1000;
         Jwt.payload_actions := ["read"]; Jwt.payload_resources := ["agents/*"];
         Jwt.payload_conditions := None |}
      Scenario.JWT_SECRET
  /\ Scenario.verify Scenario.agents_grant "write" "capabilities/1" None 3500000
       Scenario.revoked_once
     = CapabilityIssuer.invalid ["Capability has been revoked"].
Proof.
  split; [reflexivity |].
  pose proof (C3_verification_order Scenario.JWT_SECRET Scenario.show_number
                {| CapabilityIssuer.vreq_token := Scenario.token_of Scenario.agents_grant;
                   CapabilityIssuer.vreq_action := "write";
                   CapabilityIssuer.vreq_resource := "capabilities/1";
                   CapabilityIssuer.vreq_context := None |}
                3500000 Scenario.revoked_once) as H.
  cbv zeta in H. destruct H as [_ H].
  specialize (H _ _ eq_refl). destruct H as (_ & _ & _ & _ & Hin).
  assert (Hclock : 1000 <= 3500000 / 1000 < 4600)
    by (split; [apply Z.leb_le | apply Z.ltb_lt]; reflexivity).
  destruct (Hin eq_refl Hclock) as [_ Hrow].
  edestruct Hrow as [Hrevoked _]; [vm_compute; reflexivity |].
  apply Hrevoked. reflexivity.
Defined.

(** The same revoked grant verified at [4700000], after its expiration at
    [4600000]: the answer is the expiry of the token, not the revocation. *)
Lemma C3_expired_token_hides_revocation :
  (exists c,
      capabilities Scenario.revoked_once !! "urn:cap:u-1" = Some c
      /\ cap_status c = CapabilityStatus.REVOKED
      /\ cap_expiration c = Some 4600000)
  /\ Scenario.verify Scenario.agents_grant "read" "agents/*" None 4700000
       Scenario.revoked_once
     = CapabilityIssuer.invalid ["Token has expired"]
  /\ CapabilityIssuer.invalid ["Token has expired"]
     <> CapabilityIssuer.invalid ["Capability has been revoked"].
Proof.
  split; [| split].
  - eexists. split; [vm_compute; reflexivity |]. split; reflexivity.
  - vm_compute. reflexivity.
  - discriminate.
Qed.

(** ** Conditions and absent context keys *)

Lemma evaluateConditions_single
    (show : Q -> string) (condition : CapabilityCondition)
    (context : gmap string Js.Value) :
  CapabilityIssuer.evaluateConditions show [condition] context
  = CapabilityIssuer.evaluateCondition show condition context.
Proof. reflexivity. Qed.

Lemma evaluateConditions_flat_map
    (show : Q -> string) (conditions : list CapabilityCondition)
    (context : gmap string Js.Value) :
  CapabilityIssuer.evaluateConditions show conditions context
  = flat_map (fun c => CapabilityIssuer.evaluateCondition show c context) conditions.
Proof.
  unfold CapabilityIssuer.evaluateConditions.
  assert (H : forall acc,
             fold_left (fun errors condition =>
                          (errors ++ CapabilityIssuer.evaluateCondition show condition
                                       context)%list) conditions acc
             = (acc ++ flat_map (fun c => CapabilityIssuer.evaluateCondition show c context)
                         conditions)%list).
  { induction conditions as [| c rest IH]; intros acc; simpl.
    - now rewrite app_nil_r.
    - rewrite IH. now rewrite <- app_assoc. }
  apply (H []).
Qed.

Lemma strict_equals_undefined (v : Js.Value) :
  v <> Js.Undefined -> Js.strict_equals Js.Undefined v = false.
Proof. destruct v; intros H; try reflexivity. contradiction. Qed.

(** What [verifyCapability] answers once the token, the record, the
    status, the subject, the action and the resource have passed. *)
Lemma verifyCapability_after_resource_check
    (secret : string) (show : Q -> string)
    (request : CapabilityIssuer.CapabilityVerificationRequest)
    (now : Date) (st : State) (payload : Jwt.Payload) (c : Capability) :
  CapabilityIssuer.vreq_token request = Jwt.Signed payload secret ->
  Jwt.nbf payload <= now / 1000 < Jwt.exp payload ->
  capabilities st !! Jwt.jti payload = Some c ->
  cap_status c <> CapabilityStatus.REVOKED ->
  cap_status c <> CapabilityStatus.EXPIRED ->
  Jwt.sub payload = cap_subject c ->
  In (CapabilityIssuer.vreq_action request) (cap_actions c) ->
  CapabilityIssuer.hasResourceAccess (cap_resources c)
    (CapabilityIssuer.vreq_resource request) = true ->
  CapabilityIssuer.verifyCapability secret show request now st
  = let conditionErrors :=
      match cap_conditions c, CapabilityIssuer.vreq_context request with
      | Some conditions, Some context =>
          CapabilityIssuer.evaluateConditions show conditions context
      | _, _ => []
      end in
    match conditionErrors with
    | [] => {| valid := true; capability := Some c;
               subject := Some (Jwt.sub payload);
               allowedActions := Some (cap_actions c); errors := None |}
    | _ => CapabilityIssuer.invalid conditionErrors
    end.
Proof.
  intros Htok [Hnbf Hexp] Hrow Hnrev Hnexp Hsub Hact Hres.
  unfold CapabilityIssuer.verifyCapability, Jwt.verify.
  rewrite Htok, String.eqb_refl. simpl negb. cbv iota.
  apply Z.ltb_ge in Hnbf. apply Z.leb_gt in Hexp. rewrite Hnbf, Hexp, Hrow.
  destruct (decide (cap_status c = CapabilityStatus.REVOKED)); [contradiction |].
  destruct (decide (cap_status c = CapabilityStatus.EXPIRED)); [contradiction |].
  rewrite Hsub, String.eqb_refl. simpl negb. cbv iota.
  apply includes_string_iff in Hact. rewrite Hact, Hres. simpl negb. cbv iota zeta.
  destruct (match cap_conditions c with Some _ => _ | None => _ end); reflexivity.
Qed.

(** C4 (as amended). For a condition whose parameter is absent from the
    supplied context, the outcome depends on the operator: [equals] fails
    with an error (the stored value is never [undefined]); [in] fails with
    an error when its value is an array that does not hold [undefined], and
    is skipped when its value is no array; every other operator
    ([greater_than], [less_than], [contains], and the operators that have
    no case: [not_equals], [before], [after]) produces no error, so the
    condition counts as satisfied.  When no context is supplied at all the
    conditions are not evaluated, and a request that passes the other
    checks is valid whatever the conditions are. *)
Theorem C4_absent_context_key :
  forall (show : Q -> string) (condition : CapabilityCondition)
         (context : gmap string Js.Value),
    context !! cond_parameter condition = None ->
    let errs := CapabilityIssuer.evaluateConditions show [condition] context in
    (cond_operator condition = "equals" ->
     cond_value condition <> Js.Undefined ->
     errs = ["Condition failed: " ++ cond_parameter condition ++ " must equal "
               ++ Js.ToString show (cond_value condition)])
    /\ (cond_operator condition = "in" ->
        forall elems,
          cond_value condition = Js.Array elems ->
          Js.Array_includes elems Js.Undefined = false ->
          errs = ["Condition failed: " ++ cond_parameter condition ++ " must be in ["
                    ++ Js.Array_join show ", " elems ++ "]"])
    /\ (cond_operator condition = "in" ->
        (forall elems, cond_value condition <> Js.Array elems) ->
        errs = [])
    /\ (cond_operator condition <> "equals" ->
        cond_operator condition <> "in" ->
        errs = [])
    /\ (forall (secret : string)
               (request : CapabilityIssuer.CapabilityVerificationRequest)
               (now : Date) (st : State) (payload : Jwt.Payload) (c : Capability),
          CapabilityIssuer.vreq_context request = None ->
          CapabilityIssuer.vreq_token request = Jwt.Signed payload secret ->
          Jwt.nbf payload <= now / 1000 < Jwt.exp payload ->
          capabilities st !! Jwt.jti payload = Some c ->
          cap_status c <> CapabilityStatus.REVOKED ->
          cap_status c <> CapabilityStatus.EXPIRED ->
          Jwt.sub payload = cap_subject c ->
          In (CapabilityIssuer.vreq_action request) (cap_actions c) ->
          CapabilityIssuer.hasResourceAccess (cap_resources c)
            (CapabilityIssuer.vreq_resource request) = true ->
          valid (CapabilityIssuer.verifyCapability secret show request now st) = true).
Proof.
  intros show condition context Habsent errs. subst errs.
  rewrite evaluateConditions_single. unfold CapabilityIssuer.evaluateCondition.
  rewrite Habsent. simpl default.
  split; [| split; [| split; [| split]]].
  - intros Hop Hval. rewrite Hop. simpl String.eqb. cbv iota.
    now rewrite (strict_equals_undefined _ Hval).
  - intros Hop elems Hval Hnot. rewrite Hop, Hval. simpl String.eqb. cbv iota.
    now rewrite Hnot.
  - intros Hop Hval. rewrite Hop. simpl String.eqb. cbv iota.
    destruct (cond_value condition); try reflexivity. now destruct (Hval elems).
  - intros Hne1 Hne2.
    apply String.eqb_neq in Hne1. apply String.eqb_neq in Hne2. rewrite Hne1, Hne2.
    destruct (String.eqb (cond_operator condition) "greater_than"); [reflexivity |].
    destruct (String.eqb (cond_operator condition) "less_than"); [reflexivity |].
    destruct (String.eqb (cond_operator condition) "contains"); reflexivity.
  - intros secret request now st payload c Hctx Htok Hclock Hrow Hnrev Hnexp Hsub
      Hact Hres.
    rewrite (verifyCapability_after_resource_check secret show request now st payload c)
      by assumption.
    rewrite Hctx. cbv zeta. now destruct (cap_conditions c).
Qed.

(** The condition [level > 5] of the scenario against a context that has no
    [level]: no error. *)
Lemma C4_absent_key_witness :
  (∅ : gmap string Js.Value) !! cond_parameter Scenario.level_condition = None
  /\ CapabilityIssuer.evaluateConditions Scenario.show_number
       [Scenario.level_condition] ∅ = [].
Proof.
  assert (Habsent : (∅ : gmap string Js.Value)
                    !! cond_parameter Scenario.level_condition = None)
    by (vm_compute; reflexivity).
  split; [exact Habsent |].
  destruct (C4_absent_context_key Scenario.show_number Scenario.level_condition ∅ Habsent)
    as (_ & _ & _ & Hother & _).
  apply Hother; discriminate.
Defined.

(** The grant of the scenario carries the condition [level > 5]; verified
    with a context that lacks [level], and with no context at all, it is
    valid: the absent key does not fail the condition. *)
Lemma C4_absent_key_is_not_a_failure :
  (∅ : gmap string Js.Value) !! "level" = None
  /\ cap_conditions <$> capabilities (snd Scenario.conditional_grant) !! "urn:cap:u-1"
     = Some (Some [Scenario.level_condition])
  /\ CapabilityIssuer.evaluateConditions Scenario.show_number
       [Scenario.level_condition] ∅ = []
  /\ valid (Scenario.verify Scenario.conditional_grant "read" "agents" (Some ∅) 2000000
              (snd Scenario.conditional_grant)) = true
  /\ valid (Scenario.verify Scenario.conditional_grant "read" "agents" None 2000000
              (snd Scenario.conditional_grant)) = true.
Proof. repeat split; vm_compute; reflexivity. Qed.

(** ** Expiration of an issued capability *)

Lemma Date_of_number_inject_Z (x : Q) (z : Z) :
  (x == inject_Z z)%Q -> Date_of_number x = z.
Proof.
  intros H. unfold Date_of_number. destruct (Qle_bool 0 x).
  - rewrite (Qfloor_comp _ _ H). apply Qfloor_Z.
  - rewrite (Qceiling_comp _ _ H). apply Qceiling_Z.
Qed.

Lemma Date_of_number_le (x : Q) (z : Z) :
  (x <= inject_Z z)%Q -> Date_of_number x <= z.
Proof.
  intros H. unfold Date_of_number. destruct (Qle_bool 0 x).
  - rewrite <- (Qfloor_Z z). now apply Qfloor_resp_le.
  - rewrite <- (Qceiling_Z z). now apply Qceiling_resp_le.
Qed.

Lemma getAgentByDID_reads (did : string) (st : State) :
  snd (getAgentByDID did st) = st.
Proof.
  unfold getAgentByDID, getAgent, bind, gets, throw, ret.
  destruct (filter _ (agents st)); reflexivity.
Qed.

Lemma getAgentByDID_found (did : string) (st : State) (a : Agent) :
  fst (getAgentByDID did st) = inr a -> getAgentByDID did st = (inr a, st).
Proof.
  intros H. rewrite <- (getAgentByDID_reads did st) at 2. rewrite <- H.
  now destruct (getAgentByDID did st).
Qed.

(** C5 (as amended). When issuer and subject are active and the request
    asks for a whole number of hours or for none, [issueCapability] succeeds
    and sets, in the returned capability and in the stored row,
    [expiration = now + h] hours, where [h] is [expiresInHours] when it is
    supplied and not zero, and 24 otherwise; [now] and the expiration are
    taken within the range of [Date] (8.64e15 ms either side of the epoch),
    where the arithmetic of the code is exact.  [issueCapability] applies no
    cap of its own; the bound of 8760 hours holds for the requests that
    [CreateCapabilitySchema] accepts. *)
Theorem C5_expiration_of_issued_capability :
  forall (secret uuid activityId : string) (now : Date) (issuerDid : string)
         (request : CapabilityRequest) (st : State) (issuer subject : Agent)
         (asked : option Z),
    fst (getAgentByDID issuerDid st) = inr issuer ->
    agent_status issuer = AgentStatus.ACTIVE ->
    fst (getAgentByDID (req_subject request) st) = inr subject ->
    agent_status subject = AgentStatus.ACTIVE ->
    req_expiresInHours request = inject_Z <$> asked ->
    let hours :=
      match asked with
      | Some h => if (h =? 0)%Z then 24 else h
      | None => 24
      end in
    let expiration := now + hours * 3600000 in
    - 8640000000000000 <= now <= 8640000000000000 ->
    - 8640000000000000 <= expiration <= 8640000000000000 ->
    exists issued st',
      CapabilityIssuer.issueCapability secret uuid activityId now issuerDid request st
      = (inr issued, st')
      /\ cap_expiration (CapabilityIssuer.token_capability issued) = Some expiration
      /\ cap_expiration <$> capabilities st' !! ("urn:cap:" ++ uuid)
         = Some (Some expiration)
      /\ (CapabilityIssuer.schema_accepts_expiresInHours (req_expiresInHours request)
          = true ->
          expiration <= now + 8760 * 3600000).
Proof.
  intros secret uuid activityId now issuerDid request st issuer subject asked
    Hissuer Hactive Hsubject Hactive' Hasked hours expiration Hnow Hrange.
  apply getAgentByDID_found in Hissuer. apply getAgentByDID_found in Hsubject.
  assert (Hexpiration :
    Date_of_number
      (inject_Z now
       + CapabilityIssuer.expiresInHours_or_default (req_expiresInHours request)
         * 60 * 60 * 1000)%Q = expiration).
  { apply Date_of_number_inject_Z. subst expiration hours. rewrite Hasked.
    rewrite inject_Z_plus, inject_Z_mult.
    assert (Hms : (inject_Z 3600000 == 60 * 60 * 1000)%Q) by reflexivity.
    rewrite Hms. destruct asked as [h |]; simpl.
    - destruct (h =? 0)%Z eqn:Hzero.
      + apply Z.eqb_eq in Hzero. subst h. simpl. ring.
      + assert (Hnz : Qeq_bool (inject_Z h) 0 = false).
        { apply not_true_iff_false. intros Heq. apply Qeq_bool_iff in Heq.
          apply Z.eqb_neq in Hzero. apply Hzero. unfold Qeq in Heq. simpl in Heq. lia. }
        rewrite Hnz. ring.
    - ring. }
  unfold CapabilityIssuer.issueCapability, bind. rewrite Hissuer.
  destruct (decide (agent_status issuer <> AgentStatus.ACTIVE)); [contradiction |].
  rewrite Hsubject.
  destruct (decide (agent_status subject <> AgentStatus.ACTIVE)); [contradiction |].
  unfold modify, logActivity, ret. cbv beta iota zeta. rewrite Hexpiration.
  eexists. eexists. split; [reflexivity |]. cbn [CapabilityIssuer.token_capability
                                                  cap_expiration capabilities
                                                  set_capabilities
                                                  set_activeCapabilities
                                                  set_agent_activities].
  split; [reflexivity |]. split.
  { rewrite lookup_insert_eq. reflexivity. }
  intros Hschema. subst expiration.
  assert (Hh : hours <= 8760).
  { subst hours. rewrite Hasked in Hschema.
    unfold CapabilityIssuer.schema_accepts_expiresInHours in Hschema.
    destruct asked as [h |]; simpl in Hschema; [| lia].
    apply andb_true_iff in Hschema. destruct Hschema as [_ Hle].
    apply Qle_bool_iff in Hle. change 8760%Q with (inject_Z 8760) in Hle.
    rewrite <- Zle_Qle in Hle. destruct (h =? 0)%Z; lia. }
  lia.
Qed.

(** B issues A a capability for three hours. *)
Lemma C5_three_hours_witness :
  (fst (getAgentByDID "did:ethr:b" Scenario.two_agents) = inr Scenario.agentB
   /\ fst (getAgentByDID "did:ethr:a" Scenario.two_agents) = inr Scenario.agentA
   /\ - 8640000000000000 <= 1000000 + 3 * 3600000 <= 8640000000000000)
  /\ exists issued st',
      CapabilityIssuer.issueCapability Scenario.JWT_SECRET "u-1" "act-1" 1000000
        "did:ethr:b" (Scenario.request_for ["read"] ["agents"] None (Some 3%Q))
        Scenario.two_agents
      = (inr issued, st')
      /\ cap_expiration (CapabilityIssuer.token_capability issued)
         = Some (1000000 + 3 * 3600000)
      /\ cap_expiration <$> capabilities st' !! "urn:cap:u-1"
         = Some (Some (1000000 + 3 * 3600000))
      /\ (CapabilityIssuer.schema_accepts_expiresInHours (Some 3%Q) = true ->
          1000000 + 3 * 3600000 <= 1000000 + 8760 * 3600000).
Proof.
  assert (Hrange : - 8640000000000000 <= 1000000 + 3 * 3600000 <= 8640000000000000)
    by lia.
  split; [split; [reflexivity | split; [reflexivity | exact Hrange]] |].
  apply (C5_expiration_of_issued_capability Scenario.JWT_SECRET "u-1" "act-1" 1000000
           "did:ethr:b" (Scenario.request_for ["read"] ["agents"] None (Some 3%Q))
           Scenario.two_agents Scenario.agentB Scenario.agentA (Some 3));
    try reflexivity; split; apply Z.leb_le; reflexivity.
Defined.

(** A request for 10000 hours is issued as asked: the expiration lies
    10000 hours after [now], beyond [now] + 8760 hours. *)
Lemma C5_no_cap_in_issueCapability :
  cap_expiration <$> Scenario.capability_of Scenario.long_grant
  = Some (Some (1000000 + 10000 * 3600000))
  /\ ~ (1000000 + 10000 * 3600000 <= 1000000 + 8760 * 3600000).
Proof. split; [vm_compute; reflexivity | lia]. Qed.

(** ** Revoking twice *)





(** ** The trust score of an agent with nothing on record *)

Lemma Math_min_cases (a b : Q) :
  ((a <= b)%Q /\ Js.Math_min a b = a) \/ ((b < a)%Q /\ Js.Math_min a b = b).
Proof.
  unfold Js.Math_min. destruct (Qle_bool a b) eqn:E.
  - left. split; [now apply Qle_bool_iff | reflexivity].
  - right. split; [| reflexivity].
    apply Qnot_le_lt. rewrite <- Qle_bool_iff. congruence.
Qed.

Lemma Math_max_cases (a b : Q) :
  ((a <= b)%Q /\ Js.Math_max a b = b) \/ ((b < a)%Q /\ Js.Math_max a b = a).
Proof.
  unfold Js.Math_max. destruct (Qle_bool a b) eqn:E.
  - left. split; [now apply Qle_bool_iff | reflexivity].
  - right. split; [| reflexivity].
    apply Qnot_le_lt. rewrite <- Qle_bool_iff. congruence.
Qed.

(** Case analysis on a [clamp]. *)
Ltac clamp_cases x lo hi :=
  unfold TrustEngine.clamp;
  destruct (Math_max_cases x lo) as [[? ->] | [? ->]];
  [ destruct (Math_min_cases lo hi) as [[? ->] | [? ->]]
  | destruct (Math_min_cases x hi) as [[? ->] | [? ->]] ].

Lemma clamp_compat (x y lo hi : Q) :
  (x == y)%Q -> (TrustEngine.clamp x lo hi == TrustEngine.clamp y lo hi)%Q.
Proof.
  intros H. clamp_cases x lo hi; clamp_cases y lo hi; lra.
Qed.

Lemma clamp_bounds (x : Q) :
  (x <= 1)%Q -> (x <= TrustEngine.clamp x 0 1)%Q /\ (0 <= TrustEngine.clamp x 0 1)%Q.
Proof.
  intros H. clamp_cases x 0%Q 1%Q; split; lra.
Qed.

Lemma clamp_upper (x u : Q) :
  (x <= u)%Q -> (0 <= u)%Q -> (TrustEngine.clamp x 0 1 <= u)%Q.
Proof.
  intros H Hu. clamp_cases x 0%Q 1%Q; lra.
Qed.

Lemma calculateAgeScore_at_creation (now : Date) :
  (TrustEngine.calculateAgeScore now now == 0)%Q.
Proof.
  unfold TrustEngine.calculateAgeScore. rewrite Z.sub_diag. reflexivity.
Qed.

Lemma getAgent_found (idOrDid : string) (st : State) (a : Agent) :
  fst (getAgent idOrDid st) = inr a -> getAgent idOrDid st = (inr a, st).
Proof. apply getAgentByDID_found. Qed.

Lemma calculateAnomalyPenalty_none (agentId : string) (st : State) :
  TrustEngine.getAnomalyHistory agentId (Some false) st = [] ->
  TrustEngine.calculateAnomalyPenalty agentId st = 0%Q.
Proof. intros H. unfold TrustEngine.calculateAnomalyPenalty. now rewrite H. Qed.

(** An agent that is looked up by its id is a row of [agents] with that
    id. *)
Lemma agent_found_by_id (agentId : string) (st : State) (agent : Agent) :
  Js.startsWith agentId "did:" = false ->
  fst (getAgent agentId st) = inr agent ->
  agent_id agent = agentId
  /\ existsb (fun a => String.eqb (agent_id a) agentId) (agents st) = true.
Proof.
  unfold getAgent, bind, gets, throw, ret. intros -> H. simpl in H.
  destruct (filter _ (agents st)) as [| row rows] eqn:Hrows; [discriminate |].
  injection H as ->.
  assert (Hin : agent ∈ filter (fun a => agent_id a = agentId) (agents st))
    by (rewrite Hrows; left).
  apply list_elem_of_filter in Hin as [Hid Hin]. split; [exact Hid |].
  apply existsb_exists. exists agent. split; [now apply list_elem_of_In |].
  now apply String.eqb_eq.
Qed.

(** C7 (as amended). For an agent that is looked up by its id and has no
    valid attestation, no activity record, no relationship, reputation 0 and
    age 0, [calculateTrustScore] succeeds with [baseScore = 0.95] (the
    neutral 0.5 plus the weighted sub-scores, each of which is 0.5 on empty
    input, and age 0) and
    [finalScore = clamp(0.95 - decayRate * 0.5 - anomalyPenalty, 0, 1)];
    with no unresolved anomaly and a decay rate that is not negative,
    [finalScore] lies between [0.95 - decayRate * 0.5] and [0.95]. *)
Theorem C7_score_of_an_agent_with_nothing_on_record :
  forall (decayRate boostRate : Q) (DECIMAL_3_2 : Q -> Q) (scoreId : string)
         (now db_now : Date) (agentId : string) (st : State) (agent : Agent),
    Js.startsWith agentId "did:" = false ->
    fst (getAgent agentId st) = inr agent ->
    AttestationService.listAttestations
      {| filter_issuer := None; filter_subject := Some (agent_did agent);
         filter_type := None; filter_validOnly := true;
         filter_issuedAfter := None; filter_issuedBefore := None |}
      1 100 db_now st = inr ([], 0%nat) ->
    fst (getAgentActivity agentId 100 st) = inr [] ->
    fst (getRelationships agentId st) = inr ([], []) ->
    agent_reputation agent = 0 ->
    agent_createdAt agent = now ->
    exists calculation st',
      TrustEngine.calculateTrustScore decayRate boostRate DECIMAL_3_2 scoreId now db_now
        agentId st
      = (inr calculation, st')
      /\ (calc_baseScore calculation == 0.95)%Q
      /\ (calc_finalScore calculation
          == TrustEngine.clamp
               (0.95 - decayRate * 0.5 - TrustEngine.calculateAnomalyPenalty agentId st)
               0 1)%Q
      /\ (TrustEngine.getAnomalyHistory agentId (Some false) st = [] ->
          (0 <= decayRate)%Q ->
          (0.95 - decayRate * 0.5 <= calc_finalScore calculation)%Q
          /\ (calc_finalScore calculation <= 0.95)%Q).
Proof.
  intros decayRate boostRate DECIMAL_3_2 scoreId now db_now agentId st agent
    Hid Hagent Hatt Hact Hrel Hrep Hage.
  destruct (agent_found_by_id _ _ _ Hid Hagent) as [_ Hstored].
  apply getAgent_found in Hagent.
  cbv beta iota delta [getAgentActivity getRelationships bind gets ret fst] in Hact, Hrel.
  injection Hact as Hact. injection Hrel as Hin Hout.
  unfold TrustEngine.calculateTrustScore.
  unfold bind at 1. rewrite Hagent.
  unfold bind at 1. unfold reads at 1. rewrite Hatt.
  cbv beta iota delta [getAgentActivity getRelationships bind gets modify ret
                         TrustEngine.storeTrustScore calc_agentId].
  rewrite Hstored, Hact, Hin, Hout, Hrep, Hage.
  eexists. eexists. split; [reflexivity |].
  cbv beta iota delta [calc_baseScore calc_finalScore TrustEngine.calculateAttestationScore
                         TrustEngine.calculateActivityScore
                         TrustEngine.calculateRelationshipScore
                         TrustEngine.calculateRecencyWeight app fst snd].
  change (negb (Qle_bool 0 0.5)) with false. cbv iota.
  assert (Hbase :
    (0.5 + 0.5 * 0.3 + 0.5 * 0.2 + 0.5 * 0.2
     + TrustEngine.calculateAgeScore now now * 0.1
     + TrustEngine.calculateReputationScore 0 * 0.2 == 0.95)%Q).
  { rewrite calculateAgeScore_at_creation. reflexivity. }
  split; [exact Hbase |].
  assert (Hfinal :
    (TrustEngine.clamp
       (0.5 + 0.5 * 0.3 + 0.5 * 0.2 + 0.5 * 0.2
        + TrustEngine.calculateAgeScore now now * 0.1
        + TrustEngine.calculateReputationScore 0 * 0.2
        - decayRate * (0.5 - 0)
        - TrustEngine.calculateAnomalyPenalty agentId st) 0 1
     == TrustEngine.clamp
          (0.95 - decayRate * 0.5 - TrustEngine.calculateAnomalyPenalty agentId st)
          0 1)%Q).
  { apply clamp_compat. rewrite Hbase. ring. }
  split; [exact Hfinal |].
  intros Hnone Hdecay. rewrite Hfinal.
  rewrite (calculateAnomalyPenalty_none _ _ Hnone).
  split.
  - destruct (clamp_bounds (0.95 - decayRate * 0.5 - 0)) as [Hlow _]; lra.
  - apply clamp_upper; lra.
Qed.

(** The newcomer of the scenario. *)
Lemma C7_newcomer_witness :
  (Js.startsWith "n1" "did:" = false
   /\ fst (getAgent "n1" Scenario.newcomer_only) = inr Scenario.newcomer
   /\ TrustEngine.getAnomalyHistory "n1" (Some false) Scenario.newcomer_only = [])
  /\ exists calculation st',
      TrustEngine.calculateTrustScore 0.05 0.1 Scenario.DECIMAL_3_2 "ts-1" 5000000
        5000000 "n1" Scenario.newcomer_only = (inr calculation, st')
      /\ (calc_baseScore calculation == 0.95)%Q
      /\ (calc_finalScore calculation
          == TrustEngine.clamp
               (0.95 - 0.05 * 0.5
                - TrustEngine.calculateAnomalyPenalty "n1" Scenario.newcomer_only)
               0 1)%Q
      /\ (TrustEngine.getAnomalyHistory "n1" (Some false) Scenario.newcomer_only = [] ->
          (0 <= 0.05)%Q ->
          (0.95 - 0.05 * 0.5 <= calc_finalScore calculation)%Q
          /\ (calc_finalScore calculation <= 0.95)%Q).
Proof.
  split; [repeat split; reflexivity |].
  apply (C7_score_of_an_agent_with_nothing_on_record 0.05 0.1 Scenario.DECIMAL_3_2
           "ts-1" 5000000 5000000 "n1" Scenario.newcomer_only Scenario.newcomer);
    reflexivity.
Defined.

(** With the default decay rate 0.05 the newcomer scores 0.925, which is
    not between [0.5 - 0.05 * 0.5] and [0.5]. *)
Lemma C7_newcomer_scores_above_one_half :
  exists score,
    Scenario.finalScore_of Scenario.newcomer_score = Some score
    /\ (score == 0.925)%Q
    /\ ~ (0.5 - 0.05 * 0.5 <= score /\ score <= 0.5)%Q.
Proof.
  eexists. split; [vm_compute; reflexivity |]. split.
  - reflexivity.
  - intros [_ H]. revert H. apply Qlt_not_le. reflexivity.
Qed.

(** ** Attestation chains *)




(** ** Capability escalation *)

Lemma storeAnomalies_returns
    (generateId : nat -> string) (anomalies : list AnomalyDetectionResult) :
  forall (k : nat) (st : State),
    exists st', TrustEngine.storeAnomalies generateId k anomalies st = (inr tt, st').
Proof.
  induction anomalies as [| anomaly rest IH]; intros k st; simpl.
  - eexists. reflexivity.
  - unfold TrustEngine.storeAnomaly, bind, modify, logActivity. simpl. apply IH.
Qed.

Lemma push_if_some {A} (x : A) (l : list A) :
  TrustEngine.push_if (Some x) l = (l ++ [x])%list.
Proof. reflexivity. Qed.

Lemma In_push_if {A} (x : option A) (l : list A) (a : A) :
  In a l -> In a (TrustEngine.push_if x l).
Proof.
  destruct x; simpl; [| trivial]. intros H. apply in_or_app. now left.
Qed.

(** C9 (as amended). When the activities fetched for an agent hold at
    least two capability-granted activities, at least one of which mentions
    "admin" in its serialized metadata, [detectAnomalies] succeeds and
    reports a capability-escalation anomaly of severity high and confidence
    0.8; and when none of the other four detectors fires, that anomaly is
    the only one reported. *)
Theorem C9_capability_escalation_is_reported :
  forall (Math_sqrt : Q -> Q) (show : Q -> string) (generateId : nat -> string)
         (now : Date) (agentId : string) (st : State) (agent : Agent)
         (activities : list AgentActivity)
         (relationships : list AgentRelationship * list AgentRelationship),
    fst (getAgent agentId st) = inr agent ->
    fst (getAgentActivity agentId 200 st) = inr activities ->
    fst (getRelationships agentId st) = inr relationships ->
    let capabilityGrants :=
      List.filter (TrustEngine.is_type ActivityType.CAPABILITY_GRANTED) activities in
    let adminGrants := List.filter (TrustEngine.mentions_admin show) capabilityGrants in
    (2 <= length capabilityGrants)%nat ->
    (exists a, In a capabilityGrants /\ TrustEngine.mentions_admin show a = true) ->
    exists anomalies st' escalation,
      TrustEngine.detectAnomalies Math_sqrt show generateId now agentId st
      = (inr anomalies, st')
      /\ In escalation anomalies
      /\ anom_agentId escalation = agent_id agent
      /\ anom_anomalyType escalation = AnomalyType.CAPABILITY_ESCALATION
      /\ anom_severity escalation = AnomalySeverity.HIGH
      /\ anom_confidence escalation = 0.8%Q
      /\ (TrustEngine.detectAccessPatternAnomalies now agent activities = None ->
          TrustEngine.detectTrustManipulation now agent activities = None ->
          TrustEngine.detectCollusionPatterns now agent relationships = None ->
          TrustEngine.detectBehaviorDeviation Math_sqrt now agent activities = None ->
          anomalies = [escalation]).
Proof.
  intros Math_sqrt show generateId now agentId st agent activities relationships
    Hagent Hact Hrel capabilityGrants adminGrants Htwo (a & Hin & Hadmin).
  apply getAgent_found in Hagent.
  assert (Hact' : getAgentActivity agentId 200 st = (inr activities, st)).
  { unfold getAgentActivity, gets in *. simpl in Hact. now rewrite Hact. }
  assert (Hrel' : getRelationships agentId st = (inr relationships, st)).
  { unfold getRelationships, bind, gets, ret in *. simpl in Hrel. now rewrite Hrel. }
  assert (Hdetect :
    TrustEngine.detectCapabilityEscalation show now agent activities
    = Some {| anom_agentId := agent_id agent;
              anom_anomalyType := AnomalyType.CAPABILITY_ESCALATION;
              anom_severity := AnomalySeverity.HIGH;
              anom_confidence := 0.8;
              anom_indicators :=
                [{| ind_type := "admin_capability_grants";
                    ind_value := TrustEngine.Qnat (length adminGrants);
                    ind_threshold := 0 |}];
              anom_detectedAt := now;
              anom_recommendedAction :=
                "Review admin capability grants immediately" |}).
  { unfold TrustEngine.detectCapabilityEscalation.
    fold capabilityGrants. fold adminGrants.
    assert (Hlt : (length capabilityGrants <? 2)%nat = false)
      by now apply Nat.ltb_ge.
    rewrite Hlt.
    assert (Hpos : (0 <? length adminGrants)%nat = true).
    { apply Nat.ltb_lt.
      assert (Hmem : In a adminGrants) by (apply filter_In; now split).
      destruct adminGrants; [contradiction | simpl; lia]. }
    now rewrite Hpos. }
  destruct (storeAnomalies_returns generateId
              (TrustEngine.collectAnomalies Math_sqrt show now agent activities
                 relationships) 0 st) as [st' Hstore].
  eexists. exists st'. eexists. split.
  { unfold TrustEngine.detectAnomalies. unfold bind at 1. rewrite Hagent.
    unfold bind at 1. rewrite Hact'. unfold bind at 1. rewrite Hrel'.
    unfold bind. rewrite Hstore. reflexivity. }
  unfold TrustEngine.collectAnomalies. rewrite Hdetect.
  split.
  { apply In_push_if, In_push_if. rewrite push_if_some. apply in_or_app.
    right. now left. }
  repeat split.
  intros Haccess Htrust Hcollusion Hbehavior.
  rewrite Haccess, Htrust, Hcollusion, Hbehavior. reflexivity.
Qed.

(** Agent A of the scenario after an [admin] grant and a [read] grant. *)
Lemma C9_two_grants_witness :
  (fst (getAgent "a1" Scenario.admin_and_read_grants) = inr Scenario.agentA
   /\ map act_id (List.filter (TrustEngine.is_type ActivityType.CAPABILITY_GRANTED)
                    (agent_activities Scenario.admin_and_read_grants))
      = ["act-1"; "act-2"])
  /\ exists anomalies st' escalation,
      Scenario.detect Scenario.admin_and_read_grants = (inr anomalies, st')
      /\ In escalation anomalies
      /\ anom_agentId escalation = "a1"
      /\ anom_anomalyType escalation = AnomalyType.CAPABILITY_ESCALATION
      /\ anom_severity escalation = AnomalySeverity.HIGH
      /\ anom_confidence escalation = 0.8%Q
      /\ anomalies = [escalation].
Proof.
  split; [split; vm_compute; reflexivity |].
  destruct (C9_capability_escalation_is_reported Scenario.integer_sqrt
              Scenario.show_number Scenario.generateId 2000000 "a1"
              Scenario.admin_and_read_grants Scenario.agentA
              (take 200 (order_by_desc act_timestamp
                           (filter (fun a => act_agentId a = "a1")
                              (agent_activities Scenario.admin_and_read_grants))))
              ([], []))
    as (anomalies & st' & escalation & Hrun & Hin & Hid & Htype & Hsev & Hconf & Honly).
  - vm_compute; reflexivity.
  - reflexivity.
  - vm_compute; reflexivity.
  - vm_compute. lia.
  - eexists. split; [vm_compute; right; left; reflexivity | vm_compute; reflexivity].
  - exists anomalies, st', escalation. repeat split; try assumption.
    apply Honly; vm_compute; reflexivity.
Defined.

(** A single grant of [admin]: its metadata mentions "admin", yet
    [detectAnomalies] reports nothing, because the escalation detector
    returns early when there are fewer than two grants. *)
Lemma C9_single_admin_grant_is_not_reported :
  (exists a,
      agent_activities (snd Scenario.admin_grant) = [a]
      /\ act_agentId a = "a1"
      /\ act_activityType a = ActivityType.CAPABILITY_GRANTED
      /\ TrustEngine.mentions_admin Scenario.show_number a = true)
  /\ fst (Scenario.detect (snd Scenario.admin_grant)) = inr [].
Proof.
  split.
  - eexists. split; [vm_compute; reflexivity |]. repeat split; vm_compute; reflexivity.
  - vm_compute. reflexivity.
Qed.

(** * Further properties of the services *)

(** ** Capability verification, issuance and revocation *)

(** What a positive answer of [verifyCapability] implies. *)
Lemma verifyCapability_valid_inv
    (secret : string) (show : Q -> string)
    (request : CapabilityIssuer.CapabilityVerificationRequest)
    (now : Date) (st : State) :
  valid (CapabilityIssuer.verifyCapability secret show request now st) = true ->
  exists payload c,
    CapabilityIssuer.vreq_token request = Jwt.Signed payload secret
    /\ Jwt.nbf payload <= now / 1000 < Jwt.exp payload
    /\ capabilities st !! Jwt.jti payload = Some c
    /\ cap_status c <> CapabilityStatus.REVOKED
    /\ cap_status c <> CapabilityStatus.EXPIRED
    /\ Jwt.sub payload = cap_subject c
    /\ In (CapabilityIssuer.vreq_action request) (cap_actions c)
    /\ CapabilityIssuer.hasResourceAccess (cap_resources c)
         (CapabilityIssuer.vreq_resource request) = true
    /\ match cap_conditions c, CapabilityIssuer.vreq_context request with
       | Some conditions, Some context =>
           CapabilityIssuer.evaluateConditions show conditions context
       | _, _ => []
       end = [].
Proof.
  unfold CapabilityIssuer.verifyCapability, Jwt.verify.
  destruct (CapabilityIssuer.vreq_token request) as [payload key | raw] eqn:Htok;
    [| discriminate].
  destruct (String.eqb key secret) eqn:Hkey; [| discriminate].
  apply String.eqb_eq in Hkey. subst key. simpl negb. cbv iota.
  destruct (now / 1000 <? Jwt.nbf payload)%Z eqn:Hnbf; [discriminate |].
  destruct (Jwt.exp payload <=? now / 1000)%Z eqn:Hexp; [discriminate |].
  destruct (capabilities st !! Jwt.jti payload) as [c |] eqn:Hrow; [| discriminate].
  destruct (decide (cap_status c = CapabilityStatus.REVOKED)); [discriminate |].
  destruct (decide (cap_status c = CapabilityStatus.EXPIRED)); [discriminate |].
  destruct (String.eqb (Jwt.sub payload) (cap_subject c)) eqn:Hsub; [| discriminate].
  simpl negb. cbv iota.
  destruct (CapabilityIssuer.includes_string (cap_actions c)
              (CapabilityIssuer.vreq_action request)) eqn:Hact; [| discriminate].
  simpl negb. cbv iota.
  destruct (CapabilityIssuer.hasResourceAccess (cap_resources c)
              (CapabilityIssuer.vreq_resource request)) eqn:Hres; [| discriminate].
  simpl negb. cbv iota zeta.
  destruct (match cap_conditions c with Some _ => _ | None => _ end) eqn:Herrs;
    [| discriminate].
  intros _. exists payload, c.
  apply Z.ltb_ge in Hnbf. apply Z.leb_gt in Hexp. apply String.eqb_eq in Hsub.
  apply includes_string_iff in Hact. repeat split; assumption.
Qed.

(** X1. [verifyCapability] answers [valid = true] exactly when the token is
    signed under the secret and inside its validity window, its record is
    stored with a status other than [revoked] and [expired] (a [pending]
    record passes), the token's subject is the record's, the action is
    among the granted actions, the resource is accessible, and the
    conditions evaluated against a supplied context yield no error. *)
Theorem verifyCapability_valid_iff :
  forall (secret : string) (show : Q -> string)
         (request : CapabilityIssuer.CapabilityVerificationRequest)
         (now : Date) (st : State),
    valid (CapabilityIssuer.verifyCapability secret show request now st) = true <->
    exists payload c,
      CapabilityIssuer.vreq_token request = Jwt.Signed payload secret
      /\ Jwt.nbf payload <= now / 1000 < Jwt.exp payload
      /\ capabilities st !! Jwt.jti payload = Some c
      /\ cap_status c <> CapabilityStatus.REVOKED
      /\ cap_status c <> CapabilityStatus.EXPIRED
      /\ Jwt.sub payload = cap_subject c
      /\ In (CapabilityIssuer.vreq_action request) (cap_actions c)
      /\ CapabilityIssuer.hasResourceAccess (cap_resources c)
           (CapabilityIssuer.vreq_resource request) = true
      /\ match cap_conditions c, CapabilityIssuer.vreq_context request with
         | Some conditions, Some context =>
             CapabilityIssuer.evaluateConditions show conditions context
         | _, _ => []
         end = [].
Proof.
  intros secret show request now st. split.
  - apply verifyCapability_valid_inv.
  - intros (payload & c & Htok & Hclock & Hrow & Hnrev & Hnexp & Hsub & Hact & Hres
            & Herrs).
    rewrite (verifyCapability_after_resource_check secret show request now st payload c)
      by assumption.
    cbv zeta. now rewrite Herrs.
Qed.

(** What a successful [issueCapability] returned and wrote. *)
Lemma issueCapability_success
    (secret uuid activityId : string) (now : Date) (issuerDid : string)
    (request : CapabilityRequest) (st st' : State)
    (issued : CapabilityIssuer.CapabilityToken) :
  CapabilityIssuer.issueCapability secret uuid activityId now issuerDid request st
  = (inr issued, st') ->
  exists (issuer subject : Agent) (expiration : Date),
    fst (getAgentByDID issuerDid st) = inr issuer
    /\ agent_status issuer = AgentStatus.ACTIVE
    /\ fst (getAgentByDID (req_subject request) st) = inr subject
    /\ agent_status subject = AgentStatus.ACTIVE
    /\ CapabilityIssuer.token issued
       = Jwt.sign {| Jwt.jti := "urn:cap:" ++ uuid;
                     Jwt.sub := req_subject request;
                     Jwt.iss := issuerDid;
                     Jwt.iat := now / 1000;
                     Jwt.exp := expiration / 1000;
                     Jwt.nbf := now / 1000;
                     Jwt.payload_actions := req_actions request;
                     Jwt.payload_resources := req_resources request;
                     Jwt.payload_conditions := req_conditions request |} secret
    /\ CapabilityIssuer.token_capability issued
       = {| cap_id := "urn:cap:" ++ uuid;
            cap_subject := req_subject request;
            cap_issuer := issuerDid;
            cap_actions := req_actions request;
            cap_resources := req_resources request;
            cap_conditions := req_conditions request;
            cap_notBefore := Some now;
            cap_expiration := Some expiration;
            cap_issuedAt := now;
            cap_revokedAt := None;
            cap_status := CapabilityStatus.ACTIVE |}
    /\ capabilities st'
       = <["urn:cap:" ++ uuid :=
             {| cap_id := "urn:cap:" ++ uuid;
                cap_subject := req_subject request;
                cap_issuer := issuerDid;
                cap_actions := req_actions request;
                cap_resources := req_resources request;
                cap_conditions := Some (default [] (req_conditions request));
                cap_notBefore := Some now;
                cap_expiration := Some expiration;
                cap_issuedAt := now;
                cap_revokedAt := None;
                cap_status := CapabilityStatus.ACTIVE |}]> (capabilities st)
    /\ activeCapabilities st'
       = <["urn:cap:" ++ uuid := CapabilityIssuer.token_capability issued]>
           (activeCapabilities st)
    /\ (exists entry,
          agent_activities st' = (agent_activities st ++ [entry])%list
          /\ act_activityType entry = ActivityType.CAPABILITY_GRANTED
          /\ act_agentId entry = agent_id subject
          /\ act_timestamp entry = now)
    /\ agents st' = agents st
    /\ attestations st' = attestations st
    /\ anomalies st' = anomalies st.
Proof.
  unfold CapabilityIssuer.issueCapability. unfold bind at 1.
  destruct (getAgentByDID issuerDid st) as [[e | issuer] st1] eqn:Hissuer;
    [discriminate |].
  assert (st1 = st) as -> by (rewrite <- (getAgentByDID_reads issuerDid st);
                              now rewrite Hissuer).
  destruct (decide (agent_status issuer <> AgentStatus.ACTIVE)) as [| Hactive];
    [discriminate |].
  unfold bind at 1.
  destruct (getAgentByDID (req_subject request) st) as [[e | subject] st1] eqn:Hsubject;
    [discriminate |].
  assert (st1 = st) as -> by (rewrite <- (getAgentByDID_reads (req_subject request) st);
                              now rewrite Hsubject).
  destruct (decide (agent_status subject <> AgentStatus.ACTIVE)) as [| Hactive'];
    [discriminate |].
  unfold bind, modify, logActivity, ret. simpl. intros H. injection H as <- <-.
  exists issuer, subject. eexists. simpl.
  split; [reflexivity |]. split; [now destruct (decide (agent_status issuer = AgentStatus.ACTIVE)); [| contradict Hactive] |].
  split; [reflexivity |]. split; [now destruct (decide (agent_status subject = AgentStatus.ACTIVE)); [| contradict Hactive'] |].
  repeat split. eexists. repeat split.
Qed.

Lemma hasResourceAccess_granted (resources : list string) (resource : string) :
  In resource resources -> CapabilityIssuer.hasResourceAccess resources resource = true.
Proof.
  intros Hin. apply hasResourceAccess_iff. exists resource. split; [assumption |].
  now left.
Qed.

(** X2. A token returned by [issueCapability] verifies: from the second of
    issuance until the second of its expiration, a request for any granted
    action on any granted resource string, without a context, is answered
    [valid = true] with the subject and the actions of the grant. *)
Theorem issued_token_verifies :
  forall (secret : string) (show : Q -> string) (uuid activityId : string)
         (now : Date) (issuerDid : string) (request : CapabilityRequest)
         (st st' : State) (issued : CapabilityIssuer.CapabilityToken)
         (expiration later : Date) (action resource : string),
    CapabilityIssuer.issueCapability secret uuid activityId now issuerDid request st
    = (inr issued, st') ->
    cap_expiration (CapabilityIssuer.token_capability issued) = Some expiration ->
    In action (req_actions request) ->
    In resource (req_resources request) ->
    now <= later ->
    later / 1000 < expiration / 1000 ->
    let result :=
      CapabilityIssuer.verifyCapability secret show
        {| CapabilityIssuer.vreq_token := CapabilityIssuer.token issued;
           CapabilityIssuer.vreq_action := action;
           CapabilityIssuer.vreq_resource := resource;
           CapabilityIssuer.vreq_context := None |}
        later st' in
    valid result = true
    /\ subject result = Some (req_subject request)
    /\ allowedActions result = Some (req_actions request)
    /\ errors result = None.
Proof.
  intros secret show uuid activityId now issuerDid request st st' issued expiration
    later action resource Hissue Hexp Haction Hresource Hlater Hbefore result.
  destruct (issueCapability_success _ _ _ _ _ _ _ _ _ Hissue)
    as (issuer & subject & e & _ & _ & _ & _ & Htoken & Hcap & Hrows & _).
  rewrite Hcap in Hexp. simpl in Hexp. injection Hexp as ->.
  subst result.
  match type of Htoken with _ = Jwt.sign ?P _ => set (payload := P) in * end.
  match type of Hrows with _ = <[_ := ?R]> _ => set (row := R) in * end.
  rewrite (verifyCapability_after_resource_check secret show _ later st' payload row).
  - simpl. repeat split; reflexivity.
  - simpl. exact Htoken.
  - simpl. split; [apply Z.div_le_mono; lia | assumption].
  - simpl. rewrite Hrows. apply lookup_insert_eq.
  - discriminate.
  - discriminate.
  - reflexivity.
  - assumption.
  - simpl. now apply hasResourceAccess_granted.
Qed.

(** The one-hour grant of the scenario, verified half an hour later. *)
Lemma issued_token_verifies_witness :
  (exists issued,
      Scenario.agents_grant = (inr issued, snd Scenario.agents_grant)
      /\ cap_expiration (CapabilityIssuer.token_capability issued) = Some 4600000
      /\ CapabilityIssuer.token issued = Scenario.token_of Scenario.agents_grant)
  /\ let result :=
       Scenario.verify Scenario.agents_grant "read" "agents/*" None 2800000
         (snd Scenario.agents_grant) in
     valid result = true
     /\ subject result = Some "did:ethr:a"
     /\ allowedActions result = Some ["read"]
     /\ errors result = None.
Proof.
  split.
  - eexists. split; [vm_compute; reflexivity |]. split; reflexivity.
  - eapply (issued_token_verifies Scenario.JWT_SECRET Scenario.show_number "u-1" "act-1"
              1000000 "did:ethr:b"
              (Scenario.request_for ["read"] ["agents/*"] None (Some 1%Q))
              Scenario.two_agents (snd Scenario.agents_grant) _ 4600000 2800000
              "read" "agents/*").
    + vm_compute; reflexivity.
    + reflexivity.
    + simpl; auto.
    + simpl; auto.
    + lia.
    + apply Z.ltb_lt; reflexivity.
Defined.

(** The outcomes of [revokeCapability] that precede its writes. *)
Lemma revokeCapability_not_found
    (activityId : string) (now db_now : Date) (capabilityId revokedBy : string)
    (reason : option string) (st : State) :
  capabilities st !! capabilityId = None ->
  CapabilityIssuer.revokeCapability activityId now db_now capabilityId revokedBy reason st
  = (inl (NotFoundError "Capability" capabilityId), st).
Proof.
  intros Hrow. unfold CapabilityIssuer.revokeCapability, bind, gets.
  now rewrite Hrow.
Qed.

Lemma checkAdminCapability_reads (db_now : Date) (did : string) (st : State) :
  exists b, CapabilityIssuer.checkAdminCapability db_now did st = (inr b, st).
Proof. unfold CapabilityIssuer.checkAdminCapability, gets. eauto. Qed.

(** The store after the two writes of [revokeCapability]. *)
Lemma revokeCapability_authorized
    (activityId : string) (now db_now : Date) (capabilityId revokedBy : string)
    (reason : option string) (st : State) (c : Capability) :
  capabilities st !! capabilityId = Some c ->
  revokedBy = cap_issuer c
    \/ fst (CapabilityIssuer.checkAdminCapability db_now revokedBy st) = inr true ->
  let written :=
    set_activeCapabilities (delete capabilityId)
      (set_capabilities (alter (CapabilityIssuer.mark_revoked db_now) capabilityId) st) in
  (forall e, fst (getAgentByDID (cap_subject c) st) = inl e ->
     CapabilityIssuer.revokeCapability activityId now db_now capabilityId revokedBy
       reason st = (inl e, written))
  /\ (forall subject, fst (getAgentByDID (cap_subject c) st) = inr subject ->
        exists entry,
          CapabilityIssuer.revokeCapability activityId now db_now capabilityId revokedBy
            reason st
          = (inr tt, set_agent_activities (fun rows => (rows ++ [entry])%list) written)).
Proof.
  intros Hrow Hauth written.
  assert (Hgate :
    (if negb (String.eqb revokedBy (cap_issuer c))
     then bind (CapabilityIssuer.checkAdminCapability db_now revokedBy)
            (fun adminCheck =>
               if negb adminCheck
               then throw (AuthorizationError "Not authorized to revoke this capability")
               else ret tt)
     else ret tt) st = (inr tt, st)).
  { destruct (String.eqb revokedBy (cap_issuer c)) eqn:Heq; [reflexivity |].
    destruct Hauth as [-> | Hadmin]; [now rewrite String.eqb_refl in Heq |].
    destruct (checkAdminCapability_reads db_now revokedBy st) as [b E].
    rewrite E in Hadmin. simpl in Hadmin. injection Hadmin as ->.
    change (negb false) with true. cbv beta iota. unfold bind. now rewrite E. }
  assert (Hagents : forall did,
            fst (getAgentByDID did written) = fst (getAgentByDID did st)).
  { intros did. unfold getAgentByDID, getAgent, bind, gets. simpl.
    destruct (filter _ (agents st)); reflexivity. }
  split.
  - intros e Hmissing.
    unfold CapabilityIssuer.revokeCapability.
    unfold bind at 1. unfold gets at 1. rewrite Hrow.
    unfold bind at 1. rewrite Hgate. unfold bind, modify. simpl. fold written.
    destruct (getAgentByDID (cap_subject c) written) as [r st1] eqn:E.
    assert (st1 = written) as ->
        by (rewrite <- (getAgentByDID_reads (cap_subject c) written); now rewrite E).
    specialize (Hagents (cap_subject c)). rewrite E, Hmissing in Hagents.
    simpl in Hagents. now subst r.
  - intros subject Hfound.
    unfold CapabilityIssuer.revokeCapability.
    unfold bind at 1. unfold gets at 1. rewrite Hrow.
    unfold bind at 1. rewrite Hgate. unfold bind, modify. simpl. fold written.
    destruct (getAgentByDID (cap_subject c) written) as [r st1] eqn:E.
    assert (st1 = written) as ->
        by (rewrite <- (getAgentByDID_reads (cap_subject c) written); now rewrite E).
    specialize (Hagents (cap_subject c)). rewrite E, Hfound in Hagents.
    simpl in Hagents. subst r. unfold logActivity, modify. eexists. reflexivity.
Qed.

Lemma revokeCapability_unauthorized
    (activityId : string) (now db_now : Date) (capabilityId revokedBy : string)
    (reason : option string) (st : State) (c : Capability) :
  capabilities st !! capabilityId = Some c ->
  revokedBy <> cap_issuer c ->
  fst (CapabilityIssuer.checkAdminCapability db_now revokedBy st) = inr false ->
  CapabilityIssuer.revokeCapability activityId now db_now capabilityId revokedBy reason st
  = (inl (AuthorizationError "Not authorized to revoke this capability"), st).
Proof.
  intros Hrow Hne Hadmin.
  unfold CapabilityIssuer.revokeCapability.
  unfold bind at 1. unfold gets at 1. rewrite Hrow.
  apply String.eqb_neq in Hne. rewrite Hne. change (negb false) with true. cbv iota.
  destruct (checkAdminCapability_reads db_now revokedBy st) as [b E].
  rewrite E in Hadmin. simpl in Hadmin. injection Hadmin as ->.
  unfold bind. now rewrite E.
Qed.

(** X3. Once [revokeCapability] has succeeded, no token that names the
    revoked capability is ever accepted again: whatever the token, the
    action, the resource, the context and the time, [verifyCapability]
    answers [valid = false]; a token that is itself still good gets the
    revocation error.  The capability is also gone from the in-memory index
    of active capabilities. *)
Theorem revoked_capability_never_verifies :
  forall (secret : string) (show : Q -> string) (activityId : string)
         (now db_now : Date) (capabilityId revokedBy : string)
         (reason : option string) (st st' : State)
         (request : CapabilityIssuer.CapabilityVerificationRequest)
         (payload : Jwt.Payload) (key : string) (later : Date),
    CapabilityIssuer.revokeCapability activityId now db_now capabilityId revokedBy
      reason st = (inr tt, st') ->
    CapabilityIssuer.vreq_token request = Jwt.Signed payload key ->
    Jwt.jti payload = capabilityId ->
    let result := CapabilityIssuer.verifyCapability secret show request later st' in
    valid result = false
    /\ (key = secret -> Jwt.nbf payload <= later / 1000 < Jwt.exp payload ->
        result = CapabilityIssuer.invalid ["Capability has been revoked"])
    /\ activeCapabilities st' !! capabilityId = None.
Proof.
  intros secret show activityId now db_now capabilityId revokedBy reason st st'
    request payload key later Hrevoke Htok Hjti result.
  assert (Hrow : exists c', capabilities st' !! capabilityId = Some c'
                            /\ cap_status c' = CapabilityStatus.REVOKED
                            /\ activeCapabilities st' !! capabilityId = None).
  { destruct (capabilities st !! capabilityId) as [c |] eqn:Hrow.
    - destruct (String.eqb revokedBy (cap_issuer c)) eqn:Hissuer.
      + apply String.eqb_eq in Hissuer.
        destruct (revokeCapability_authorized activityId now db_now capabilityId
                    revokedBy reason st c Hrow (or_introl Hissuer)) as [Hmissing Hfound].
        destruct (fst (getAgentByDID (cap_subject c) st)) as [e | subject] eqn:Hsubject.
        * rewrite (Hmissing e eq_refl) in Hrevoke. discriminate.
        * destruct (Hfound subject eq_refl) as [entry Hrun].
          rewrite Hrun in Hrevoke. injection Hrevoke as <-. simpl.
          exists (CapabilityIssuer.mark_revoked db_now c).
          rewrite lookup_alter_eq, Hrow.
          split; [reflexivity | split; [reflexivity | apply lookup_delete_eq]].
      + apply String.eqb_neq in Hissuer.
        destruct (checkAdminCapability_reads db_now revokedBy st) as [[|] Hadmin].
        * assert (Hauth : revokedBy = cap_issuer c
                          \/ fst (CapabilityIssuer.checkAdminCapability db_now revokedBy
                                    st) = inr true) by (right; now rewrite Hadmin).
          destruct (revokeCapability_authorized activityId now db_now capabilityId
                      revokedBy reason st c Hrow Hauth) as [Hmissing Hfound].
          destruct (fst (getAgentByDID (cap_subject c) st)) as [e | subject]
            eqn:Hsubject.
          -- rewrite (Hmissing e eq_refl) in Hrevoke. discriminate.
          -- destruct (Hfound subject eq_refl) as [entry Hrun].
             rewrite Hrun in Hrevoke. injection Hrevoke as <-. simpl.
             exists (CapabilityIssuer.mark_revoked db_now c).
             rewrite lookup_alter_eq, Hrow.
             split; [reflexivity | split; [reflexivity | apply lookup_delete_eq]].
        * rewrite (revokeCapability_unauthorized activityId now db_now capabilityId
                     revokedBy reason st c Hrow Hissuer) in Hrevoke
            by now rewrite Hadmin.
          discriminate.
    - rewrite (revokeCapability_not_found _ _ _ _ _ _ _ Hrow) in Hrevoke.
      discriminate. }
  destruct Hrow as (c' & Hrow' & Hstatus & Hindex).
  assert (Hcases :
    (key = secret -> Jwt.nbf payload <= later / 1000 < Jwt.exp payload ->
     result = CapabilityIssuer.invalid ["Capability has been revoked"])
    /\ valid result = false).
  { subst result. unfold CapabilityIssuer.verifyCapability, Jwt.verify.
    rewrite Htok.
    destruct (String.eqb key secret) eqn:Hkey; simpl negb; cbv iota.
    - destruct (later / 1000 <? Jwt.nbf payload)%Z eqn:Hnbf.
      + split; [| reflexivity]. intros _ [Hle _]. apply Z.ltb_lt in Hnbf. lia.
      + destruct (Jwt.exp payload <=? later / 1000)%Z eqn:Hexp.
        * split; [| reflexivity]. intros _ [_ Hlt]. apply Z.leb_le in Hexp. lia.
        * rewrite Hjti, Hrow'.
          destruct (decide (cap_status c' = CapabilityStatus.REVOKED));
            [| contradiction].
          split; reflexivity.
    - split; [| reflexivity]. intros ->. now rewrite String.eqb_refl in Hkey. }
  destruct Hcases as [Hgood Hvalid]. repeat split; assumption.
Qed.

(** The grant of the scenario after its revocation, asked for exactly what
    was granted. *)
Lemma revoked_capability_never_verifies_witness :
  (fst (Scenario.revoke 3000000 (snd Scenario.agents_grant)) = inr tt
   /\ exists payload,
       Scenario.token_of Scenario.agents_grant = Jwt.Signed payload Scenario.JWT_SECRET
       /\ Jwt.jti payload = "urn:cap:u-1")
  /\ valid (Scenario.verify Scenario.agents_grant "read" "agents/*" None 3500000
              Scenario.revoked_once) = false
  /\ activeCapabilities Scenario.revoked_once !! "urn:cap:u-1" = None.
Proof.
  split.
  - split; [vm_compute; reflexivity |]. eexists. split; reflexivity.
  - assert (Hrun : Scenario.revoke 3000000 (snd Scenario.agents_grant)
                   = (inr tt, Scenario.revoked_once)) by (vm_compute; reflexivity).
    destruct (revoked_capability_never_verifies Scenario.JWT_SECRET
                Scenario.show_number "act-r" 3000000 3000000 "urn:cap:u-1"
                "did:ethr:b" None (snd Scenario.agents_grant) Scenario.revoked_once
                {| CapabilityIssuer.vreq_token := Scenario.token_of Scenario.agents_grant;
                   CapabilityIssuer.vreq_action := "read";
                   CapabilityIssuer.vreq_resource := "agents/*";
                   CapabilityIssuer.vreq_context := None |}
                _ Scenario.JWT_SECRET 3500000 Hrun eq_refl eq_refl)
      as (Hvalid & _ & Hindex).
    split; [exact Hvalid | exact Hindex].
Defined.

Lemma getAgentByDID_error (did : string) (st : State) (e : AppError) :
  fst (getAgentByDID did st) = inl e -> e = NotFoundError "Agent" did.
Proof.
  unfold getAgentByDID, getAgent, bind, gets, throw, ret.
  destruct (filter _ (agents st)); simpl; congruence.
Qed.



Lemma checkAdminCapability_iff (db_now : Date) (did : string) (st : State) :
  fst (CapabilityIssuer.checkAdminCapability db_now did st) = inr true <->
  exists id c,
    capabilities st !! id = Some c
    /\ cap_subject c = did
    /\ In "admin" (cap_actions c)
    /\ cap_status c = CapabilityStatus.ACTIVE
    /\ (cap_expiration c = None \/ exists e, cap_expiration c = Some e /\ db_now < e).
Proof.
  unfold CapabilityIssuer.checkAdminCapability, gets. simpl. split.
  - intros H. injection H as H. apply existsb_exists in H.
    destruct H as ([id c] & Hin & Hc). simpl in Hc.
    apply list_elem_of_In, elem_of_map_to_list in Hin.
    apply andb_true_iff in Hc. destruct Hc as [Hc Hexp].
    apply andb_true_iff in Hc. destruct Hc as [Hc Hstatus].
    apply andb_true_iff in Hc. destruct Hc as [Hsub Hadmin].
    exists id, c. split; [assumption |].
    split; [now apply String.eqb_eq |].
    split; [now apply includes_string_iff |].
    split; [now apply bool_decide_eq_true in Hstatus |].
    destruct (cap_expiration c) as [e |]; [| now left].
    right. exists e. split; [reflexivity | now apply Z.ltb_lt].
  - intros (id & c & Hrow & Hsub & Hadmin & Hstatus & Hexp). f_equal.
    apply existsb_exists. exists (id, c). split.
    + now apply list_elem_of_In, elem_of_map_to_list.
    + simpl. rewrite Hsub, String.eqb_refl.
      apply includes_string_iff in Hadmin. rewrite Hadmin.
      rewrite (bool_decide_eq_true_2 _ Hstatus). simpl.
      destruct Hexp as [-> | (e & -> & Hlt)]; [reflexivity | now apply Z.ltb_lt].
Qed.

(** X5. Only the issuer, or the subject of some active capability that
    grants [admin] and has not expired, may revoke: any other caller gets
    an [AuthorizationError] and the store is left as it was.  The subject
    of the revoked capability itself has no such right. *)
Theorem unauthorized_revocation_is_refused :
  forall (activityId : string) (now db_now : Date)
         (capabilityId revokedBy : string) (reason : option string)
         (st : State) (c : Capability),
    capabilities st !! capabilityId = Some c ->
    revokedBy <> cap_issuer c ->
    (forall id admin,
        capabilities st !! id = Some admin ->
        cap_subject admin = revokedBy ->
        In "admin" (cap_actions admin) ->
        cap_status admin = CapabilityStatus.ACTIVE ->
        exists e, cap_expiration admin = Some e /\ e <= db_now) ->
    CapabilityIssuer.revokeCapability activityId now db_now capabilityId revokedBy
      reason st
    = (inl (AuthorizationError "Not authorized to revoke this capability"), st).
Proof.
  intros activityId now db_now capabilityId revokedBy reason st c Hrow Hne Hnone.
  apply (revokeCapability_unauthorized _ _ _ _ _ _ _ c Hrow Hne).
  destruct (checkAdminCapability_reads db_now revokedBy st) as [[|] E];
    rewrite E; [| reflexivity].
  exfalso.
  assert (Htrue : fst (CapabilityIssuer.checkAdminCapability db_now revokedBy st)
                  = inr true) by now rewrite E.
  apply checkAdminCapability_iff in Htrue.
  destruct Htrue as (id & admin & Hadminrow & Hsub & Hadmin & Hstatus & Hexp).
  destruct (Hnone id admin Hadminrow Hsub Hadmin Hstatus) as (e & He & Hle).
  destruct Hexp as [Hno | (e' & He' & Hlt)]; [congruence |].
  rewrite He in He'. injection He' as <-. lia.
Qed.

(** Agent A, the subject of the grant of the scenario, tries to revoke it. *)
Lemma unauthorized_revocation_witness :
  (exists c, capabilities (snd Scenario.agents_grant) !! "urn:cap:u-1" = Some c
             /\ cap_subject c = "did:ethr:a" /\ "did:ethr:a" <> cap_issuer c)
  /\ CapabilityIssuer.revokeCapability "act-r" 3000000 3000000 "urn:cap:u-1"
       "did:ethr:a" None (snd Scenario.agents_grant)
     = (inl (AuthorizationError "Not authorized to revoke this capability"),
        snd Scenario.agents_grant).
Proof.
  split.
  - eexists. split; [vm_compute; reflexivity |]. split; [reflexivity | discriminate].
  - eapply unauthorized_revocation_is_refused.
    + vm_compute; reflexivity.
    + discriminate.
    + intros id admin Hrow Hsub Hadmin Hstatus. exfalso.
      assert (Hcaps : capabilities (snd Scenario.agents_grant)
                      = {["urn:cap:u-1" :=
                            {| cap_id := "urn:cap:u-1"; cap_subject := "did:ethr:a";
                               cap_issuer := "did:ethr:b"; cap_actions := ["read"];
                               cap_resources := ["agents/*"];
                               cap_conditions := Some [];
                               cap_notBefore := Some 1000000;
                               cap_expiration := Some 4600000;
                               cap_issuedAt := 1000000; cap_revokedAt := None;
                               cap_status := CapabilityStatus.ACTIVE |}]})
        by (vm_compute; reflexivity).
      rewrite Hcaps in Hrow. apply lookup_singleton_Some in Hrow.
      destruct Hrow as [_ <-]. simpl in Hadmin. destruct Hadmin as [H | []].
      discriminate.
Defined.

(** X6. [revokeCapability] is not atomic: when the subject of the
    capability is no longer among the agents, the call throws the lookup
    error of the subject, but the row has already been marked revoked and
    dropped from the in-memory index; no activity is logged. *)
Theorem revocation_survives_a_missing_subject :
  forall (activityId : string) (now db_now : Date)
         (capabilityId revokedBy : string) (reason : option string)
         (st : State) (c : Capability) (e : AppError),
    capabilities st !! capabilityId = Some c ->
    revokedBy = cap_issuer c
      \/ fst (CapabilityIssuer.checkAdminCapability db_now revokedBy st) = inr true ->
    fst (getAgentByDID (cap_subject c) st) = inl e ->
    exists st',
      CapabilityIssuer.revokeCapability activityId now db_now capabilityId revokedBy
        reason st = (inl (NotFoundError "Agent" (cap_subject c)), st')
      /\ capabilities st' !! capabilityId = Some (CapabilityIssuer.mark_revoked db_now c)
      /\ activeCapabilities st' !! capabilityId = None
      /\ agent_activities st' = agent_activities st.
Proof.
  intros activityId now db_now capabilityId revokedBy reason st c e Hrow Hauth Hmissing.
  destruct (revokeCapability_authorized activityId now db_now capabilityId revokedBy
              reason st c Hrow Hauth) as [Hthrows _].
  rewrite (Hthrows e Hmissing). rewrite (getAgentByDID_error _ _ _ Hmissing).
  eexists. split; [reflexivity |]. simpl.
  split; [now rewrite lookup_alter_eq, Hrow |].
  split; [apply lookup_delete_eq | reflexivity].
Qed.

(** B revokes the grant of the scenario after agent A was deleted. *)
Lemma revocation_survives_a_missing_subject_witness :
  (exists c, capabilities Scenario.subject_gone !! "urn:cap:u-1" = Some c
             /\ cap_issuer c = "did:ethr:b" /\ cap_subject c = "did:ethr:a"
             /\ cap_status c = CapabilityStatus.ACTIVE)
  /\ exists st',
      CapabilityIssuer.revokeCapability "act-r" 3000000 3000000 "urn:cap:u-1"
        "did:ethr:b" None Scenario.subject_gone
      = (inl (NotFoundError "Agent" "did:ethr:a"), st')
      /\ cap_status <$> capabilities st' !! "urn:cap:u-1"
         = Some CapabilityStatus.REVOKED
      /\ activeCapabilities st' !! "urn:cap:u-1" = None
      /\ agent_activities st' = agent_activities Scenario.subject_gone.
Proof.
  split.
  - eexists. split; [vm_compute; reflexivity |]. repeat split.
  - destruct (revocation_survives_a_missing_subject "act-r" 3000000 3000000
                "urn:cap:u-1" "did:ethr:b" None Scenario.subject_gone
                {| cap_id := "urn:cap:u-1"; cap_subject := "did:ethr:a";
                   cap_issuer := "did:ethr:b"; cap_actions := ["read"];
                   cap_resources := ["agents/*"]; cap_conditions := Some [];
                   cap_notBefore := Some 1000000; cap_expiration := Some 4600000;
                   cap_issuedAt := 1000000; cap_revokedAt := None;
                   cap_status := CapabilityStatus.ACTIVE |}
                (NotFoundError "Agent" "did:ethr:a"))
      as (st' & Hrun & Hrow & Hindex & Hlog).
    + vm_compute; reflexivity.
    + left; reflexivity.
    + vm_compute; reflexivity.
    + exists st'. split; [exact Hrun |]. split; [now rewrite Hrow |].
      split; assumption.
Defined.

(** ** Delegation *)



(** X8. [delegateCapability] refuses, without writing, a capability that
    is not stored, a delegator who is not the subject of the capability
    (its issuer included), and a capability whose actions do not include
    [delegate]. *)
Theorem delegation_refusals :
  forall (delegationId : string) (now : Date)
         (capabilityId delegator delegatee : string)
         (restrictions : option Restrictions) (expiresInHours : option Q)
         (st : State),
    let run :=
      CapabilityIssuer.delegateCapability delegationId now capabilityId delegator
        delegatee restrictions expiresInHours st in
    (capabilities st !! capabilityId = None ->
     run = (inl (NotFoundError "Capability" capabilityId), st))
    /\ forall c,
        capabilities st !! capabilityId = Some c ->
        (cap_subject c <> delegator ->
         run = (inl (AuthorizationError "Only the capability subject can delegate"), st))
        /\ (cap_subject c = delegator -> ~ In "delegate" (cap_actions c) ->
            run = (inl (AuthorizationError "Capability does not allow delegation"), st)).
Proof.
  intros delegationId now capabilityId delegator delegatee restrictions expiresInHours
    st run. subst run. unfold CapabilityIssuer.delegateCapability, bind, gets.
  split.
  - intros ->. reflexivity.
  - intros c ->. split.
    + intros Hne. apply String.eqb_neq in Hne. now rewrite Hne.
    + intros Heq Hno. rewrite Heq, String.eqb_refl. simpl negb. cbv iota.
      apply includes_string_false in Hno. now rewrite Hno.
Qed.

(** B, the issuer of the grant of the scenario, tries to delegate it. *)
Lemma delegation_refusals_witness :
  (exists c, capabilities (snd Scenario.delegable_grant) !! "urn:cap:u-1" = Some c
             /\ cap_issuer c = "did:ethr:b" /\ cap_subject c <> "did:ethr:b")
  /\ CapabilityIssuer.delegateCapability "d-1" 2000000 "urn:cap:u-1" "did:ethr:b"
       "did:ethr:c" None None (snd Scenario.delegable_grant)
     = (inl (AuthorizationError "Only the capability subject can delegate"),
        snd Scenario.delegable_grant).
Proof.
  split.
  - eexists. split; [vm_compute; reflexivity |]. split; [reflexivity | discriminate].
  - destruct (delegation_refusals "d-1" 2000000 "urn:cap:u-1" "did:ethr:b" "did:ethr:c"
                None None (snd Scenario.delegable_grant)) as [_ Hrow].
    edestruct Hrow as [Hsubject _]; [vm_compute; reflexivity |].
    apply Hsubject. discriminate.
Defined.

(** ** Conditions *)

(** X9. A condition whose operator is none of [equals], [greater_than],
    [less_than], [contains] and [in] never fails, whatever its value and
    whatever the context holds: [not_equals], [before] and [after] restrict
    nothing. *)
Theorem conditions_without_a_case_never_fail :
  forall (show : Q -> string) (conditions : list CapabilityCondition)
         (context : gmap string Js.Value),
    (forall c, In c conditions ->
       ~ In (cond_operator c) ["equals"; "greater_than"; "less_than"; "contains"; "in"]) ->
    CapabilityIssuer.evaluateConditions show conditions context = [].
Proof.
  intros show conditions context Hops.
  rewrite evaluateConditions_flat_map.
  induction conditions as [| c rest IH]; [reflexivity |].
  simpl. rewrite IH by (intros c' Hin; apply Hops; now right).
  rewrite app_nil_r.
  specialize (Hops c (or_introl eq_refl)).
  unfold CapabilityIssuer.evaluateCondition.
  destruct (String.eqb (cond_operator c) "equals") eqn:E1;
    [apply String.eqb_eq in E1; exfalso; apply Hops; rewrite E1; simpl; tauto |].
  destruct (String.eqb (cond_operator c) "greater_than") eqn:E2;
    [apply String.eqb_eq in E2; exfalso; apply Hops; rewrite E2; simpl; tauto |].
  destruct (String.eqb (cond_operator c) "less_than") eqn:E3;
    [apply String.eqb_eq in E3; exfalso; apply Hops; rewrite E3; simpl; tauto |].
  destruct (String.eqb (cond_operator c) "contains") eqn:E4;
    [apply String.eqb_eq in E4; exfalso; apply Hops; rewrite E4; simpl; tauto |].
  destruct (String.eqb (cond_operator c) "in") eqn:E5;
    [apply String.eqb_eq in E5; exfalso; apply Hops; rewrite E5; simpl; tauto |].
  reflexivity.
Qed.

(** The condition [region not_equals "eu"] against the context
    [region = "eu"]. *)
Lemma conditions_without_a_case_witness :
  Scenario.region_eu !! cond_parameter Scenario.region_condition
  = Some (cond_value Scenario.region_condition)
  /\ CapabilityIssuer.evaluateConditions Scenario.show_number
       [Scenario.region_condition] Scenario.region_eu = [].
Proof.
  split; [vm_compute; reflexivity |].
  apply conditions_without_a_case_never_fail.
  intros c [<- | []]. simpl. intuition discriminate.
Defined.

(** X10. [evaluateConditions] does not stop at the first failure: the
    errors of a list of conditions are the errors of each condition, in the
    order of the conditions, and each condition contributes at most one. *)
Theorem conditions_are_all_evaluated :
  forall (show : Q -> string) (before after : list CapabilityCondition)
         (context : gmap string Js.Value),
    CapabilityIssuer.evaluateConditions show (before ++ after)%list context
    = (CapabilityIssuer.evaluateConditions show before context
       ++ CapabilityIssuer.evaluateConditions show after context)%list
    /\ (length (CapabilityIssuer.evaluateConditions show before context)
        <= length before)%nat.
Proof.
  intros show before after context. rewrite !evaluateConditions_flat_map. split.
  - apply flat_map_app.
  - induction before as [| c rest IH]; [reflexivity |].
    simpl. rewrite length_app.
    assert (Hone : (length (CapabilityIssuer.evaluateCondition show c context) <= 1)%nat).
    { unfold CapabilityIssuer.evaluateCondition.
      repeat match goal with
             | |- context [if ?b then _ else _] => destruct b
             | |- context [match ?v with Js.Array _ => _ | _ => _ end] => destruct v
             end; simpl; lia. }
    lia.
Qed.

(** X11. [greater_than] fails exactly when the context value and the
    condition's value are both numbers and the first is not greater than the
    second, and [less_than] exactly when both are numbers and the first is
    not less; when either of them is of another type (a numeric string, say)
    or the parameter is absent from the context, the condition passes.  (A
    parameter that names an inherited property of the context object reads
    a function or an object, never a number, and passes like an absent
    one.) *)
Theorem numeric_conditions :
  forall (show : Q -> string) (condition : CapabilityCondition)
         (context : gmap string Js.Value),
    let actual := default Js.Undefined (context !! cond_parameter condition) in
    let errs := CapabilityIssuer.evaluateConditions show [condition] context in
    (cond_operator condition = "greater_than" ->
     (errs = [] <->
      forall x bound,
        actual = Js.Number x -> cond_value condition = Js.Number bound ->
        (bound < x)%Q))
    /\ (cond_operator condition = "less_than" ->
        (errs = [] <->
         forall x bound,
           actual = Js.Number x -> cond_value condition = Js.Number bound ->
           (x < bound)%Q)).
Proof.
  intros show condition context actual errs. subst errs actual.
  rewrite evaluateConditions_single. unfold CapabilityIssuer.evaluateCondition.
  split; intros Hop; rewrite Hop; simpl String.eqb; cbv iota.
  - destruct (default Js.Undefined (context !! cond_parameter condition))
      as [| | | x | | |], (cond_value condition) as [| | | bound | | |]; simpl;
      try (split; [intros _ x' bound' Hx Hb; discriminate | reflexivity]).
    destruct (Qle_bool x bound) eqn:Hle.
    + split; [discriminate |]. intros H. apply Qle_bool_iff in Hle.
      specialize (H x bound eq_refl eq_refl). exfalso. apply (Qlt_not_le _ _ H Hle).
    + split; [| reflexivity]. intros _ x' bound' Hx Hb.
      injection Hx as <-. injection Hb as <-.
      apply Qnot_le_lt. rewrite <- Qle_bool_iff. congruence.
  - destruct (default Js.Undefined (context !! cond_parameter condition))
      as [| | | x | | |], (cond_value condition) as [| | | bound | | |]; simpl;
      try (split; [intros _ x' bound' Hx Hb; discriminate | reflexivity]).
    destruct (Qle_bool bound x) eqn:Hle.
    + split; [discriminate |]. intros H. apply Qle_bool_iff in Hle.
      specialize (H x bound eq_refl eq_refl). exfalso. apply (Qlt_not_le _ _ H Hle).
    + split; [| reflexivity]. intros _ x' bound' Hx Hb.
      injection Hx as <-. injection Hb as <-.
      apply Qnot_le_lt. rewrite <- Qle_bool_iff. congruence.
Qed.

(** The condition [level > 5] against [level = 9] and against the text
    [level = "1"]: both pass. *)
Lemma numeric_conditions_witness :
  cond_operator Scenario.level_condition = "greater_than"
  /\ CapabilityIssuer.evaluateConditions Scenario.show_number
       [Scenario.level_condition] Scenario.level_9 = []
  /\ CapabilityIssuer.evaluateConditions Scenario.show_number
       [Scenario.level_condition] Scenario.level_text = [].
Proof.
  split; [reflexivity |]. split.
  - destruct (numeric_conditions Scenario.show_number Scenario.level_condition
                Scenario.level_9) as [Hgt _].
    apply (Hgt eq_refl). intros x bound Hx Hbound.
    assert (H9 : default Js.Undefined
                   (Scenario.level_9 !! cond_parameter Scenario.level_condition)
                 = Js.Number 9) by (vm_compute; reflexivity).
    rewrite H9 in Hx. injection Hx as <-. injection Hbound as <-. reflexivity.
  - destruct (numeric_conditions Scenario.show_number Scenario.level_condition
                Scenario.level_text) as [Hgt _].
    apply (Hgt eq_refl). intros x bound Hx Hbound.
    assert (Htext : default Js.Undefined
                      (Scenario.level_text !! cond_parameter Scenario.level_condition)
                    = Js.Str "1") by (vm_compute; reflexivity).
    rewrite Htext in Hx. discriminate.
Defined.

(** ** The authentication middleware *)

(** X12. [requireCapability] lets a request pass exactly when the list of
    required capabilities is not empty and the agent holds [admin] or one
    of the required capabilities; with an empty list it refuses every
    agent, an [admin] included. *)
Theorem requireCapability_passes_iff :
  forall (requiredCapabilities : list string) (agent : Auth.AuthenticatedAgent),
    Auth.requireCapability requiredCapabilities (Some agent) = None <->
    requiredCapabilities <> []
    /\ (In "admin" (Auth.auth_capabilities agent)
        \/ exists cap, In cap requiredCapabilities
                       /\ In cap (Auth.auth_capabilities agent)).
Proof.
  intros requiredCapabilities agent. unfold Auth.requireCapability.
  destruct (existsb _ requiredCapabilities) eqn:Hhas; simpl.
  - split; [intros _ | reflexivity].
    apply existsb_exists in Hhas. destruct Hhas as (cap & Hin & Hcap).
    split; [intros ->; contradiction |].
    apply orb_true_iff in Hcap. destruct Hcap as [Hcap | Hadmin].
    + right. exists cap. split; [assumption | now apply includes_string_iff].
    + left. now apply includes_string_iff.
  - split; [discriminate |]. intros [Hne Hholds]. exfalso.
    assert (Htrue : existsb
                      (fun cap =>
                         CapabilityIssuer.includes_string (Auth.auth_capabilities agent)
                           cap
                         || CapabilityIssuer.includes_string
                              (Auth.auth_capabilities agent) "admin")
                      requiredCapabilities = true).
    { apply existsb_exists. destruct Hholds as [Hadmin | (cap & Hin & Hcap)].
      - destruct requiredCapabilities as [| first rest]; [contradiction |].
        exists first. split; [now left |].
        apply includes_string_iff in Hadmin. rewrite Hadmin. apply orb_true_r.
      - exists cap. split; [assumption |].
        apply includes_string_iff in Hcap. now rewrite Hcap. }
    congruence.
Qed.

(** X13. [authenticateToken] tries the bearer token as a plain JWT first,
    so the token of a capability authenticates its subject, with the
    capabilities stored on the agent, for as long as the token itself is
    good: the [capabilities] table is not consulted, and a revoked or
    deleted capability changes nothing. *)
Theorem capability_token_authenticates_without_its_record :
  forall (secret : string) (show : Q -> string) (payload : Jwt.Payload)
         (now later : Date) (st : State) (agent : Agent),
    Jwt.nbf payload <= now / 1000 < Jwt.exp payload ->
    fst (getAgentByDID (Jwt.sub payload) st) = inr agent ->
    Auth.authenticateToken secret show (Some (Jwt.sign payload secret)) now later st
    = inr {| Auth.auth_id := agent_id agent; Auth.auth_did := agent_did agent;
             Auth.auth_capabilities := agent_capabilities agent |}.
Proof.
  intros secret show payload now later st agent [Hnbf Hexp] Hagent.
  unfold Auth.authenticateToken, Auth.authenticate_as_jwt, Jwt.sign, Jwt.verify.
  rewrite String.eqb_refl. simpl negb. cbv iota.
  apply Z.ltb_ge in Hnbf. apply Z.leb_gt in Hexp. rewrite Hnbf, Hexp, Hagent.
  reflexivity.
Qed.

(** The token of the revoked grant of the scenario still authenticates
    agent A. *)
Lemma revoked_token_authenticates_witness :
  (cap_status <$> capabilities Scenario.revoked_once !! "urn:cap:u-1"
   = Some CapabilityStatus.REVOKED
   /\ fst (getAgentByDID "did:ethr:a" Scenario.revoked_once) = inr Scenario.agentA)
  /\ Auth.authenticateToken Scenario.JWT_SECRET Scenario.show_number
       (Some (Scenario.token_of Scenario.agents_grant)) 3500000 3500000
       Scenario.revoked_once
     = inr {| Auth.auth_id := "a1"; Auth.auth_did := "did:ethr:a";
              Auth.auth_capabilities := [] |}.
Proof.
  assert (Hagent : fst (getAgentByDID "did:ethr:a" Scenario.revoked_once)
                   = inr Scenario.agentA) by (vm_compute; reflexivity).
  split; [split; [vm_compute; reflexivity | exact Hagent] |].
  apply (capability_token_authenticates_without_its_record Scenario.JWT_SECRET
           Scenario.show_number
           {| Jwt.jti := "urn:cap:u-1"; Jwt.sub := "did:ethr:a"; Jwt.iss := "did:ethr:b";
              Jwt.iat := 1000; Jwt.exp := 4600; Jwt.nbf := 1000;
              Jwt.payload_actions := ["read"]; Jwt.payload_resources := ["agents/*"];
              Jwt.payload_conditions := None |}
           3500000 3500000 Scenario.revoked_once Scenario.agentA).
  - split; [apply Z.leb_le | apply Z.ltb_lt]; reflexivity.
  - exact Hagent.
Defined.

(** X14. The second branch of [authenticateToken], which verifies the
    bearer token as a capability, can authenticate a request only for a
    token that was not yet valid when it was tried as a plain JWT and
    became valid before the second try; when both tries fall into the same
    second, every successful authentication is the plain-JWT one. *)
Theorem capability_branch_of_authentication :
  forall (secret : string) (show : Q -> string) (token : Jwt.Token)
         (now later : Date) (st : State) (authenticated : Auth.AuthenticatedAgent),
    now <= later ->
    Auth.authenticateToken secret show (Some token) now later st = inr authenticated ->
    (Auth.authenticate_as_jwt secret token now st = Some authenticated
     \/ exists payload,
         token = Jwt.Signed payload secret
         /\ now / 1000 < Jwt.nbf payload <= later / 1000)
    /\ (now / 1000 = later / 1000 ->
        Auth.authenticate_as_jwt secret token now st = Some authenticated).
Proof.
  intros secret show token now later st authenticated Hclock Hauth.
  assert (Hmain :
    Auth.authenticate_as_jwt secret token now st = Some authenticated
    \/ exists payload,
        token = Jwt.Signed payload secret
        /\ now / 1000 < Jwt.nbf payload <= later / 1000).
  { unfold Auth.authenticateToken in Hauth.
    destruct (Auth.authenticate_as_jwt secret token now st) as [a |] eqn:Hfirst.
    - left. congruence.
    - right.
      destruct (valid (CapabilityIssuer.verifyCapability secret show _ later st))
        eqn:Hvalid; [| discriminate].
      apply verifyCapability_valid_inv in Hvalid.
      destruct Hvalid as (payload & c & Htok & [Hnbf Hexp] & Hrow & Hnrev & Hnexp
                          & Hsub & Hact & Hres & Herrs).
      simpl in Htok. exists payload. split; [assumption |]. split; [| assumption].
      assert (Hresult :
        subject (CapabilityIssuer.verifyCapability secret show
                   {| CapabilityIssuer.vreq_token := token;
                      CapabilityIssuer.vreq_action := "authenticate";
                      CapabilityIssuer.vreq_resource := "system";
                      CapabilityIssuer.vreq_context := None |} later st)
        = Some (Jwt.sub payload)).
      { rewrite (verifyCapability_after_resource_check secret show _ later st payload c)
          by (try assumption; split; assumption).
        simpl. now destruct (cap_conditions c). }
      rewrite Hresult in Hauth.
      destruct (String.eqb (Jwt.sub payload) ""); [discriminate |].
      destruct (fst (getAgentByDID (Jwt.sub payload) st)) as [e | agent] eqn:Hagent;
        [discriminate |].
      unfold Auth.authenticate_as_jwt, Jwt.verify in Hfirst.
      rewrite Htok, String.eqb_refl in Hfirst. simpl negb in Hfirst. cbv iota in Hfirst.
      destruct (now / 1000 <? Jwt.nbf payload)%Z eqn:Hnbf1;
        [now apply Z.ltb_lt in Hnbf1 |].
      destruct (Jwt.exp payload <=? now / 1000)%Z eqn:Hexp1.
      + apply Z.leb_le in Hexp1.
        assert (now / 1000 <= later / 1000) by (apply Z.div_le_mono; lia). lia.
      + rewrite Hagent in Hfirst. discriminate. }
  split; [exact Hmain |].
  intros Hsame. destruct Hmain as [H | (payload & _ & Hlt & Hle)]; [exact H | lia].
Qed.

(** The token of the grant of the scenario, tried twice in the same
    millisecond. *)
Lemma capability_branch_witness :
  Auth.authenticateToken Scenario.JWT_SECRET Scenario.show_number
    (Some (Scenario.token_of Scenario.agents_grant)) 2000000 2000000
    (snd Scenario.agents_grant)
  = inr {| Auth.auth_id := "a1"; Auth.auth_did := "did:ethr:a";
           Auth.auth_capabilities := [] |}
  /\ Auth.authenticate_as_jwt Scenario.JWT_SECRET
       (Scenario.token_of Scenario.agents_grant) 2000000 (snd Scenario.agents_grant)
     = Some {| Auth.auth_id := "a1"; Auth.auth_did := "did:ethr:a";
               Auth.auth_capabilities := [] |}.
Proof.
  assert (Hrun :
    Auth.authenticateToken Scenario.JWT_SECRET Scenario.show_number
      (Some (Scenario.token_of Scenario.agents_grant)) 2000000 2000000
      (snd Scenario.agents_grant)
    = inr {| Auth.auth_id := "a1"; Auth.auth_did := "did:ethr:a";
             Auth.auth_capabilities := [] |}) by (vm_compute; reflexivity).
  split; [exact Hrun |].
  apply (proj2 (capability_branch_of_authentication _ _ _ _ _ _ _ (Z.le_refl _) Hrun)).
  reflexivity.
Defined.

(** ** The attestation service *)

Lemma insert_desc_Permutation {A} (key : A -> Z) (x : A) (l : list A) :
  Permutation (insert_desc key x l) (x :: l).
Proof.
  induction l as [| y rest IH]; simpl; [reflexivity |].
  destruct (key y <=? key x)%Z; [reflexivity |].
  rewrite IH. apply perm_swap.
Qed.

Lemma order_by_desc_Permutation {A} (key : A -> Z) (l : list A) :
  Permutation (order_by_desc key l) l.
Proof.
  induction l as [| x rest IH]; simpl; [reflexivity |].
  rewrite insert_desc_Permutation. now rewrite IH.
Qed.

Lemma In_take_drop {A} (n m : nat) (l : list A) (a : A) :
  In a (take n (drop m l)) -> In a l.
Proof.
  intros H.
  assert (Hdrop : In a (drop m l)).
  { rewrite <- (take_drop n (drop m l)). apply in_or_app. now left. }
  rewrite <- (take_drop m l). apply in_or_app. now right.
Qed.

(** *** Reading a row *)

Lemma mapAttestationFromDb_throws (row : Attestation) :
  is_Some (att_proof row) \/ is_Some (att_revocation row) ->
  exists reason, AttestationService.mapAttestationFromDb row = inl (SyntaxError reason).
Proof.
  unfold AttestationService.mapAttestationFromDb,
    AttestationService.JSON_parse_of_object.
  destruct (att_revocation row); [eauto |].
  destruct (att_proof row); [eauto |].
  intros [[x H] | [x H]]; discriminate.
Qed.

Lemma mapAttestationFromDb_returns (row attestation : Attestation) :
  AttestationService.mapAttestationFromDb row = inr attestation ->
  attestation = row /\ att_proof row = None /\ att_revocation row = None.
Proof.
  unfold AttestationService.mapAttestationFromDb,
    AttestationService.JSON_parse_of_object.
  destruct (att_revocation row); [discriminate |].
  destruct (att_proof row); [discriminate |].
  intros H. injection H as <-. auto.
Qed.

Lemma mapAttestationFromDb_error (row : Attestation) (e : AppError) :
  AttestationService.mapAttestationFromDb row = inl e ->
  exists reason, e = SyntaxError reason.
Proof.
  unfold AttestationService.mapAttestationFromDb,
    AttestationService.JSON_parse_of_object.
  destruct (att_revocation row); [intros H; injection H as <-; eauto |].
  destruct (att_proof row); [intros H; injection H as <-; eauto | discriminate].
Qed.

Lemma map_rows_returns (rows attestations : list Attestation) :
  AttestationService.map_rows rows = inr attestations ->
  attestations = rows
  /\ forall a, In a rows -> att_proof a = None /\ att_revocation a = None.
Proof.
  revert attestations. induction rows as [| row rest IH]; intros attestations H.
  - injection H as <-. split; [reflexivity | intros a []].
  - simpl in H.
    destruct (AttestationService.mapAttestationFromDb row) as [e | a] eqn:Hrow;
      [discriminate |].
    destruct (AttestationService.map_rows rest) as [e | l]; [discriminate |].
    injection H as <-.
    apply mapAttestationFromDb_returns in Hrow as (-> & Hproof & Hrevocation).
    destruct (IH l eq_refl) as [-> Hrest]. split; [reflexivity |].
    intros a [<- | Hin]; auto.
Qed.

Lemma map_rows_error (rows : list Attestation) (e : AppError) :
  AttestationService.map_rows rows = inl e -> exists reason, e = SyntaxError reason.
Proof.
  induction rows as [| row rest IH]; [discriminate |]. simpl.
  destruct (AttestationService.mapAttestationFromDb row) as [e' | a] eqn:Hrow.
  - intros H. injection H as <-. now apply mapAttestationFromDb_error in Hrow.
  - destruct (AttestationService.map_rows rest) as [e' | l]; [| discriminate].
    intros H. injection H as <-. now apply IH.
Qed.

Lemma map_rows_throws (row : Attestation) (rest : list Attestation) :
  is_Some (att_proof row) ->
  exists reason, AttestationService.map_rows (row :: rest) = inl (SyntaxError reason).
Proof.
  intros Hproof. simpl.
  destruct (mapAttestationFromDb_throws row (or_introl Hproof)) as [reason ->].
  eauto.
Qed.

Lemma find_attestation_In (attestationId : string) (st : State) (row : Attestation) :
  AttestationService.find_attestation attestationId st = Some row ->
  In row (attestations st).
Proof.
  unfold AttestationService.find_attestation. intros H.
  assert (Hin : In row (List.filter (fun a => String.eqb (att_id a) attestationId)
                          (attestations st))).
  { destruct (List.filter _ (attestations st)); [discriminate |].
    injection H as ->. now left. }
  now apply filter_In in Hin.
Qed.

(** The first page of a listing: empty when nothing matches; and when
    something matches and each matching row carries its proof, the listing
    throws. *)
Lemma listAttestations_first_page
    (filter : AttestationFilter) (limit : nat) (db_now : Date) (st : State) :
  limit <> 0%nat ->
  let matching :=
    List.filter (AttestationService.matches_filter filter db_now) (attestations st) in
  (matching = [] ->
   AttestationService.listAttestations filter 1 limit db_now st = inr ([], 0%nat))
  /\ (matching <> [] ->
      (forall row, In row matching -> is_Some (att_proof row)) ->
      exists reason,
        AttestationService.listAttestations filter 1 limit db_now st
        = inl (SyntaxError reason)).
Proof.
  intros Hlimit matching. unfold AttestationService.listAttestations. fold matching.
  change (1 =? 0)%nat with false. cbn [andb].
  change ((1 - 1) * limit)%nat with 0%nat. rewrite drop_0. split.
  - intros ->. simpl. now destruct limit.
  - intros Hsome Hproofs.
    pose proof (order_by_desc_Permutation att_issuedAt matching) as Hperm.
    destruct (order_by_desc att_issuedAt matching) as [| row rest].
    + apply Permutation_nil in Hperm. congruence.
    + destruct limit as [| limit']; [contradiction |]. cbn [take].
      destruct (map_rows_throws row (take limit' rest)) as [reason Hthrows].
      * apply Hproofs. apply (Permutation_in _ Hperm). now left.
      * cbn [firstn]. rewrite Hthrows. eauto.
Qed.

(** X15. [verifyAttestation] never answers [valid]: for an unknown
    identifier it answers invalid with "Attestation not found", and for a
    stored attestation with its proof it throws a [SyntaxError], because
    the row is read through [mapAttestationFromDb], which hands the parsed
    JSONB column [proof] to [JSON.parse]. *)
Theorem verifyAttestation_never_answers_valid :
  forall (now : Date) (attestationId : string) (st : State),
    (forall result,
       AttestationService.verifyAttestation now attestationId st = inr result ->
       AttestationService.av_valid result = false)
    /\ (AttestationService.find_attestation attestationId st = None ->
        AttestationService.verifyAttestation now attestationId st
        = inr {| AttestationService.av_valid := false;
                 AttestationService.av_attestation := None;
                 AttestationService.av_errors := Some ["Attestation not found"];
                 AttestationService.av_warnings := None |})
    /\ (forall row,
          AttestationService.find_attestation attestationId st = Some row ->
          is_Some (att_proof row) ->
          exists reason,
            AttestationService.verifyAttestation now attestationId st
            = inl (SyntaxError reason)).
Proof.
  intros now attestationId st. unfold AttestationService.verifyAttestation.
  destruct (AttestationService.find_attestation attestationId st) as [row |].
  - split; [| split]; [| discriminate |].
    + intros result.
      destruct (AttestationService.mapAttestationFromDb row) as [e | a] eqn:Hrow;
        [discriminate |].
      apply mapAttestationFromDb_returns in Hrow as (-> & Hproof & Hrevocation).
      rewrite Hproof. intros H. injection H as <-.
      cbn [AttestationService.av_valid]. rewrite length_app. simpl.
      rewrite Nat.add_1_r. reflexivity.
    + intros row' Hrow' Hproof. injection Hrow' as <-.
      destruct (mapAttestationFromDb_throws row (or_introl Hproof)) as [reason ->].
      eauto.
  - split; [| split]; [| reflexivity | discriminate].
    intros result H. injection H as <-. reflexivity.
Qed.

(** The trust assertion of the scenario is stored with its proof. *)
Lemma verifyAttestation_witness :
  exists reason,
    AttestationService.verifyAttestation 4000000 "urn:attest:1" Scenario.attested
    = inl (SyntaxError reason).
Proof.
  eapply (proj2 (proj2 (verifyAttestation_never_answers_valid 4000000 "urn:attest:1"
                          Scenario.attested))).
  - vm_compute. reflexivity.
  - eexists. reflexivity.
Defined.

(** X16. A [createAttestation] that throws has written nothing.  In
    particular, when the signer throws (it is called with the issuer's
    public key in the place of a private key) the error is the signer's and
    the store is as it was. *)
Theorem failed_attestation_writes_nothing :
  forall (signData : string -> string -> AppError + string)
         (hashAttestation : string -> AttestationType.t -> string -> string ->
                            list AttestationClaim -> string -> string)
         (toISOString : Date -> string)
         (id activityId : string) (now : Date) (issuerDid : string)
         (request : AttestationService.AttestationRequest) (st : State),
    let result :=
      AttestationService.createAttestation signData hashAttestation toISOString
        id activityId now issuerDid request st in
    (forall e, fst result = inl e -> snd result = st)
    /\ (forall issuer subject e,
          fst (getAgentByDID issuerDid st) = inr issuer ->
          agent_status issuer = AgentStatus.ACTIVE ->
          fst (getAgentByDID (AttestationService.areq_subject request) st)
          = inr subject ->
          signData
            (hashAttestation ("urn:attest:" ++ id)
               (AttestationService.areq_type request) issuerDid
               (AttestationService.areq_subject request)
               (map (fun claim =>
                       {| claim_type := AttestationService.rclaim_type claim;
                          claim_value := AttestationService.rclaim_value claim;
                          claim_issuer := Some issuerDid |})
                    (AttestationService.areq_claims request))
               (toISOString now))
            (agent_publicKey issuer) = inl e ->
          result = (inl e, st)).
Proof.
  intros signData hashAttestation toISOString id activityId now issuerDid request st
    result. subst result. split.
  - intros e.
    destruct (AttestationService.createAttestation _ _ _ _ _ _ _ _ _)
      as [outcome st'] eqn:Hrun.
    simpl. intros ->. revert Hrun.
    unfold AttestationService.createAttestation. unfold bind at 1.
    pose proof (getAgentByDID_reads issuerDid st) as Hissuer.
    destruct (getAgentByDID issuerDid st) as [[e' | issuer] st1];
      simpl in Hissuer; subst st1; [congruence |].
    destruct (decide (agent_status issuer <> AgentStatus.ACTIVE));
      [unfold throw; congruence |].
    unfold bind at 1.
    pose proof (getAgentByDID_reads (AttestationService.areq_subject request) st)
      as Hsubject.
    destruct (getAgentByDID (AttestationService.areq_subject request) st)
      as [[e' | subject] st1]; simpl in Hsubject; subst st1; [congruence |].
    cbv zeta. destruct (signData _ (agent_publicKey issuer));
      [unfold throw; congruence |].
    unfold bind, modify, logActivity, ret. simpl. discriminate.
  - intros issuer subject e Hissuer Hactive Hsubject Hsigner.
    apply getAgentByDID_found in Hissuer. apply getAgentByDID_found in Hsubject.
    unfold AttestationService.createAttestation, bind. rewrite Hissuer.
    destruct (decide (agent_status issuer <> AgentStatus.ACTIVE)); [contradiction |].
    rewrite Hsubject. cbv zeta. now rewrite Hsigner.
Qed.

(** B, whose key [04ab] is no private key, asserts trust in A. *)
Lemma failed_attestation_witness :
  (fst (getAgentByDID "did:ethr:b" Scenario.two_agents) = inr Scenario.agentB
   /\ fst (getAgentByDID "did:ethr:a" Scenario.two_agents) = inr Scenario.agentA)
  /\ Scenario.attest
     = (inl (Error "Expected private key to be an Uint8Array with length 32"),
        Scenario.two_agents).
Proof.
  assert (HB : fst (getAgentByDID "did:ethr:b" Scenario.two_agents)
               = inr Scenario.agentB) by (vm_compute; reflexivity).
  assert (HA : fst (getAgentByDID "did:ethr:a" Scenario.two_agents)
               = inr Scenario.agentA) by (vm_compute; reflexivity).
  split; [split; assumption |].
  apply (proj2 (failed_attestation_writes_nothing Scenario.signData
                  Scenario.hashAttestation Scenario.toISOString "t-1" "act-t" 1000000
                  "did:ethr:b" Scenario.trust_request Scenario.two_agents)
           Scenario.agentB Scenario.agentA _ HB eq_refl HA).
  reflexivity.
Defined.

(** X17. [revokeAttestation] revokes nothing: for an unknown identifier it
    throws [NotFoundError], and for a stored attestation with its proof it
    throws the [SyntaxError] of [getAttestation] before it looks at the
    caller.  With every stored row carrying its proof, as the schema
    demands, no call succeeds and none changes the store. *)
Theorem revokeAttestation_never_succeeds :
  forall (now : Date) (attestationId revokedBy : string) (reason : option string)
         (st : State),
    let result :=
      AttestationService.revokeAttestation now attestationId revokedBy reason st in
    (AttestationService.find_attestation attestationId st = None ->
     result = (inl (NotFoundError "Attestation" attestationId), st))
    /\ (forall row,
          AttestationService.find_attestation attestationId st = Some row ->
          is_Some (att_proof row) ->
          exists thrown, result = (inl (SyntaxError thrown), st))
    /\ ((forall row, In row (attestations st) -> is_Some (att_proof row)) ->
        fst result <> inr tt /\ snd result = st).
Proof.
  intros now attestationId revokedBy reason st result. subst result.
  unfold AttestationService.revokeAttestation, AttestationService.getAttestation, bind.
  destruct (AttestationService.find_attestation attestationId st) as [row |] eqn:Hfind.
  - assert (Hthrows : is_Some (att_proof row) ->
                      exists thrown,
                        AttestationService.mapAttestationFromDb row
                        = inl (SyntaxError thrown))
      by (intros H; apply mapAttestationFromDb_throws; now left).
    split; [discriminate |]. split.
    + intros row' Hrow' Hproof. injection Hrow' as <-.
      destruct (Hthrows Hproof) as [thrown ->]. eauto.
    + intros Hschema.
      destruct (Hthrows (Hschema row (find_attestation_In _ _ _ Hfind)))
        as [thrown ->].
      split; [discriminate | reflexivity].
  - split; [reflexivity |]. split; [discriminate |].
    intros _. split; [discriminate | reflexivity].
Qed.

(** B tries to revoke the trust assertion that the store of the scenario
    holds in its name. *)
Lemma revokeAttestation_witness :
  (forall row, In row (attestations Scenario.attested) -> is_Some (att_proof row))
  /\ fst (AttestationService.revokeAttestation 4000000 "urn:attest:1" "did:ethr:b" None
            Scenario.attested) <> inr tt
  /\ snd (AttestationService.revokeAttestation 4000000 "urn:attest:1" "did:ethr:b" None
            Scenario.attested) = Scenario.attested.
Proof.
  assert (Hschema : forall row,
            In row (attestations Scenario.attested) -> is_Some (att_proof row)).
  { intros row [<- | [<- | []]]; eexists; reflexivity. }
  split; [exact Hschema |].
  exact (proj2 (proj2 (revokeAttestation_never_succeeds 4000000 "urn:attest:1"
                         "did:ethr:b" None Scenario.attested)) Hschema).
Defined.

(** X19. With every stored row carrying its proof, [buildAttestationChain]
    returns a chain only for a subject about whom no valid attestation is
    stored: the chain is then empty, its root issuer is the subject, it
    counts as valid and scores 0.5.  As soon as a valid attestation about
    the subject is stored, the first listing throws a [SyntaxError] and so
    does the call. *)
Theorem attestation_chain_is_empty_or_fails :
  forall (subject : string) (attestationType : option AttestationType.t)
         (now db_now : Date) (st : State),
    (forall row, In row (attestations st) -> is_Some (att_proof row)) ->
    let about :=
      List.filter
        (AttestationService.matches_filter
           {| filter_issuer := None; filter_subject := Some subject;
              filter_type := attestationType; filter_validOnly := true;
              filter_issuedAfter := None; filter_issuedBefore := None |} db_now)
        (attestations st) in
    (about = [] ->
     AttestationService.buildAttestationChain subject attestationType now db_now st
     = inr {| chain_attestations := []; chain_rootIssuer := subject;
              chain_subject := subject; chain_chainValid := true;
              chain_trustScore := 0.5 |})
    /\ (about <> [] ->
        exists reason,
          AttestationService.buildAttestationChain subject attestationType now db_now st
          = inl (SyntaxError reason)).
Proof.
  intros subject attestationType now db_now st Hschema about.
  unfold AttestationService.buildAttestationChain.
  destruct (listAttestations_first_page
              {| filter_issuer := None; filter_subject := Some subject;
                 filter_type := attestationType; filter_validOnly := true;
                 filter_issuedAfter := None; filter_issuedBefore := None |}
              100 db_now st ltac:(discriminate)) as [Hnone Hsome].
  fold about in Hnone, Hsome. split.
  - intros Habout. rewrite (Hnone Habout). reflexivity.
  - intros Habout. destruct (Hsome Habout) as [reason ->]; [| eauto].
    intros row Hrow. apply Hschema. subst about. now apply filter_In in Hrow.
Qed.

(** In the store of the scenario B's trust assertion about A is valid:
    the chain of A cannot be built; that of Z, about whom nothing is
    attested, is empty. *)
Lemma attestation_chain_witness :
  (forall row, In row (attestations Scenario.attested) -> is_Some (att_proof row))
  /\ (exists reason, Scenario.chain_of_A = inl (SyntaxError reason))
  /\ Scenario.chain_of_Z
     = inr {| chain_attestations := []; chain_rootIssuer := "did:ethr:z";
              chain_subject := "did:ethr:z"; chain_chainValid := true;
              chain_trustScore := 0.5 |}.
Proof.
  assert (Hschema : forall row,
            In row (attestations Scenario.attested) -> is_Some (att_proof row)).
  { intros row [<- | [<- | []]]; eexists; reflexivity. }
  split; [exact Hschema |].
  split.
  - apply (proj2 (attestation_chain_is_empty_or_fails "did:ethr:a" None 4000001 4000000
                    Scenario.attested Hschema)).
    vm_compute. discriminate.
  - apply (proj1 (attestation_chain_is_empty_or_fails "did:ethr:z" None 4000001 4000000
                    Scenario.attested Hschema)).
    vm_compute. reflexivity.
Defined.

Lemma attScore_bounds (a : Attestation) :
  (0.5 <= AttestationService.attScore a <= 1)%Q.
Proof.
  unfold AttestationService.attScore.
  assert (Hn : (0 <= inject_Z (Z.of_nat (length (att_claims a))) * 0.05)%Q).
  { apply Qmult_le_0_compat; [| lra].
    change 0%Q with (inject_Z 0). rewrite <- Zle_Qle. lia. }
  destruct (Math_min_cases (inject_Z (Z.of_nat (length (att_claims a))) * 0.05) 0.2)
    as [[Hle ->] | [Hlt ->]];
    destruct (decide (att_type a = AttestationType.TRUST_ASSERTION));
    try destruct (decide (att_type a = AttestationType.IDENTITY_VERIFICATION));
    split; lra.
Qed.

Lemma chain_score_loop_bounds (chain : list Attestation) :
  forall (i : nat) (totalScore weight : Q),
    (0 <= weight)%Q ->
    (0.5 * weight <= totalScore <= weight)%Q ->
    let r := AttestationService.chain_score_loop chain i totalScore weight in
    (0.5 * snd r <= fst r <= snd r)%Q
    /\ (weight <= snd r)%Q
    /\ (chain <> [] -> (weight < snd r)%Q).
Proof.
  induction chain as [| a rest IH]; intros i totalScore weight Hw Ht; simpl.
  - split; [assumption |]. split; [lra | congruence].
  - assert (Hpos : (0 < 1 / inject_Z (Z.of_nat i + 1))%Q).
    { apply Qlt_shift_div_l; [| lra].
      change 0%Q with (inject_Z 0). rewrite <- Zlt_Qlt. lia. }
    pose proof (attScore_bounds a) as [Hlo Hhi].
    set (attWeight := (1 / inject_Z (Z.of_nat i + 1))%Q) in *.
    assert (Hprod : (0.5 * attWeight <= AttestationService.attScore a * attWeight
                     <= attWeight)%Q).
    { split.
      - apply Qmult_le_compat_r; lra.
      - apply Qle_trans with (1 * attWeight)%Q; [| lra].
        apply Qmult_le_compat_r; lra. }
    destruct (IH (S i) (totalScore + AttestationService.attScore a * attWeight)%Q
                (weight + attWeight)%Q) as (Hb & Hmono & _); [lra | lra |].
    split; [exact Hb |]. split; [lra | intros _; lra].
Qed.

(** X21. The trust score of an attestation chain always lies between 0.5
    and 1: each attestation scores between 0.5 and 1 by its type and the
    number of its claims, and the chain's score is a weighted mean of
    these, so no chain, however long or of whatever types, scores below the
    0.5 of an empty chain. *)
Theorem chain_trust_score_bounds :
  forall chain : list Attestation,
    (0.5 <= AttestationService.calculateChainTrustScore chain <= 1)%Q.
Proof.
  intros chain. unfold AttestationService.calculateChainTrustScore.
  destruct chain as [| a rest]; [split; lra |].
  pose proof (chain_score_loop_bounds (a :: rest) 0 0%Q 0%Q) as Hloop.
  destruct (AttestationService.chain_score_loop (a :: rest) 0 0 0)
    as [totalScore weight] eqn:Hrun.
  destruct Hloop as ([Hlo Hhi] & _ & Hpos); [lra | lra |].
  simpl in Hlo, Hhi, Hpos. specialize (Hpos ltac:(discriminate)).
  assert (Hmean : (0.5 <= totalScore / weight)%Q)
    by (apply Qle_shift_div_l; assumption).
  destruct (Math_min_cases (totalScore / weight) 1) as [[Hle ->] | [Hlt ->]];
    split; lra.
Qed.

(** X22. [listAttestations] returns only attestations that were stored
    without proof and without revocation: a page that is returned holds at
    most [limit] stored rows that satisfy the filter, with [total] the
    number of all matching rows; and with every stored row carrying its
    proof, as the schema demands, a page that is returned is empty.  On the
    first page it returns the empty page when nothing matches and throws a
    [SyntaxError] when something does.  For page 0 and a limit other than 0
    the store refuses the negative [OFFSET]. *)
Theorem listAttestations_returns_only_empty_pages :
  forall (filter : AttestationFilter) (page limit : nat) (db_now : Date) (st : State),
    let matching :=
      List.filter (AttestationService.matches_filter filter db_now) (attestations st) in
    (forall rows total,
       AttestationService.listAttestations filter page limit db_now st
       = inr (rows, total) ->
       total = length matching
       /\ (length rows <= limit)%nat
       /\ (forall a,
             In a rows ->
             In a (attestations st)
             /\ AttestationService.matches_filter filter db_now a = true
             /\ att_proof a = None /\ att_revocation a = None)
       /\ ((forall row, In row (attestations st) -> is_Some (att_proof row)) ->
           rows = []))
    /\ (page = 1%nat -> limit <> 0%nat -> matching = [] ->
        AttestationService.listAttestations filter page limit db_now st
        = inr ([], 0%nat))
    /\ (page = 1%nat -> limit <> 0%nat -> matching <> [] ->
        (forall row, In row (attestations st) -> is_Some (att_proof row)) ->
        exists reason,
          AttestationService.listAttestations filter page limit db_now st
          = inl (SyntaxError reason))
    /\ (page = 0%nat -> limit <> 0%nat ->
        exists reason,
          AttestationService.listAttestations filter page limit db_now st
          = inl (DatabaseError reason)).
Proof.
  intros filter page limit db_now st matching.
  split; [| split; [| split]].
  - intros rows total. unfold AttestationService.listAttestations. fold matching.
    destruct ((page =? 0)%nat && negb (limit =? 0)%nat); [discriminate |].
    destruct (AttestationService.map_rows _) as [e | mapped] eqn:Hmapped;
      [discriminate |].
    intros H. injection H as <- <-.
    apply map_rows_returns in Hmapped as [-> Hclean].
    assert (Hstored : forall a,
              In a (take limit (drop ((page - 1) * limit)
                                  (order_by_desc att_issuedAt matching))) ->
              In a (attestations st)
              /\ AttestationService.matches_filter filter db_now a = true).
    { intros a Ha. apply In_take_drop in Ha.
      apply (Permutation_in _ (order_by_desc_Permutation _ _)) in Ha.
      now apply filter_In in Ha. }
    split; [reflexivity |]. split; [rewrite length_take; lia |]. split.
    + intros a Ha. destruct (Hstored a Ha) as [Hin Hmatch].
      destruct (Hclean a Ha) as [Hproof Hrevocation]. auto.
    + intros Hschema.
      destruct (take limit _) as [| row rest]; [reflexivity |].
      destruct (Hstored row (or_introl eq_refl)) as [Hin _].
      destruct (Hschema row Hin) as [proof Hproof].
      destruct (Hclean row (or_introl eq_refl)) as [Hnone _]. congruence.
  - intros -> Hlimit Hnone.
    now apply (proj1 (listAttestations_first_page filter limit db_now st Hlimit)).
  - intros -> Hlimit Hsome Hschema.
    apply (proj2 (listAttestations_first_page filter limit db_now st Hlimit));
      [exact Hsome |].
    intros row Hrow. apply Hschema. now apply filter_In in Hrow.
  - intros -> Hlimit. unfold AttestationService.listAttestations.
    apply Nat.eqb_neq in Hlimit. rewrite Hlimit. simpl. eauto.
Qed.

(** The listings of the scenario: what is attested about A and about Z. *)
Lemma listAttestations_witness :
  (forall row, In row (attestations Scenario.attested) -> is_Some (att_proof row))
  /\ (exists reason,
        AttestationService.listAttestations
          {| filter_issuer := None; filter_subject := Some "did:ethr:a";
             filter_type := None; filter_validOnly := true;
             filter_issuedAfter := None; filter_issuedBefore := None |}
          1 100 4000000 Scenario.attested = inl (SyntaxError reason))
  /\ AttestationService.listAttestations
       {| filter_issuer := None; filter_subject := Some "did:ethr:z";
          filter_type := None; filter_validOnly := true;
          filter_issuedAfter := None; filter_issuedBefore := None |}
       1 100 4000000 Scenario.attested = inr ([], 0%nat).
Proof.
  assert (Hschema : forall row,
            In row (attestations Scenario.attested) -> is_Some (att_proof row)).
  { intros row [<- | [<- | []]]; eexists; reflexivity. }
  split; [exact Hschema |].
  split.
  - apply (proj1 (proj2 (proj2 (listAttestations_returns_only_empty_pages
                                  {| filter_issuer := None;
                                     filter_subject := Some "did:ethr:a";
                                     filter_type := None; filter_validOnly := true;
                                     filter_issuedAfter := None;
                                     filter_issuedBefore := None |}
                                  1 100 4000000 Scenario.attested))));
      [reflexivity | discriminate | vm_compute; discriminate | exact Hschema].
  - apply (proj1 (proj2 (listAttestations_returns_only_empty_pages
                           {| filter_issuer := None;
                              filter_subject := Some "did:ethr:z";
                              filter_type := None; filter_validOnly := true;
                              filter_issuedAfter := None;
                              filter_issuedBefore := None |}
                           1 100 4000000 Scenario.attested)));
      [reflexivity | discriminate | vm_compute; reflexivity].
Defined.

(** ** Decentralized identifiers *)

Lemma split_nonempty (sep : ascii) (s : string) : Utils.split sep s <> [].
Proof.
  destruct s as [| c rest]; simpl; [discriminate |].
  destruct (Ascii.eqb c sep); [discriminate |].
  destruct (Utils.split sep rest); discriminate.
Qed.

Lemma join_split (sep : ascii) (s : string) :
  Js.join (String sep "") (Utils.split sep s) = s.
Proof.
  induction s as [| c rest IH]; [reflexivity |].
  simpl Utils.split. pose proof (split_nonempty sep rest) as Hne.
  destruct (Ascii.eqb c sep) eqn:Hc.
  - apply Ascii.eqb_eq in Hc. subst c.
    destruct (Utils.split sep rest) as [| first others]; [contradiction |].
    change (Js.join (String sep "") ("" :: first :: others))
      with (String sep (Js.join (String sep "") (first :: others))).
    now rewrite IH.
  - destruct (Utils.split sep rest) as [| first others]; [contradiction |].
    destruct others as [| second others].
    + simpl in *. now rewrite IH.
    + change (Js.join (String sep "") (String c first :: second :: others))
        with (String c (Js.join (String sep "") (first :: second :: others))).
      now rewrite IH.
Qed.

Lemma includes_char_cons (c sep : ascii) (s : string) :
  Js.includes (String c s) (String sep "") = Ascii.eqb sep c || Js.includes s (String sep "").
Proof.
  simpl. destruct (ascii_dec sep c) as [-> | Hne].
  - rewrite Ascii.eqb_refl. now destruct s.
  - apply Ascii.eqb_neq in Hne. now rewrite Hne.
Qed.

Lemma split_app (sep : ascii) (m rest : string) :
  Js.includes m (String sep "") = false ->
  Utils.split sep (m ++ String sep rest) = m :: Utils.split sep rest.
Proof.
  induction m as [| c m IH]; intros Hm.
  - simpl. now rewrite Ascii.eqb_refl.
  - rewrite includes_char_cons in Hm. apply orb_false_iff in Hm as [Hc Hm].
    simpl. rewrite Ascii.eqb_sym, Hc. now rewrite (IH Hm).
Qed.

Lemma split_parts (sep : ascii) (s : string) :
  forall p, In p (Utils.split sep s) -> Js.includes p (String sep "") = false.
Proof.
  induction s as [| c rest IH]; intros p Hp.
  - destruct Hp as [<- | []]. reflexivity.
  - simpl in Hp. destruct (Ascii.eqb c sep) eqn:Hc.
    + destruct Hp as [<- | Hp]; [reflexivity | now apply IH].
    + destruct (Utils.split sep rest) as [| first others].
      * destruct Hp as [<- | []]. rewrite includes_char_cons, Ascii.eqb_sym, Hc.
        reflexivity.
      * destruct Hp as [<- | Hp].
        -- rewrite includes_char_cons, Ascii.eqb_sym, Hc. apply IH. now left.
        -- apply IH. now right.
Qed.

(** X23. [parseDID] accepts exactly the strings [did:<method>:<identifier>]
    whose method holds no colon, and returns that method and that identifier
    (which may hold colons, and may be empty).  It therefore reads back what
    [generateDID] wrote: the method and the identifier for [ethr] and any
    other method, the method and the encoded identifier for [key]. *)
Theorem parseDID_reads_generateDID :
  (forall did method identifier,
     Utils.parseDID did = Some (method, identifier) <->
     did = "did:" ++ method ++ ":" ++ identifier /\ Js.includes method ":" = false)
  /\ (forall (base64url_of_hex : string -> string) method identifier,
        Js.includes method ":" = false ->
        Utils.parseDID (Utils.generateDID base64url_of_hex method identifier)
        = Some (method,
                if String.eqb method "key" then "z" ++ base64url_of_hex identifier
                else identifier)).
Proof.
  assert (Hparse : forall method identifier,
            Js.includes method ":" = false ->
            Utils.parseDID ("did:" ++ method ++ ":" ++ identifier)
            = Some (method, identifier)).
  { intros method identifier Hmethod. unfold Utils.parseDID.
    change ("did:" ++ method ++ ":" ++ identifier)
      with ("did" ++ String ":" (method ++ String ":" identifier)).
    rewrite (split_app ":" "did") by reflexivity.
    rewrite (split_app ":" method) by exact Hmethod.
    pose proof (split_nonempty ":" identifier) as Hne.
    pose proof (join_split ":" identifier) as Hjoin.
    destruct (Utils.split ":" identifier) as [| first others]; [contradiction |].
    simpl String.eqb. cbv iota. now rewrite Hjoin. }
  split.
  - intros did method identifier. split.
    + unfold Utils.parseDID. intros H.
      pose proof (join_split ":" did) as Hjoin.
      pose proof (split_parts ":" did) as Hparts.
      destruct (Utils.split ":" did) as [| scheme [| m [| first others]]];
        try discriminate.
      destruct (String.eqb scheme "did") eqn:Hscheme; [| discriminate].
      apply String.eqb_eq in Hscheme. subst scheme.
      injection H as <- <-. split.
      * rewrite <- Hjoin. reflexivity.
      * apply Hparts. right. now left.
    + intros [-> Hmethod]. now apply Hparse.
  - intros base64url_of_hex method identifier Hmethod. unfold Utils.generateDID.
    destruct (String.eqb method "ethr") eqn:Hethr.
    + apply String.eqb_eq in Hethr. subst method. now apply (Hparse "ethr").
    + destruct (String.eqb method "key") eqn:Hkey.
      * apply String.eqb_eq in Hkey. subst method.
        now apply (Hparse "key" ("z" ++ base64url_of_hex identifier)).
      * now apply Hparse.
Qed.

(** A DID of the [web] method with a port in its identifier. *)
Lemma parseDID_witness :
  Js.includes "web" ":" = false
  /\ Utils.parseDID (Utils.generateDID (fun s => s) "web" "example.com:8080")
     = Some ("web", "example.com:8080").
Proof.
  split; [reflexivity |].
  apply (proj2 parseDID_reads_generateDID (fun s => s) "web" "example.com:8080").
  reflexivity.
Defined.

(** X24. [createDID] supports the methods [ethr] (the default) and [key]
    only.  For these it returns a DID that starts with [did:<method>:] and a
    document whose id is that DID, whose only verification method is
    [<did>#keys-1] with the public key stripped of a leading [0x]; it stores
    the document under the DID, replacing any document already there, and
    [resolveDID] then answers with it without consulting the external
    resolver.  For any other method it throws a [DIDError] and leaves the
    registry unchanged. *)
Theorem created_did_resolves :
  forall (base64url_of_hex : string -> string) (generated now : string)
         (method publicKey : option string) (documents : gmap string DIDDocument),
    let m := default "ethr" method in
    let result :=
      DIDService.createDID base64url_of_hex generated now method publicKey documents in
    ((m = "ethr" \/ m = "key") ->
     exists did document key,
       result = (inr (did, document), <[did := document]> documents)
       /\ Js.startsWith did ("did:" ++ m ++ ":") = true
       /\ doc_id document = did
       /\ doc_verificationMethod document
          = Some [{| vm_id := did ++ "#keys-1";
                     vm_type := if String.eqb m "ethr"
                                then "EcdsaSecp256k1RecoveryMethod2020"
                                else "Ed25519VerificationKey2020";
                     vm_controller := did;
                     vm_publicKeyHex := Some (DIDService.strip_0x key) |}]
       /\ (forall external,
             DIDService.res_didDocument
               (DIDService.resolveDID external did (snd result)) = Some document
             /\ DIDService.res_error
                  (DIDService.resolveDID external did (snd result)) = None))
    /\ (m <> "ethr" -> m <> "key" ->
        result
        = (inl (DIDError ("Failed to create DID: Unsupported DID method: " ++ m)),
           documents)).
Proof.
  intros base64url_of_hex generated now method publicKey documents m result.
  subst result. unfold DIDService.createDID. fold m. cbv zeta. split.
  - intros Hm.
    assert (Hkeys : exists identifier key,
              (if String.eqb m "ethr" then
                 match publicKey with
                 | Some pk => if String.eqb pk "" then Some (generated, generated)
                              else Some (DIDService.strip_0x pk, pk)
                 | None => Some (generated, generated)
                 end
               else if String.eqb m "key" then Some (generated, generated) else None)
              = Some (identifier, key)).
    { destruct Hm as [-> | ->]; simpl.
      - destruct publicKey as [pk |]; [destruct (String.eqb pk "") |]; eauto.
      - eauto. }
    destruct Hkeys as (identifier & key & ->).
    eexists _, _, key. split; [reflexivity |].
    split.
    { unfold Utils.generateDID, Js.startsWith. destruct Hm as [-> | ->]; simpl.
      - now destruct identifier.
      - reflexivity. }
    split; [reflexivity |]. split; [reflexivity |].
    intros external. unfold DIDService.resolveDID. cbn [snd].
    rewrite lookup_insert_eq. split; reflexivity.
  - intros Hethr Hkey.
    apply String.eqb_neq in Hethr, Hkey. rewrite Hethr, Hkey. reflexivity.
Qed.

(** The document of the scenario is the one that [createDID('ethr', '04ab')]
    stores in an empty registry. *)
Lemma created_did_witness :
  (default "ethr" (Some "ethr") = "ethr" \/ default "ethr" (Some "ethr") = "key")
  /\ exists did document,
      DIDService.createDID (fun s => s) "04ff" "2024-01-01T00:00:00.000Z"
        (Some "ethr") (Some "04ab") ∅
      = (inr (did, document), <[did := document]> ∅)
      /\ doc_id document = did.
Proof.
  assert (Hm : default "ethr" (Some "ethr") = "ethr"
               \/ default "ethr" (Some "ethr") = "key") by (left; reflexivity).
  split; [exact Hm |].
  destruct (proj1 (created_did_resolves (fun s => s) "04ff" "2024-01-01T00:00:00.000Z"
                     (Some "ethr") (Some "04ab") ∅) Hm)
    as (did & document & key & Hrun & _ & Hid & _).
  exists did, document. split; assumption.
Defined.

(** X25. In the registry every document is stored under its own id, and
    [createDID], [updateDID], [addVerificationMethod] and [deactivateDID]
    keep it so, whether they succeed or throw; in particular [updateDID]
    ignores an [id] carried by the update. *)
Theorem registry_documents_keep_their_id :
  forall (documents : gmap string DIDDocument),
    (forall did document, documents !! did = Some document -> doc_id document = did) ->
    forall did document,
      ((exists base64url_of_hex generated now method publicKey,
          snd (DIDService.createDID base64url_of_hex generated now method publicKey
                 documents) !! did = Some document)
       \/ (exists now target updates,
             snd (DIDService.updateDID now target updates documents) !! did
             = Some document)
       \/ (exists now target method,
             snd (DIDService.addVerificationMethod now target method documents) !! did
             = Some document)
       \/ (exists target,
             snd (DIDService.deactivateDID target documents) !! did = Some document)) ->
      doc_id document = did.
Proof.
  intros documents Hinv did document H.
  destruct H as [(base64url_of_hex & generated & now & method & publicKey & H)
                | [(now & target & updates & H)
                  | [(now & target & method & H) | (target & H)]]].
  - unfold DIDService.createDID in H.
    destruct (if String.eqb (default "ethr" method) "ethr" then _ else _)
      as [[identifier key] |]; cbn [snd] in H; [| now apply Hinv].
    apply lookup_insert_Some in H as [[<- <-] | [_ H]]; [reflexivity | now apply Hinv].
  - unfold DIDService.updateDID in H.
    destruct (documents !! target) as [existing |] eqn:Hexisting; cbn [snd] in H;
      [| now apply Hinv].
    apply lookup_insert_Some in H as [[<- <-] | [_ H]]; [| now apply Hinv].
    cbn [doc_id]. now apply Hinv.
  - unfold DIDService.addVerificationMethod in H.
    destruct (documents !! target) as [existing |] eqn:Hexisting; cbn [snd] in H;
      [| now apply Hinv].
    apply lookup_insert_Some in H as [[<- <-] | [_ H]]; [| now apply Hinv].
    cbn [doc_id]. now apply Hinv.
  - unfold DIDService.deactivateDID in H.
    destruct (documents !! target) as [existing |] eqn:Hexisting; cbn [snd] in H;
      [| now apply Hinv].
    apply lookup_delete_Some in H as [_ H]. now apply Hinv.
Qed.

(** An update of the document of the scenario that carries a foreign id. *)
Lemma registry_witness :
  (forall did document,
     Scenario.documents !! did = Some document -> doc_id document = did)
  /\ doc_id <$> snd (DIDService.updateDID "2024-02-01T00:00:00.000Z" "did:ethr:04ab"
                       {| DIDService.upd_id := Some "did:ethr:ffff";
                          DIDService.upd_controller := None;
                          DIDService.upd_verificationMethod := None;
                          DIDService.upd_authentication := None;
                          DIDService.upd_assertionMethod := None;
                          DIDService.upd_created := None;
                          DIDService.upd_updated := None |}
                       Scenario.documents) !! "did:ethr:04ab"
     = Some "did:ethr:04ab".
Proof.
  assert (Hinv : forall did document,
            Scenario.documents !! did = Some document -> doc_id document = did).
  { intros did document H. unfold Scenario.documents in H.
    apply lookup_singleton_Some in H as [<- <-]. reflexivity. }
  split; [exact Hinv |].
  destruct (snd (DIDService.updateDID _ _ _ Scenario.documents) !! "did:ethr:04ab")
    as [document |] eqn:Hdoc; [| vm_compute in Hdoc; discriminate].
  simpl. f_equal.
  apply (registry_documents_keep_their_id Scenario.documents Hinv
           "did:ethr:04ab" document).
  right. left. eexists _, _, _. exact Hdoc.
Defined.

(** X26. After [deactivateDID] has succeeded the DID is gone from the
    registry: [verifyDIDOwnership] answers false for it whatever the
    signature, [resolveDID] is left with the external resolver, and
    [updateDID], [addVerificationMethod] and a second [deactivateDID] throw;
    the documents of the other DIDs are untouched.  Deactivating a DID that
    the registry does not hold throws and changes nothing. *)
Theorem deactivated_did_is_gone :
  forall (did : string) (documents : gmap string DIDDocument),
    let result := DIDService.deactivateDID did documents in
    (is_Some (documents !! did) ->
     fst result = inr tt
     /\ (forall createHash signature message,
           DIDService.verifyDIDOwnership createHash (snd result) did signature message
           = inr false)
     /\ (forall external,
           DIDService.resolveDID external did (snd result)
           = DIDService.resolveDID external did ∅)
     /\ (forall now updates,
           DIDService.updateDID now did updates (snd result)
           = (inl (DIDError "DID not found in local registry"), snd result))
     /\ (forall now method,
           DIDService.addVerificationMethod now did method (snd result)
           = (inl (DIDError "DID not found"), snd result))
     /\ DIDService.deactivateDID did (snd result)
        = (inl (DIDError "DID not found"), snd result)
     /\ (forall other, other <> did -> snd result !! other = documents !! other))
    /\ (documents !! did = None ->
        result = (inl (DIDError "DID not found"), documents)).
Proof.
  intros did documents result. subst result. split.
  - intros [document Hdoc].
    assert (Hrun : DIDService.deactivateDID did documents
                   = (inr tt, delete did documents))
      by (unfold DIDService.deactivateDID; now rewrite Hdoc).
    rewrite Hrun. cbn [fst snd].
    assert (Hgone : delete did documents !! did = None) by apply lookup_delete_eq.
    split; [reflexivity |].
    split.
    { intros createHash signature message. unfold DIDService.verifyDIDOwnership.
      now rewrite Hgone. }
    split.
    { intros external. unfold DIDService.resolveDID. rewrite Hgone.
      now rewrite lookup_empty. }
    split.
    { intros now updates. unfold DIDService.updateDID. now rewrite Hgone. }
    split.
    { intros now method. unfold DIDService.addVerificationMethod. now rewrite Hgone. }
    split.
    { unfold DIDService.deactivateDID. now rewrite Hgone. }
    intros other Hother. now apply lookup_delete_ne.
  - intros Hnone. unfold DIDService.deactivateDID. now rewrite Hnone.
Qed.

(** The document of the scenario, deactivated. *)
Lemma deactivated_did_witness :
  is_Some (Scenario.documents !! "did:ethr:04ab")
  /\ forall createHash signature message,
       DIDService.verifyDIDOwnership createHash
         (snd (DIDService.deactivateDID "did:ethr:04ab" Scenario.documents))
         "did:ethr:04ab" signature message
       = inr false.
Proof.
  assert (Hdoc : is_Some (Scenario.documents !! "did:ethr:04ab")).
  { exists Scenario.documentA. unfold Scenario.documents. apply lookup_singleton_eq. }
  split; [exact Hdoc |].
  exact (proj1 (proj2 (proj1 (deactivated_did_is_gone "did:ethr:04ab"
                                Scenario.documents) Hdoc))).
Defined.

(** ** The trust engine *)






Lemma Qnat_nonneg (n : nat) : (0 <= TrustEngine.Qnat n)%Q.
Proof.
  unfold TrustEngine.Qnat. change 0%Q with (inject_Z 0). rewrite <- Zle_Qle. lia.
Qed.

Lemma Qnat_le (n m : nat) : (n <= m)%nat -> (TrustEngine.Qnat n <= TrustEngine.Qnat m)%Q.
Proof. intros H. unfold TrustEngine.Qnat. rewrite <- Zle_Qle. lia. Qed.

Lemma Qnat_pos (n : nat) : (0 < n)%nat -> (0 < TrustEngine.Qnat n)%Q.
Proof.
  intros H. unfold TrustEngine.Qnat. change 0%Q with (inject_Z 0).
  rewrite <- Zlt_Qlt. lia.
Qed.

(** X28. The components of a trust score stay within fixed bounds whatever
    is on record: the attestation score lies between 0.5 and 1, the activity
    score between 0.3 and 1, the age score is at most 1, the recency weight
    is never negative, and the anomaly penalty never exceeds 0.5.  So the
    attestations and the activity of an agent raise its base score by at
    least 0.21, even when they are all unfavourable. *)
Theorem score_components_bounds :
  forall (now createdAt : Date) (stored : list Attestation)
         (activities : list AgentActivity) (agentId : string) (st : State),
    (0.5 <= TrustEngine.calculateAttestationScore stored <= 1)%Q
    /\ (0.3 <= TrustEngine.calculateActivityScore now activities <= 1)%Q
    /\ (TrustEngine.calculateAgeScore now createdAt <= 1)%Q
    /\ (0 <= TrustEngine.calculateRecencyWeight now activities)%Q
    /\ (TrustEngine.calculateAnomalyPenalty agentId st <= 0.5)%Q
    /\ (0.21 <= TrustEngine.calculateAttestationScore stored * 0.3
                + TrustEngine.calculateActivityScore now activities * 0.2)%Q.
Proof.
  intros now createdAt stored activities agentId st.
  assert (Hatt : (0.5 <= TrustEngine.calculateAttestationScore stored <= 1)%Q).
  { unfold TrustEngine.calculateAttestationScore.
    destruct stored as [| a rest]; [split; lra |].
    set (trust := TrustEngine.count _ (a :: rest)).
    set (identity := TrustEngine.count _ (a :: rest)).
    pose proof (Qnat_nonneg trust). pose proof (Qnat_nonneg identity).
    destruct (Math_min_cases (TrustEngine.Qnat trust * 0.1) 0.3) as [[? ->] | [? ->]];
      destruct (Math_min_cases (TrustEngine.Qnat identity * 0.05) 0.2)
        as [[? ->] | [? ->]];
      match goal with
      | |- context [Js.Math_min ?X 1] =>
          destruct (Math_min_cases X 1) as [[? ->] | [? ->]]
      end; split; lra. }
  assert (Hact : (0.3 <= TrustEngine.calculateActivityScore now activities <= 1)%Q).
  { unfold TrustEngine.calculateActivityScore.
    destruct activities as [| a rest]; [split; lra |].
    destruct (List.filter _ (a :: rest)) as [| r recent]; [split; lra |].
    set (positive := TrustEngine.count _ (r :: recent)).
    set (negative := TrustEngine.count _ (r :: recent)).
    assert (Hratio :
      (0 <= TrustEngine.Qnat positive
            / (if (positive + negative =? 0)%nat then 1
               else TrustEngine.Qnat (positive + negative)) <= 1)%Q).
    { pose proof (Qnat_nonneg positive) as Hp.
      destruct (positive + negative =? 0)%nat eqn:Htotal.
      - apply Nat.eqb_eq in Htotal.
        assert (positive = 0%nat) as -> by lia.
        split; [apply Qle_shift_div_l | apply Qle_shift_div_r];
          try reflexivity; vm_compute; discriminate.
      - apply Nat.eqb_neq in Htotal.
        assert (Hpos : (0 < TrustEngine.Qnat (positive + negative))%Q)
          by (apply Qnat_pos; lia).
        split.
        + apply Qle_shift_div_l; [assumption | lra].
        + apply Qle_shift_div_r; [assumption |].
          rewrite Qmult_1_l. apply Qnat_le. lia. }
    destruct Hratio. split; lra. }
  split; [exact Hatt |]. split; [exact Hact |].
  split.
  { unfold TrustEngine.calculateAgeScore.
    match goal with
    | |- (Js.Math_min ?X 1 <= 1)%Q =>
        destruct (Math_min_cases X 1) as [[? ->] | [? ->]]; lra
    end. }
  split.
  { unfold TrustEngine.calculateRecencyWeight.
    destruct activities as [| lastActivity rest]; [lra |].
    match goal with
    | |- (0 <= Js.Math_max 0 ?X)%Q =>
        destruct (Math_max_cases 0 X) as [[? ->] | [? ->]]; lra
    end. }
  split.
  { unfold TrustEngine.calculateAnomalyPenalty.
    destruct (TrustEngine.getAnomalyHistory agentId (Some false) st)
      as [| anomaly rest]; [lra |].
    match goal with
    | |- (Js.Math_min ?X 0.5 <= 0.5)%Q =>
        destruct (Math_min_cases X 0.5) as [[? ->] | [? ->]]; lra
    end. }
  destruct Hatt, Hact. lra.
Qed.






Lemma filter_none {A} (p : A -> bool) (l : list A) :
  (forall x, In x l -> p x = false) -> List.filter p l = [].
Proof.
  induction l as [| x l IH]; intros H; [reflexivity |]. simpl.
  rewrite (H x (or_introl eq_refl)). apply IH. intros y Hy. apply H. now right.
Qed.

(** X30. [resolveAnomaly] never fails: it stamps every row with the given
    id as resolved, and when no row has that id it leaves the store as it
    was, without an error.  A resolved anomaly no longer counts against the
    agent: once all the unresolved anomalies of an agent have been resolved,
    its anomaly penalty is 0. *)
Theorem resolved_anomaly_no_longer_counts :
  forall (db_now : Date) (anomalyId : string) (st : State),
    let result := TrustEngine.resolveAnomaly db_now anomalyId st in
    fst result = inr tt
    /\ (forall r,
          In r (anomalies (snd result)) -> arow_id r = anomalyId ->
          arow_resolved_at r = Some db_now)
    /\ (forall agentId,
          (forall r,
             In r (anomalies st) ->
             anom_agentId (arow_anomaly r) = agentId ->
             arow_resolved_at r = None ->
             arow_id r = anomalyId) ->
          TrustEngine.calculateAnomalyPenalty agentId (snd result) = 0%Q)
    /\ ((forall r, In r (anomalies st) -> arow_id r <> anomalyId) ->
        snd result = st).
Proof.
  intros db_now anomalyId st result. subst result.
  unfold TrustEngine.resolveAnomaly, modify. cbn [fst snd].
  split; [reflexivity |]. split; [| split].
  - intros r Hin Hid. cbn [anomalies set_anomalies] in Hin.
    apply in_map_iff in Hin as (r0 & <- & _).
    destruct (String.eqb (arow_id r0) anomalyId) eqn:Hr0; [reflexivity |].
    apply String.eqb_neq in Hr0. contradiction.
  - intros agentId Hall. apply calculateAnomalyPenalty_none.
    unfold TrustEngine.getAnomalyHistory. cbn [anomalies set_anomalies].
    rewrite filter_none; [reflexivity |].
    intros r Hin. apply in_map_iff in Hin as (r0 & <- & Hin0).
    destruct (String.eqb (arow_id r0) anomalyId) eqn:Hr0.
    + cbn [arow_resolved_at arow_anomaly]. rewrite bool_decide_eq_false_2 by discriminate.
      apply andb_false_r.
    + apply String.eqb_neq in Hr0.
      destruct (String.eqb (anom_agentId (arow_anomaly r0)) agentId) eqn:Hagent;
        [| reflexivity].
      apply String.eqb_eq in Hagent. simpl.
      apply bool_decide_eq_false_2. intros Hnone.
      now apply Hr0, Hall.
  - intros Hnone.
    assert (Hsame : map (fun r =>
                           if String.eqb (arow_id r) anomalyId
                           then {| arow_id := arow_id r; arow_anomaly := arow_anomaly r;
                                   arow_resolved_at := Some db_now |}
                           else r) (anomalies st) = anomalies st).
    { rewrite <- (map_id (anomalies st)) at 2. apply map_ext_in. intros r Hin.
      specialize (Hnone r Hin). apply String.eqb_neq in Hnone. now rewrite Hnone. }
    unfold set_anomalies. rewrite Hsame. now destruct st.
Qed.

(** The anomaly detected in the scenario is stored under the id [id-0];
    once it is resolved, agent A has no penalty left. *)
Lemma resolved_anomaly_witness :
  (forall r,
     In r (anomalies (snd (Scenario.detect Scenario.admin_and_read_grants))) ->
     anom_agentId (arow_anomaly r) = "a1" ->
     arow_resolved_at r = None ->
     arow_id r = "id-0")
  /\ TrustEngine.calculateAnomalyPenalty "a1"
       (snd (TrustEngine.resolveAnomaly 2500000 "id-0"
               (snd (Scenario.detect Scenario.admin_and_read_grants)))) = 0%Q.
Proof.
  assert (Hrows : forall r,
            In r (anomalies (snd (Scenario.detect Scenario.admin_and_read_grants))) ->
            anom_agentId (arow_anomaly r) = "a1" ->
            arow_resolved_at r = None ->
            arow_id r = "id-0").
  { intros r Hin _ _.
    assert (Hids : map arow_id
                     (anomalies (snd (Scenario.detect Scenario.admin_and_read_grants)))
                   = ["id-0"]) by (vm_compute; reflexivity).
    apply (in_map arow_id) in Hin. rewrite Hids in Hin.
    destruct Hin as [<- | []]. reflexivity. }
  split; [exact Hrows |].
  exact (proj1 (proj2 (proj2 (resolved_anomaly_no_longer_counts 2500000 "id-0"
                                (snd (Scenario.detect Scenario.admin_and_read_grants)))))
           "a1" Hrows).
Defined.
